(** * A clipboard history manager, and what its specification says of it

    The program keeps a log of texts copied to the clipboard in a JSON file
    and answers queries over it.  This development embeds the class
    [ClipboardManager] of [clipboard_manager.py]: the history as a list of
    records, the two files of the data directory and the clipboard as
    explicit state, the clock and the answers typed at prompts as inputs,
    and exceptions as results.  [json.dump] and [json.load] are embedded as
    a printer and a parser on byte strings, so that what is saved can be
    read back by computation, and the division of two integers as the
    rounding of their quotient to the nearest double.

    Texts are byte strings holding the UTF-8 encoding of the Python [str].
    What each operation prints is represented by the value it prints. *)

From Stdlib Require Import String Ascii List ZArith Lia Bool QArith Qabs Qpower Sorted
  Permutation.
From Stdlib Require Decimal DecimalString DecimalFacts DecimalPos.
Import ListNotations.
Set Warnings "-register-all".
Local Open Scope string_scope.
Local Open Scope Z_scope.

(** * JSON as Python writes and reads it *)

(** [json.dump(v, f, indent=2, ensure_ascii=False)] and [json.load(f)] on
    values built from [None], booleans, integers, strings, lists and
    dicts with string keys.  A number with a fraction or an exponent is
    kept as its lexeme. *)
Module Json.
Import Decimal DecimalString.

Inductive json : Type :=
| JNull
| JBool (b : bool)
| JInt (z : Z)
| JFloat (lexeme : string)
| JStr (s : string)
| JArr (items : list json)
| JObj (members : list (string * json)).

(** The characters the grammar names, by code. *)
Definition dquote : ascii := "034".
Definition backslash : ascii := "092".
Definition newline : ascii := "010".

Definition str1 (c : ascii) : string := String c EmptyString.
Definition str2 (c d : ascii) : string := String c (String d EmptyString).

(** [ord] and [chr] on bytes. *)
Definition code (c : ascii) : Z := Z.of_N (N_of_ascii c).
Definition chr (z : Z) : ascii := ascii_of_N (Z.to_N z).

Definition hexdigit (z : Z) : ascii :=
  if z <? 10 then chr (48 + z) else chr (87 + z).

(** The replacement [ESCAPE_DCT] gives a character: the quote, the
    backslash and the control characters are escaped, everything else is
    written as it is. *)
Definition escape_char (c : ascii) : string :=
  if (c =? dquote)%char then str2 backslash dquote
  else if (c =? backslash)%char then str2 backslash backslash
  else if (c =? "010")%char then str2 backslash "n"
  else if (c =? "013")%char then str2 backslash "r"
  else if (c =? "009")%char then str2 backslash "t"
  else if (c =? "008")%char then str2 backslash "b"
  else if (c =? "012")%char then str2 backslash "f"
  else if code c <? 32 then
    String backslash (String "u" (String "0" (String "0"
      (String (hexdigit (code c / 16)) (String (hexdigit (code c mod 16)) EmptyString)))))
  else str1 c.

Fixpoint escape (s : string) : string :=
  match s with
  | EmptyString => EmptyString
  | String c r => escape_char c ++ escape r
  end.

(** [encode_basestring] *)
Definition quote (s : string) : string :=
  String dquote (escape s ++ str1 dquote).

(** [int.__repr__] *)
Definition string_of_Z (z : Z) : string :=
  match z with
  | Z0 => "0"
  | Zpos p => NilEmpty.string_of_uint (Pos.to_uint p)
  | Zneg p => String "-" (NilEmpty.string_of_uint (Pos.to_uint p))
  end.

(** [indent=2]: two spaces for each level of nesting. *)
Fixpoint indent_str (lvl : nat) : string :=
  match lvl with
  | O => EmptyString
  | S k => String " " (String " " (indent_str k))
  end.

Definition newline_indent (lvl : nat) : string := String newline (indent_str lvl).

(** [sep.join(l)] *)
Fixpoint join (sep : string) (l : list string) : string :=
  match l with
  | [] => EmptyString
  | [x] => x
  | x :: l' => x ++ sep ++ join sep l'
  end.

(** The text of a value at nesting level [lvl]: items and members each on
    a line of their own, separated by a comma, keys followed by a colon
    and a space. *)
Fixpoint dump (lvl : nat) (v : json) : string :=
  match v with
  | JNull => "null"
  | JBool true => "true"
  | JBool false => "false"
  | JInt z => string_of_Z z
  | JFloat lx => lx
  | JStr s => quote s
  | JArr [] => "[]"
  | JArr l =>
      "[" ++ newline_indent (S lvl)
          ++ join ("," ++ newline_indent (S lvl)) (map (dump (S lvl)) l)
          ++ newline_indent lvl ++ "]"
  | JObj [] => "{}"
  | JObj kvs =>
      "{" ++ newline_indent (S lvl)
          ++ join ("," ++ newline_indent (S lvl))
                (map (fun kv : string * json =>
                        let (k, x) := kv in quote k ++ ": " ++ dump (S lvl) x) kvs)
          ++ newline_indent lvl ++ "}"
  end.

Definition dumps (v : json) : string := dump 0 v.


(* ---- parser ---- *)

(** ** Reading *)

(** The whitespace of [WHITESPACE]: space, tab, line feed, carriage return. *)
Definition is_ws (c : ascii) : bool :=
  (c =? " ")%char || (c =? "009")%char || (c =? "010")%char || (c =? "013")%char.

Fixpoint skip_ws (s : string) : string :=
  match s with
  | String c r => if is_ws c then skip_ws r else s
  | EmptyString => s
  end.

Definition is_digit (c : ascii) : bool := (48 <=? code c) && (code c <=? 57).

(** The value of the four hexadecimal digits of a Unicode escape. *)
Definition hexval (c : ascii) : option Z :=
  let n := code c in
  if (48 <=? n) && (n <=? 57) then Some (n - 48)
  else if (97 <=? n) && (n <=? 102) then Some (n - 87)
  else if (65 <=? n) && (n <=? 70) then Some (n - 55)
  else None.

Definition hex4 (a b c d : ascii) : option Z :=
  match hexval a, hexval b, hexval c, hexval d with
  | Some x, Some y, Some z, Some w => Some (((x * 16 + y) * 16 + z) * 16 + w)
  | _, _, _, _ => None
  end.

(** The bytes of a code point. *)
Definition utf8_encode (cp : Z) : string :=
  if cp <? 128 then str1 (chr cp)
  else if cp <? 2048 then
    String (chr (192 + cp / 64)) (String (chr (128 + cp mod 64)) EmptyString)
  else if cp <? 65536 then
    String (chr (224 + cp / 4096))
      (String (chr (128 + (cp / 64) mod 64)) (String (chr (128 + cp mod 64)) EmptyString))
  else
    String (chr (240 + cp / 262144))
      (String (chr (128 + (cp / 4096) mod 64))
         (String (chr (128 + (cp / 64) mod 64)) (String (chr (128 + cp mod 64)) EmptyString))).

(** [BACKSLASH]: the character a one-letter escape stands for. *)
Definition unescape (e : ascii) : option ascii :=
  if (e =? dquote)%char then Some dquote
  else if (e =? backslash)%char then Some backslash
  else if (e =? "/")%char then Some "/"%char
  else if (e =? "b")%char then Some "008"%char
  else if (e =? "f")%char then Some "012"%char
  else if (e =? "n")%char then Some "010"%char
  else if (e =? "r")%char then Some "013"%char
  else if (e =? "t")%char then Some "009"%char
  else None.

Definition prepend (p : string) (k : option (string * string)) : option (string * string) :=
  match k with
  | Some (t, r) => Some (p ++ t, r)
  | None => None
  end.

(** [scanstring] in strict mode, from just after the opening quote: the
    text up to the closing quote with its escapes decoded, and what
    follows the quote.  A surrogate that is not half of a pair has no
    UTF-8 encoding and is refused. *)
Fixpoint scanstring (s : string) : option (string * string) :=
  match s with
  | EmptyString => None
  | String c r =>
    if (c =? dquote)%char then Some (EmptyString, r)
    else if (c =? backslash)%char then
      match r with
      | EmptyString => None
      | String e r1 =>
        if (e =? "u")%char then
          match r1 with
          | String h1 (String h2 (String h3 (String h4 r2))) =>
            match hex4 h1 h2 h3 h4 with
            | None => None
            | Some hi =>
              if (55296 <=? hi) && (hi <=? 56319) then
                match r2 with
                | String b1 (String u1 (String l1 (String l2 (String l3 (String l4 r3))))) =>
                  if (b1 =? backslash)%char && (u1 =? "u")%char then
                    match hex4 l1 l2 l3 l4 with
                    | Some lo =>
                      if (56320 <=? lo) && (lo <=? 57343) then
                        prepend (utf8_encode (65536 + (hi - 55296) * 1024 + (lo - 56320)))
                                (scanstring r3)
                      else None
                    | None => None
                    end
                  else None
                | _ => None
                end
              else if (56320 <=? hi) && (hi <=? 57343) then None
              else prepend (utf8_encode hi) (scanstring r2)
            end
          | _ => None
          end
        else
          match unescape e with
          | Some ch => prepend (str1 ch) (scanstring r1)
          | None => None
          end
      end
    else if code c <? 32 then None
    else prepend (str1 c) (scanstring r)
  end.

(** The longest prefix of decimal digits, and the rest. *)
Fixpoint span_digits (s : string) : string * string :=
  match s with
  | String c r =>
    if is_digit c then let (ds, r') := span_digits r in (String c ds, r') else (EmptyString, s)
  | EmptyString => (EmptyString, s)
  end.

(** The parts of [NUMBER_RE]: an integer part without leading zero, an
    optional fraction, an optional exponent. *)
Definition scan_int (s : string) : option (string * string) :=
  match s with
  | String c r =>
    if (c =? "0")%char then Some (str1 c, r)
    else if is_digit c then Some (span_digits s)
    else None
  | EmptyString => None
  end.

Definition scan_frac (s : string) : string * string :=
  match s with
  | String c (String d r) =>
    if (c =? ".")%char && is_digit d
    then let (ds, r') := span_digits (String d r) in (String c ds, r')
    else (EmptyString, s)
  | _ => (EmptyString, s)
  end.

Definition scan_exp (s : string) : string * string :=
  match s with
  | String e (String d r) =>
    if ((e =? "e")%char || (e =? "E")%char) then
      if is_digit d then let (ds, r') := span_digits (String d r) in (String e ds, r')
      else if ((d =? "+")%char || (d =? "-")%char) then
        match r with
        | String d' _ =>
          if is_digit d' then let (ds, r') := span_digits r in (String e (String d ds), r')
          else (EmptyString, s)
        | EmptyString => (EmptyString, s)
        end
      else (EmptyString, s)
    else (EmptyString, s)
  | _ => (EmptyString, s)
  end.

Definition Z_of_digits (ds : string) : Z :=
  match NilEmpty.uint_of_string ds with
  | Some u => Z.of_uint u
  | None => 0
  end.

(** [match_number]: an integer when there is neither fraction nor
    exponent. *)
Definition split_sign (s : string) : bool * string :=
  match s with
  | String c r => if (c =? "-")%char then (true, r) else (false, s)
  | EmptyString => (false, s)
  end.

Definition finish_number (neg : bool) (ip r : string) : json * string :=
  let (fp, r1) := scan_frac r in
  let (ep, r2) := scan_exp r1 in
  match fp, ep with
  | EmptyString, EmptyString =>
      (JInt (if neg then - Z_of_digits ip else Z_of_digits ip), r2)
  | _, _ => (JFloat ((if neg then "-" else EmptyString) ++ ip ++ fp ++ ep), r2)
  end.

Definition scan_number (s : string) : option (json * string) :=
  let (neg, s1) := split_sign s in
  match scan_int s1 with
  | None => None
  | Some (ip, r) => Some (finish_number neg ip r)
  end.

(** [s] without its prefix [p], when it starts with [p]. *)
Fixpoint strip_prefix (p s : string) : option string :=
  match p, s with
  | EmptyString, _ => Some s
  | String a p', String b s' => if (a =? b)%char then strip_prefix p' s' else None
  | String _ _, EmptyString => None
  end.

(** The cases of [scan_once] for literals and numbers, in its order. *)
Definition scan_atom (s : string) : option (json * string) :=
  match strip_prefix "null" s with
  | Some r => Some (JNull, r)
  | None =>
  match strip_prefix "true" s with
  | Some r => Some (JBool true, r)
  | None =>
  match strip_prefix "false" s with
  | Some r => Some (JBool false, r)
  | None =>
  match scan_number s with
  | Some res => Some res
  | None =>
  match strip_prefix "NaN" s with
  | Some r => Some (JFloat "NaN", r)
  | None =>
  match strip_prefix "Infinity" s with
  | Some r => Some (JFloat "Infinity", r)
  | None =>
  match strip_prefix "-Infinity" s with
  | Some r => Some (JFloat "-Infinity", r)
  | None => None
  end end end end end end end.

(** [JSONArray] from the first item on; [pv] reads one value, [n] bounds
    the number of items. *)
Fixpoint parse_elems (pv : string -> option (json * string)) (n : nat) (s : string)
  : option (list json * string) :=
  match n with
  | O => None
  | S n' =>
    match pv s with
    | None => None
    | Some (v, r) =>
      match skip_ws r with
      | String c r' =>
        if (c =? "]")%char then Some ([v], r')
        else if (c =? ",")%char then
          match parse_elems pv n' (skip_ws r') with
          | Some (vs, r'') => Some (v :: vs, r'')
          | None => None
          end
        else None
      | EmptyString => None
      end
    end
  end.

(** [JSONObject] from the quote of the first key on. *)
Fixpoint parse_members (pv : string -> option (json * string)) (n : nat) (s : string)
  : option (list (string * json) * string) :=
  match n with
  | O => None
  | S n' =>
    match s with
    | String q r0 =>
      if (q =? dquote)%char then
        match scanstring r0 with
        | None => None
        | Some (k, r1) =>
          match skip_ws r1 with
          | String c r2 =>
            if (c =? ":")%char then
              match pv (skip_ws r2) with
              | None => None
              | Some (v, r3) =>
                match skip_ws r3 with
                | String d r4 =>
                  if (d =? "}")%char then Some ([(k, v)], r4)
                  else if (d =? ",")%char then
                    match parse_members pv n' (skip_ws r4) with
                    | Some (kvs, r5) => Some ((k, v) :: kvs, r5)
                    | None => None
                    end
                  else None
                | EmptyString => None
                end
              end
            else None
          | EmptyString => None
          end
        end
      else None
    | EmptyString => None
    end
  end.

(** [scan_once]; [fuel] bounds nesting depth and item count. *)
Fixpoint parse_value (fuel : nat) (s : string) : option (json * string) :=
  match fuel with
  | O => None
  | S f =>
    match s with
    | EmptyString => None
    | String c r =>
      if (c =? dquote)%char then
        match scanstring r with
        | Some (t, r') => Some (JStr t, r')
        | None => None
        end
      else if (c =? "[")%char then
        match skip_ws r with
        | EmptyString => None
        | String c1 r1 =>
          if (c1 =? "]")%char then Some (JArr [], r1)
          else match parse_elems (parse_value f) f (String c1 r1) with
               | Some (vs, r') => Some (JArr vs, r')
               | None => None
               end
        end
      else if (c =? "{")%char then
        match skip_ws r with
        | EmptyString => None
        | String c1 r1 =>
          if (c1 =? "}")%char then Some (JObj [], r1)
          else match parse_members (parse_value f) f (String c1 r1) with
               | Some (kvs, r') => Some (JObj kvs, r')
               | None => None
               end
        end
      else scan_atom s
    end
  end.

(** [json.loads]: one value, surrounded by whitespace only.  The length of
    the text serves as fuel. *)
Definition loads (s : string) : option json :=
  match parse_value (String.length s) (skip_ws s) with
  | Some (v, r) => match skip_ws r with EmptyString => Some v | String _ _ => None end
  | None => None
  end.



(** ** Measures for the proofs *)

(** No number of the value is kept as a lexeme. *)
Fixpoint float_free (v : json) : bool :=
  match v with
  | JFloat _ => false
  | JArr l => forallb float_free l
  | JObj kvs => forallb (fun kv : string * json => let (_, x) := kv in float_free x) kvs
  | _ => true
  end.

(** The number of nodes of a value. *)
Fixpoint size (v : json) : nat :=
  match v with
  | JArr l => S (list_sum (map size l))
  | JObj kvs => S (list_sum (map (fun kv : string * json => let (_, x) := kv in size x) kvs))
  | _ => 1%nat
  end.

(** The text of one member of an object. *)
Definition dump_member (lvl : nat) (kv : string * json) : string :=
  let (k, x) := kv in quote k ++ ": " ++ dump lvl x.

Definition msize (kv : string * json) : nat := let (_, x) := kv in size x.

(** What may follow a number without being read as part of it. *)
Definition follow_ok (rest : string) : Prop :=
  match rest with
  | EmptyString => True
  | String c _ => is_digit c = false /\ c <> "."%char /\ c <> "e"%char /\ c <> "E"%char
  end.

(** [t] starts with a character that is not whitespace and closes nothing. *)
Definition starts_value (t : string) : Prop :=
  exists c r, t = String c r /\ is_ws c = false
              /\ (c =? "]")%char = false /\ (c =? "}")%char = false.

(** Reading the text of [v], whatever follows it, gives [v] back. *)
Definition round_trips (v : json) : Prop :=
  float_free v = true ->
  forall fuel lvl rest, (size v <= fuel)%nat -> follow_ok rest ->
    parse_value fuel (dump lvl v ++ rest) = Some (v, rest).

End Json.

(** * Python values and control flow used by the program *)

(** Exceptions the modelled code paths can raise. *)
Inductive exn : Type := ValueError | TypeError | OverflowError.

Inductive result (A : Type) : Type :=
| Ok (a : A)
| Raise (e : exn).
Arguments Ok {A} a.
Arguments Raise {A} e.

Definition bind {A B : Type} (r : result A) (k : A -> result B) : result B :=
  match r with
  | Ok a => k a
  | Raise e => Raise e
  end.

Notation "x <- r ;; k" := (bind r (fun x => k))
  (at level 61, r at next level, right associativity).

(** [len(l)] *)
Definition len {A : Type} (l : list A) : Z := Z.of_nat (length l).

(** [len(s.encode('utf-8'))]: a Python [str] is represented by the byte
    string of its UTF-8 encoding, so the encoded length is the length of
    the representation. *)
Definition utf8_len (s : string) : Z := Z.of_nat (String.length s).

(** Clamping of a slice bound, as [PySlice_AdjustIndices] does for step 1. *)
Definition clamp_index (i n : Z) : Z :=
  if i <? 0 then Z.max 0 (i + n) else Z.min i n.

(** [l[start:]] *)
Definition slice_from {A : Type} (start : Z) (l : list A) : list A :=
  skipn (Z.to_nat (clamp_index start (len l))) l.

(** [l[:stop]] *)
Definition slice_to {A : Type} (stop : Z) (l : list A) : list A :=
  firstn (Z.to_nat (clamp_index stop (len l))) l.

(** [needle in hay] on strings. *)
Fixpoint str_in (needle hay : string) : bool :=
  String.prefix needle hay
  || match hay with
     | String _ hay' => str_in needle hay'
     | EmptyString => false
     end.

(** ** datetime *)

(** A [datetime] is its wall-clock reading in microseconds counted from
    0001-01-01T00:00:00 (the value of [datetime.min] is 0), together with
    its UTC offset when it is offset-aware. *)
Record datetime : Type := mkDatetime {
  wall : Z;
  utcoffset : option Z
}.

Definition DAY_US : Z := 86400000000.
Definition MAXORDINAL : Z := 3652059.
Definition MAX_DELTA_DAYS : Z := 999999999.

(** [timedelta(days=d)], in microseconds. *)
Definition timedelta_days (d : Z) : result Z :=
  if Z.abs d <=? MAX_DELTA_DAYS then Ok (d * DAY_US) else Raise OverflowError.

(** [dt - delta] for a naive [dt]. *)
Definition datetime_sub (dt delta : Z) : result Z :=
  let r := dt - delta in
  if (0 <=? r) && (r <? MAXORDINAL * DAY_US) then Ok r else Raise OverflowError.

(** [d >= cutoff] where [cutoff] is naive. *)
Definition datetime_ge (d : datetime) (cutoff : Z) : result bool :=
  match utcoffset d with
  | Some _ => Raise TypeError
  | None => Ok (cutoff <=? wall d)
  end.

(** [d.date()], as the number of days since 0001-01-01. *)
Definition date_of (d : datetime) : Z := wall d / DAY_US.

(** The functions of the Python library whose tables and grammars are not
    part of the program: [str.lower], and the conversions between a
    datetime and its ISO 8601 text.  [now] readings and the operations of
    the manager are stated against this interface. *)
Class PyLib : Type := {
  str_lower : string -> string;
  isoformat : Z -> string;
  fromisoformat : string -> result datetime
}.

(** * Data model *)

(** One history record: the dict with keys [content], [timestamp], [size]. *)
Record entry : Type := mkEntry {
  content : string;
  timestamp : string;
  size : Z
}.

(** The configuration dict, restricted to the keys the program knows. *)
Record Config : Type := mkConfig {
  max_entries : option Z;
  retention_days : option Z
}.

(** [self.config.get('max_entries', 1000)] *)
Definition config_max_entries (c : Config) : Z :=
  match max_entries c with
  | Some n => n
  | None => 1000
  end.

Definition default_config : Config :=
  {| max_entries := Some 1000; retention_days := Some 30 |}.

Record ClipboardManager : Type := mkManager {
  max_size_bytes : Z;
  history : list entry;
  config : Config
}.

(** The two files of the data directory. *)
Inductive path : Type := HistoryFile | ConfigFile.

(** What the manager acts on outside itself: the files of its data
    directory, the system clipboard, and the sequence of file writes
    performed so far (most recent first). *)
Record world : Type := mkWorld {
  history_file : option string;
  config_file : option string;
  clipboard : string;
  writes : list (path * string)
}.

Definition write_file (p : path) (text : string) (w : world) : world :=
  match p with
  | HistoryFile =>
      {| history_file := Some text; config_file := config_file w;
         clipboard := clipboard w; writes := (p, text) :: writes w |}
  | ConfigFile =>
      {| history_file := history_file w; config_file := Some text;
         clipboard := clipboard w; writes := (p, text) :: writes w |}
  end.

Definition set_history (m : ClipboardManager) (h : list entry) : ClipboardManager :=
  {| max_size_bytes := max_size_bytes m; history := h; config := config m |}.

(** ** Conversion to and from JSON values *)

Definition json_of_entry (e : entry) : Json.json :=
  Json.JObj [("content", Json.JStr (content e));
             ("timestamp", Json.JStr (timestamp e));
             ("size", Json.JInt (size e))].

Definition json_of_history (h : list entry) : Json.json :=
  Json.JArr (map json_of_entry h).

Definition json_of_config (c : Config) : Json.json :=
  Json.JObj
    ((match max_entries c with
      | Some n => [("max_entries", Json.JInt n)]
      | None => []
      end)
     ++ (match retention_days c with
         | Some n => [("retention_days", Json.JInt n)]
         | None => []
         end))%list.

(** [d.get(k)] on a decoded object: of several members with the same key
    the decoder keeps the last. *)
Fixpoint dict_get (k : string) (kvs : list (string * Json.json)) : option Json.json :=
  match kvs with
  | [] => None
  | (k', v) :: rest =>
      match dict_get k rest with
      | Some v' => Some v'
      | None => if (k =? k')%string then Some v else None
      end
  end.

Definition entry_of_json (v : Json.json) : option entry :=
  match v with
  | Json.JObj kvs =>
      match dict_get "content" kvs, dict_get "timestamp" kvs, dict_get "size" kvs with
      | Some (Json.JStr c), Some (Json.JStr t), Some (Json.JInt n) =>
          Some {| content := c; timestamp := t; size := n |}
      | _, _, _ => None
      end
  | _ => None
  end.

Fixpoint entries_of_json (l : list Json.json) : option (list entry) :=
  match l with
  | [] => Some []
  | v :: l' =>
      match entry_of_json v, entries_of_json l' with
      | Some e, Some es => Some (e :: es)
      | _, _ => None
      end
  end.

Definition history_of_json (v : Json.json) : option (list entry) :=
  match v with
  | Json.JArr l => entries_of_json l
  | _ => None
  end.

Definition int_member (k : string) (kvs : list (string * Json.json)) : option (option Z) :=
  match dict_get k kvs with
  | None => Some None
  | Some (Json.JInt n) => Some (Some n)
  | Some _ => None
  end.

Definition config_of_json (v : Json.json) : option Config :=
  match v with
  | Json.JObj kvs =>
      match int_member "max_entries" kvs, int_member "retention_days" kvs with
      | Some a, Some b => Some {| max_entries := a; retention_days := b |}
      | _, _ => None
      end
  | _ => None
  end.

(** Why loading can fail: the text is not JSON ([json.JSONDecodeError]), or
    it is JSON of another shape than a list of records (a configuration
    object), which the typed store cannot hold. *)
Inductive load_error : Type := JSONDecodeError | UnexpectedShape.

Inductive load_result (A : Type) : Type :=
| Loaded (a : A)
| LoadFailed (e : load_error).
Arguments Loaded {A} a.
Arguments LoadFailed {A} e.

Definition decode {A : Type} (of_json : Json.json -> option A) (text : string)
  : load_result A :=
  match Json.loads text with
  | None => LoadFailed JSONDecodeError
  | Some v =>
      match of_json v with
      | Some a => Loaded a
      | None => LoadFailed UnexpectedShape
      end
  end.

(** [if x: yes(x) else: no] for an [Optional[int]] argument. *)
Definition if_truthy {A : Type} (o : option Z) (yes : Z -> A) (no : A) : A :=
  match o with
  | Some n => if n =? 0 then no else yes n
  | None => no
  end.

(** What [get_entry] reports. *)
Inductive get_outcome : Type :=
| NoHistory                          (* prints: No clipboard history. *)
| InvalidIndex (upper : Z)           (* prints: Invalid index. Range: 1-upper *)
| Shown (e : entry) (copied : bool). (* prints the entry, then offers the copy *)

(** What [clear] reports. *)
Inductive clear_report : Type :=
| Removed (n : Z)                    (* prints: Removed n entries older than ... *)
| Cleared                            (* prints: Clipboard history cleared. *)
| Cancelled.                         (* prints: Cancelled. *)

(** * Python's float *)

(** A finite IEEE 754 binary64 number, of value
    [(-1)^negative * mantissa * 2^exponent]. *)
Record pyfloat : Type := mkFloat {
  negative : bool;
  mantissa : Z;
  exponent : Z
}.





(** The integer nearest to [num / den], the even one of two equally near. *)
Definition round_half_even (num den : Z) : Z :=
  let q := num / den in
  let r := num mod den in
  if 2 * r <? den then q
  else if den <? 2 * r then q + 1
  else if Z.even q then q else q + 1.

(** [a / b] on two [int]s, [b] positive: the double nearest to the
    quotient, the one of even mantissa of two equally near;
    [OverflowError] when that is beyond the largest double.  The
    quotient is taken in units of [2^-1074], the spacing of the smallest
    doubles, and rounded to 53 bits. *)
Definition int_true_divide (a : Z) (b : positive) : result pyfloat :=
  let n := Z.abs a * 2 ^ 1074 in
  let e := Z.max 0 (Z.log2 (n / Zpos b) - 52) in
  let m := round_half_even n (Zpos b * 2 ^ e) in
  let me := if m =? 2 ^ 53 then (2 ^ 52, e + 1) else (m, e) in
  if 2045 <? snd me then Raise OverflowError
  else Ok {| negative := a <? 0; mantissa := fst me; exponent := snd me - 1074 |}.

(** A Python number: an [int] or a [float]. *)
Inductive pynum : Type :=
| PyInt (n : Z)
| PyFloat (f : pyfloat).


(** The figures [stats] computes and prints: the total size in bytes and
    in megabytes ([total_size / (1024*1024)], taken when it is printed),
    the average, the days. *)
Record stats_report : Type := mkStats {
  total_entries : Z;
  total_size : Z;
  total_size_mb : pyfloat;
  avg_size : pynum;
  days_with_activity : Z;
  most_active_days : list (Z * Z)
}.

(** [by_day[date] = by_day.get(date, 0) + 1] on a dict kept in insertion order. *)
Fixpoint bump (date : Z) (by_day : list (Z * Z)) : list (Z * Z) :=
  match by_day with
  | [] => [(date, 1)]
  | (d, c) :: rest =>
      if d =? date then (d, c + 1) :: rest else (d, c) :: bump date rest
  end.

(** [sorted(items, key=lambda x: x[1], reverse=True)]: by count, largest
    first, items of equal count in their original order. *)
Fixpoint insert_desc (x : Z * Z) (l : list (Z * Z)) : list (Z * Z) :=
  match l with
  | [] => [x]
  | y :: l' => if snd y <=? snd x then x :: l else y :: insert_desc x l'
  end.

Definition sorted_desc (l : list (Z * Z)) : list (Z * Z) :=
  fold_right insert_desc [] l.

(** [total / n if n > 0 else 0]: the float of the division, or the int 0. *)
Definition average (total n : Z) : result pynum :=
  match n with
  | Zpos p => f <- int_true_divide total p ;; Ok (PyFloat f)
  | _ => Ok (PyInt 0)
  end.

(** [self.history and self.history[-1]['content'] == text] *)
Definition same_as_last (h : list entry) (text : string) : bool :=
  match rev h with
  | e :: _ => (content e =? text)%string
  | [] => false
  end.

(** * The operations of [ClipboardManager] *)

Section Operations.
Context {lib : PyLib}.

Definition save_data (m : ClipboardManager) (w : world) : world :=
  write_file HistoryFile (Json.dumps (json_of_history (history m))) w.

Definition save_config (m : ClipboardManager) (w : world) : world :=
  write_file ConfigFile (Json.dumps (json_of_config (config m))) w.

Definition load_data (max_size : Z) (w : world)
  : load_result (ClipboardManager * world) :=
  match
    match history_file w with
    | Some text => decode history_of_json text
    | None => Loaded []
    end
  with
  | LoadFailed e => LoadFailed e
  | Loaded h =>
      match config_file w with
      | Some text =>
          match decode config_of_json text with
          | Loaded c =>
              Loaded ({| max_size_bytes := max_size; history := h; config := c |}, w)
          | LoadFailed e => LoadFailed e
          end
      | None =>
          let m := {| max_size_bytes := max_size; history := h;
                      config := default_config |} in
          Loaded (m, save_config m w)
      end
  end.

(** [ClipboardManager(data_dir, max_size_mb)] on an existing data directory. *)
Definition init (max_size_mb : Z) (w : world)
  : load_result (ClipboardManager * world) :=
  load_data (max_size_mb * 1024 * 1024) w.

Definition add_entry (m : ClipboardManager) (w : world) (now : Z) (text : string)
  : bool * ClipboardManager * world :=
  if max_size_bytes m <? utf8_len text then (false, m, w)
  else if same_as_last (history m) text then (false, m, w)
  else
    let e := {| content := text; timestamp := isoformat now;
                size := utf8_len text |} in
    let h := (history m ++ [e])%list in
    let max_e := config_max_entries (config m) in
    let h := if max_e <? len h then slice_from (- max_e) h else h in
    let m' := set_history m h in
    (true, m', save_data m' w).

(** [datetime.now() - timedelta(days=days)] *)
Definition cutoff_before (now days : Z) : result Z :=
  delta <- timedelta_days days ;;
  datetime_sub now delta.

(** [[e for e in l if datetime.fromisoformat(e['timestamp']) >= cutoff]] *)
Fixpoint filter_since (cutoff : Z) (l : list entry) : result (list entry) :=
  match l with
  | [] => Ok []
  | e :: l' =>
      d <- fromisoformat (timestamp e) ;;
      keep <- datetime_ge d cutoff ;;
      rest <- filter_since cutoff l' ;;
      Ok (if keep then e :: rest else rest)
  end.

(** The entries [list_entries] prints, in the order it prints them. *)
Definition list_entries (m : ClipboardManager) (now : Z) (limit days : option Z)
  : result (list entry) :=
  entries <- if_truthy days
               (fun d => cutoff <- cutoff_before now d ;;
                         filter_since cutoff (history m))
               (Ok (history m)) ;;
  let entries := rev entries in
  Ok (if_truthy limit (fun n => slice_to n entries) entries).

(** The loop of [search] over the entries still to visit, with the matches
    collected so far. *)
Fixpoint search_loop (query_lower : string) (limit : option Z)
    (todo matches : list entry) : list entry :=
  match todo with
  | [] => matches
  | e :: todo' =>
      if str_in query_lower (str_lower (content e)) then
        let matches := (matches ++ [e])%list in
        if if_truthy limit (fun n => n <=? len matches) false
        then matches
        else search_loop query_lower limit todo' matches
      else search_loop query_lower limit todo' matches
  end.

(** The entries [search] prints, in the order it prints them. *)
Definition search (m : ClipboardManager) (query : string) (limit : option Z)
  : list entry :=
  search_loop (str_lower query) limit (rev (history m)) [].

(** The prompt that follows the printed entry (lines 211-218): [response]
    is the answer typed, [None] when the prompt is interrupted. *)
Definition offer_copy (w : world) (e : entry) (response : option string)
  : get_outcome * world :=
  match response with
  | Some r =>
      if (str_lower r =? "y")%string
      then (Shown e true,
            {| history_file := history_file w; config_file := config_file w;
               clipboard := content e; writes := writes w |})
      else (Shown e false, w)
  | None => (Shown e false, w)
  end.

(** The timestamp of the chosen entry is parsed (line 200) before the entry
    is printed and before the prompt: when the parse raises, no entry is
    shown and nothing is asked or copied. *)
Definition get_entry (m : ClipboardManager) (w : world) (index : Z)
    (response : option string) : result (get_outcome * world) :=
  match history m with
  | [] => Ok (NoHistory, w)
  | _ :: _ =>
      let entries := rev (history m) in
      if (index <? 1) || (len entries <? index) then Ok (InvalidIndex (len entries), w)
      else
        match nth_error entries (Z.to_nat (index - 1)) with
        | None => Ok (InvalidIndex (len entries), w)
        | Some e =>
            dt <- fromisoformat (timestamp e) ;;
            Ok (offer_copy w e response)
        end
  end.

(** [response] is the answer typed at the confirmation prompt; it is read
    only on the path without [days]. *)
Definition clear (m : ClipboardManager) (w : world) (now : Z) (days : option Z)
    (response : string) : result (clear_report * ClipboardManager * world) :=
  r <- if_truthy days
         (fun d =>
            cutoff <- cutoff_before now d ;;
            let original_count := len (history m) in
            kept <- filter_since cutoff (history m) ;;
            Ok (Removed (original_count - len kept), set_history m kept))
         (Ok (if (str_lower response =? "yes")%string
              then (Cleared, set_history m [])
              else (Cancelled, m))) ;;
  let m' := snd r in
  Ok (fst r, m', save_data m' w).

(** The loop of [stats] that counts the entries of each day. *)
Fixpoint count_days (l : list entry) (by_day : list (Z * Z)) : result (list (Z * Z)) :=
  match l with
  | [] => Ok by_day
  | e :: l' =>
      d <- fromisoformat (timestamp e) ;;
      count_days l' (bump (date_of d) by_day)
  end.

(** [None] when [stats] prints that there is no history.  The average is
    taken before the days are counted and the megabytes when the report is
    printed, and each of the two divisions can raise [OverflowError]. *)
Definition stats (m : ClipboardManager) : result (option stats_report) :=
  match history m with
  | [] => Ok None
  | _ :: _ =>
      let n := len (history m) in
      let total := fold_left (fun acc e => acc + size e) (history m) 0 in
      avg <- average total n ;;
      by_day <- count_days (history m) [] ;;
      mb <- int_true_divide total (1024 * 1024) ;;
      Ok (Some {| total_entries := n; total_size := total; total_size_mb := mb;
                  avg_size := avg;
                  days_with_activity := len by_day;
                  most_active_days := firstn 5 (sorted_desc by_day) |})
  end.

(** One turn of the loop of [monitor]: [pasted] is what the clipboard
    holds, [last_content] what the previous turns saw. *)
Definition monitor_step (m : ClipboardManager) (w : world) (now : Z)
    (last_content : option string) (pasted : string)
  : ClipboardManager * world * option string :=
  if negb (pasted =? EmptyString)%string
     && negb (match last_content with
              | Some l => (pasted =? l)%string
              | None => false
              end)
  then let '(_, m', w') := add_entry m w now pasted in (m', w', Some pasted)
  else (m, w, last_content).

End Operations.

(** * A concrete library *)

(** An executable [PyLib], used to run the operations on examples.  It
    agrees with CPython on the inputs the examples use: [str.lower] on
    ASCII text, [isoformat] on naive datetimes, and [fromisoformat] on the
    texts [isoformat] produces (YYYY-MM-DDTHH:MM:SS with an optional
    six-digit fraction); other texts are refused with [ValueError]. *)
Module Reference.

Definition lower_char (c : ascii) : ascii :=
  let n := Json.code c in
  if (65 <=? n) && (n <=? 90) then Json.chr (n + 32) else c.

Fixpoint ascii_lower (s : string) : string :=
  match s with
  | EmptyString => EmptyString
  | String c r => String (lower_char c) (ascii_lower r)
  end.

Definition is_leap (y : Z) : bool :=
  (y mod 4 =? 0) && (negb (y mod 100 =? 0) || (y mod 400 =? 0)).

Definition days_before_year (y : Z) : Z :=
  let p := y - 1 in p * 365 + p / 4 - p / 100 + p / 400.

Definition DAYS_IN_MONTH : list Z := [0; 31; 28; 31; 30; 31; 30; 31; 31; 30; 31; 30; 31].
Definition DAYS_BEFORE_MONTH : list Z :=
  [0; 0; 31; 59; 90; 120; 151; 181; 212; 243; 273; 304; 334].

Definition days_in_month (leap : bool) (m : Z) : Z :=
  nth (Z.to_nat m) DAYS_IN_MONTH 0 + (if (m =? 2) && leap then 1 else 0).

Definition days_before_month (leap : bool) (m : Z) : Z :=
  nth (Z.to_nat m) DAYS_BEFORE_MONTH 0 + (if (2 <? m) && leap then 1 else 0).

Definition ymd2ord (y m d : Z) : Z :=
  days_before_year y + days_before_month (is_leap y) m + d.

Definition ord2ymd (ordinal : Z) : Z * Z * Z :=
  let n := ordinal - 1 in
  let n400 := n / 146097 in
  let n := n mod 146097 in
  let n100 := n / 36524 in
  let n := n mod 36524 in
  let n4 := n / 1461 in
  let n := n mod 1461 in
  let n1 := n / 365 in
  let n := n mod 365 in
  let year := n400 * 400 + 1 + n100 * 100 + n4 * 4 + n1 in
  if (n1 =? 4) || (n100 =? 4) then (year - 1, 12, 31)
  else
    let leap := (n1 =? 3) && (negb (n4 =? 24) || (n100 =? 3)) in
    let month := (n + 50) / 32 in
    let preceding := days_before_month leap month in
    if n <? preceding
    then (year, month - 1, n - (preceding - days_in_month leap (month - 1)) + 1)
    else (year, month, n - preceding + 1).

Fixpoint zeros (k : nat) : string :=
  match k with
  | O => EmptyString
  | S k' => String "0" (zeros k')
  end.

(** [%0{width}d] for a non-negative number. *)
Definition zpad (width : nat) (z : Z) : string :=
  let s := Json.string_of_Z z in
  zeros (width - String.length s) ++ s.

Definition isoformat_naive (us : Z) : string :=
  let '(y, mo, d) := ord2ymd (us / DAY_US + 1) in
  let tod := us mod DAY_US in
  let frac := tod mod 1000000 in
  zpad 4 y ++ "-" ++ zpad 2 mo ++ "-" ++ zpad 2 d ++ "T"
    ++ zpad 2 (tod / 3600000000) ++ ":" ++ zpad 2 ((tod / 60000000) mod 60) ++ ":"
    ++ zpad 2 ((tod / 1000000) mod 60)
    ++ (if frac =? 0 then EmptyString else "." ++ zpad 6 frac).

(** Exactly [k] decimal digits. *)
Fixpoint digits (k : nat) (s : string) (acc : Z) : result (Z * string) :=
  match k with
  | O => Ok (acc, s)
  | S k' =>
      match s with
      | String c r =>
          if Json.is_digit c then digits k' r (acc * 10 + (Json.code c - 48))
          else Raise ValueError
      | EmptyString => Raise ValueError
      end
  end.

Definition expect (c : ascii) (s : string) : result string :=
  match s with
  | String c' r => if (c =? c')%char then Ok r else Raise ValueError
  | EmptyString => Raise ValueError
  end.

Definition fraction (s : string) : result Z :=
  match s with
  | EmptyString => Ok 0
  | String _ _ =>
      r <- expect "." s ;;
      p <- digits 6 r 0 ;;
      match snd p with
      | EmptyString => Ok (fst p)
      | String _ _ => Raise ValueError
      end
  end.

Definition fromisoformat_canonical (s : string) : result datetime :=
  p <- digits 4 s 0 ;; let y := fst p in
  r <- expect "-" (snd p) ;;
  p <- digits 2 r 0 ;; let mo := fst p in
  r <- expect "-" (snd p) ;;
  p <- digits 2 r 0 ;; let d := fst p in
  r <- expect "T" (snd p) ;;
  p <- digits 2 r 0 ;; let hh := fst p in
  r <- expect ":" (snd p) ;;
  p <- digits 2 r 0 ;; let mi := fst p in
  r <- expect ":" (snd p) ;;
  p <- digits 2 r 0 ;; let ss := fst p in
  frac <- fraction (snd p) ;;
  if (1 <=? y) && (1 <=? mo) && (mo <=? 12)
     && (1 <=? d) && (d <=? days_in_month (is_leap y) mo)
     && (hh <? 24) && (mi <? 60) && (ss <? 60)
  then Ok {| wall := (ymd2ord y mo d - 1) * DAY_US
                     + ((hh * 60 + mi) * 60 + ss) * 1000000 + frac;
             utcoffset := None |}
  else Raise ValueError.

Definition lib : PyLib :=
  {| str_lower := ascii_lower;
     isoformat := isoformat_naive;
     fromisoformat := fromisoformat_canonical |}.

End Reference.

(** * Predicates the properties are stated with *)

(** No two neighbours of the log carry the same content. *)
Fixpoint no_adjacent_dup (h : list entry) : Prop :=
  match h with
  | e1 :: t =>
      match t with
      | e2 :: _ => content e1 <> content e2
      | [] => True
      end /\ no_adjacent_dup t
  | [] => True
  end.

(** The same for a sequence of texts offered to [add_entry]. *)
Fixpoint no_adjacent_repeat (l : list string) : Prop :=
  match l with
  | a :: t =>
      match t with
      | b :: _ => a <> b
      | [] => True
      end /\ no_adjacent_repeat t
  | [] => True
  end.

Section Readings.
Context {lib : PyLib}.

(** The instant an entry was captured, when its timestamp reads as a naive
    datetime. *)
Definition naive_time (e : entry) : option Z :=
  match fromisoformat (timestamp e) with
  | Ok d => match utcoffset d with
            | None => Some (wall d)
            | Some _ => None
            end
  | Raise _ => None
  end.

Definition well_stamped (h : list entry) : Prop :=
  Forall (fun e => naive_time e <> None) h.

(** [timestamp >= cutoff] *)
Definition recent (cutoff : Z) (e : entry) : bool :=
  match naive_time e with
  | Some t => cutoff <=? t
  | None => false
  end.

(** [a] was captured no later than [b]. *)
Definition not_after (a b : entry) : Prop :=
  match naive_time a, naive_time b with
  | Some x, Some y => x <= y
  | _, _ => False
  end.

(** The match [search] tests each entry with. *)
Definition matches (query : string) (e : entry) : bool :=
  str_in (str_lower query) (str_lower (content e)).

(** What [list_entries] keeps of the log: the entries at or after the
    cutoff when [days] is given and not 0, the whole log otherwise. *)
Definition kept_for (days : option Z) (cutoff : Z) (h : list entry) : list entry :=
  match days with
  | Some d => if d =? 0 then h else filter (recent cutoff) h
  | None => h
  end.

(** How [list_entries] cuts its listing for a limit that is not negative:
    to its first [n] entries when [limit] is given and not 0, not at all
    otherwise. *)
Definition cut_to (limit : option Z) (l : list entry) : list entry :=
  match limit with
  | Some n => if n =? 0 then l else firstn (Z.to_nat n) l
  | None => l
  end.

(** What [search] returns of all the matches, newest first: the first
    [n] for a positive limit, all of them for no limit or the limit 0, the
    first one for a negative limit. *)
Definition most_recent_matches (limit : option Z) (all : list entry) : list entry :=
  match limit with
  | Some n =>
      if n =? 0 then all
      else if 0 <? n then firstn (Z.to_nat n) all
      else firstn 1 all
  | None => all
  end.

(** [add_entry] called once for each text, with the clock reading of each call. *)
Definition add_entries (m : ClipboardManager) (w : world) (items : list (Z * string))
  : ClipboardManager * world :=
  fold_left (fun s it => let '(_, m', w') := add_entry (fst s) (snd s) (fst it) (snd it)
                         in (m', w'))
            items (m, w).

(** The log [add_entry] leaves when it accepts [text]. *)
Definition appended (m : ClipboardManager) (now : Z) (text : string) : list entry :=
  let h := (history m ++ [{| content := text; timestamp := isoformat now;
                             size := utf8_len text |}])%list in
  if config_max_entries (config m) <? len h
  then slice_from (- config_max_entries (config m)) h else h.

(** The record [add_entry] builds for the text of [it] at the clock reading of [it]. *)
Definition new_entry (it : Z * string) : entry :=
  {| content := snd it; timestamp := isoformat (fst it); size := utf8_len (snd it) |}.

End Readings.

(** The sum of the stored [size] fields of a log. *)
Definition stored_total (h : list entry) : Z :=
  fold_right Z.add 0 (map size h).

(** The last [n] elements of a list (all of them when it is shorter). *)
Definition keep_last {A : Type} (n : Z) (l : list A) : list A :=
  skipn (length l - Z.to_nat n) l.

(** The configuration file, when there is one, holds a configuration. *)
Definition config_loadable (w : world) : Prop :=
  match config_file w with
  | None => True
  | Some text => exists c, decode config_of_json text = Loaded c
  end.

(** The store of the search example: five entries appended in order. *)
Definition example_entry (text : string) : entry :=
  {| content := text; timestamp := "2024-05-01T10:00:00"; size := utf8_len text |}.

Definition search_example : ClipboardManager :=
  {| max_size_bytes := 10485760;
     history := map example_entry ["foo1"; "bar"; "foo2"; "baz"; "foo3"];
     config := default_config |}.

Definition sized_entry (n : Z) : entry :=
  {| content := "x"; timestamp := "2024-05-01T10:00:00"; size := n |}.

Definition stats_example : ClipboardManager :=
  {| max_size_bytes := 10485760;
     history := map sized_entry [10; 20; 30];
     config := default_config |}.




Definition empty_world : world :=
  {| history_file := None; config_file := None; clipboard := EmptyString; writes := [] |}.

Definition empty_manager (max_e : Z) : ClipboardManager :=
  {| max_size_bytes := 10485760; history := [];
     config := {| max_entries := Some max_e; retention_days := Some 30 |} |}.

(** A clock reading for the examples: noon of 2024-05-03. *)
Definition example_now : Z :=
  match Reference.fromisoformat_canonical "2024-05-03T12:00:00" with
  | Ok d => wall d
  | Raise _ => 0
  end.

Definition stamped (text stamp : string) : entry :=
  {| content := text; timestamp := stamp; size := utf8_len text |}.

(** A log in capture order, and the same entries stored the other way round. *)
Definition ordered_log : ClipboardManager :=
  {| max_size_bytes := 10485760;
     history := [stamped "old" "2024-05-01T10:00:00"; stamped "new" "2024-05-02T10:00:00"];
     config := default_config |}.

Definition disordered_log : ClipboardManager :=
  {| max_size_bytes := 10485760;
     history := [stamped "new" "2024-05-02T10:00:00"; stamped "old" "2024-05-01T10:00:00"];
     config := default_config |}.

(** A store at capacity: one entry, [max_entries] 1. *)
Definition full_store : ClipboardManager :=
  {| max_size_bytes := 10485760;
     history := [stamped "a" "2024-05-01T10:00:00"];
     config := {| max_entries := Some 1; retention_days := Some 30 |} |}.

(** A data directory whose configuration file holds the defaults. *)
Definition configured_world : world :=
  {| history_file := None;
     config_file := Some (Json.dumps (json_of_config default_config));
     clipboard := EmptyString; writes := [] |}.

(** Closes [exists d, t = Ok d] for a closed [t] by running it. *)
Ltac reads_ok :=
  match goal with
  | |- exists d, ?t = Ok d =>
      let E := fresh "E" in
      destruct t eqn:E; [eexists; reflexivity | vm_compute in E; discriminate E]
  end.



(** * Further notions: durability, the monitor loop, the day counts *)

(** The history file holds the log of the manager, as [save_data] writes it. *)
Definition synced (m : ClipboardManager) (w : world) : Prop :=
  history_file w = Some (Json.dumps (json_of_history (history m))).

(** The history file, when there is one, holds a list of records. *)
Definition history_loadable (w : world) : Prop :=
  match history_file w with
  | None => True
  | Some text => exists h, decode history_of_json text = Loaded h
  end.

(** Every entry stores the UTF-8 length of its own content. *)
Definition sizes_consistent (h : list entry) : Prop :=
  Forall (fun e => size e = utf8_len (content e)) h.

(** The entries counted by a table of days. *)
Definition day_total (by_day : list (Z * Z)) : Z :=
  fold_right Z.add 0 (map snd by_day).

(** A day with more entries never comes after a day with fewer. *)
Definition busiest_first (days : list (Z * Z)) : Prop :=
  StronglySorted (fun a b => snd b <= snd a) days.

Section Monitoring.
Context {lib : PyLib}.

(** One turn of the loop of [monitor] on what [pyperclip.paste()] gives at
    the clock reading of the turn: a text, or [None] when it raises, which
    the loop reports before it sleeps and goes on.  The state is the
    manager, the world and [last_content]. *)
Definition monitor_turn (s : ClipboardManager * world * option string)
    (reading : Z * option string) : ClipboardManager * world * option string :=
  match snd reading with
  | None => s
  | Some pasted => monitor_step (fst (fst s)) (snd (fst s)) (fst reading) (snd s) pasted
  end.

(** The loop of [monitor] over the readings of its first turns, from
    [last_content = None]. *)
Definition monitor_run (m : ClipboardManager) (w : world)
    (readings : list (Z * option string)) : ClipboardManager * world * option string :=
  fold_left monitor_turn readings (m, w, None).

(** The readings the loop hands to [add_entry]: the texts that are not
    empty and differ from the text handed over last, each with the clock
    reading of its turn. *)
Fixpoint offered (last_content : option string) (readings : list (Z * option string))
  : list (Z * string) :=
  match readings with
  | [] => []
  | (now, None) :: rest => offered last_content rest
  | (now, Some pasted) :: rest =>
      if negb (pasted =? EmptyString)%string
         && negb (match last_content with
                  | Some l => (pasted =? l)%string
                  | None => false
                  end)
      then (now, pasted) :: offered (Some pasted) rest
      else offered last_content rest
  end.

End Monitoring.

Section Display.
Context {lib : PyLib}.

(** The timestamp of the entry reads as a datetime, with or without a UTC
    offset. *)
Definition readable (e : entry) : Prop :=
  exists d, fromisoformat (timestamp e) = Ok d.




End Display.

(** A log whose second entry carries a timestamp that is no ISO datetime. *)
Definition unreadable_log : ClipboardManager :=
  {| max_size_bytes := 10485760;
     history := [stamped "old" "2024-05-01T10:00:00"; stamped "x" "yesterday"];
     config := default_config |}.

(** The clipboard over five turns of the loop: a text, the same text again,
    a failed reading, nothing, another text. *)
Definition example_readings : list (Z * option string) :=
  [(example_now, Some "a"); (example_now, Some "a"); (example_now, None);
   (example_now, Some EmptyString); (example_now, Some "b")].

(** [ordered_log] after a further text has been copied. *)
Definition ordered_log_then : ClipboardManager :=
  set_history ordered_log
    (history ordered_log ++ [new_entry (lib := Reference.lib) (example_now, "b")]).

(** [ordered_log] after the entries of more than two days ago are cleared. *)
Definition ordered_log_cut : ClipboardManager :=
  set_history ordered_log [stamped "new" "2024-05-02T10:00:00"].

(** * JSON: what is written is read back *)

Module JsonFacts.
Import Json Decimal DecimalString DecimalFacts.


Lemma sapp_assoc (a b c : string) : (a ++ b) ++ c = a ++ (b ++ c).
Proof. induction a; simpl; congruence. Qed.

Lemma sapp_nil_r (a : string) : a ++ EmptyString = a.
Proof. induction a; simpl; congruence. Qed.

Lemma scan_escape_char (c : ascii) (t : string) :
  scanstring (escape_char c ++ t) = prepend (str1 c) (scanstring t).
Proof.
  destruct c as [[|] [|] [|] [|] [|] [|] [|] [|]]; reflexivity.
Qed.

Lemma scanstring_escape (s rest : string) :
  scanstring (escape s ++ String dquote rest) = Some (s, rest).
Proof.
  induction s as [|c s IH]; simpl.
  - reflexivity.
  - rewrite sapp_assoc, scan_escape_char, IH. reflexivity.
Qed.

Lemma span_digits_stop (rest : string) :
  follow_ok rest -> span_digits rest = (EmptyString, rest).
Proof.
  destruct rest as [|c r]; simpl; [reflexivity|].
  intros [H _]. now rewrite H.
Qed.

Lemma span_digits_uint (d : uint) (rest : string) :
  follow_ok rest ->
  span_digits (NilEmpty.string_of_uint d ++ rest) = (NilEmpty.string_of_uint d, rest).
Proof.
  intros H. induction d; simpl;
    try (rewrite IHd; reflexivity).
  now apply span_digits_stop.
Qed.

Lemma scan_frac_stop rest : follow_ok rest -> scan_frac rest = (EmptyString, rest).
Proof.
  destruct rest as [|c [|d r]]; simpl; try reflexivity.
  intros (_ & H & _). apply Ascii.eqb_neq in H. now rewrite H.
Qed.

Lemma scan_exp_stop rest : follow_ok rest -> scan_exp rest = (EmptyString, rest).
Proof.
  destruct rest as [|c [|d r]]; simpl; try reflexivity.
  intros (_ & _ & H1 & H2). apply Ascii.eqb_neq in H1, H2. now rewrite H1, H2.
Qed.

Lemma to_uint_head (p : positive) :
  exists c r, NilEmpty.string_of_uint (Pos.to_uint p) = String c r
              /\ is_digit c = true /\ c <> "0"%char /\ c <> "-"%char.
Proof.
  assert (Hn : unorm (Pos.to_uint p) = Pos.to_uint p).
  { rewrite <- (DecimalPos.Unsigned.to_of (Pos.to_uint p)).
    now rewrite DecimalPos.Unsigned.of_to. }
  pose proof (DecimalPos.Unsigned.to_uint_nonzero p) as Hz.
  pose proof (DecimalPos.Unsigned.to_uint_nonnil p) as Hnil.
  destruct (Pos.to_uint p) as [|u|u|u|u|u|u|u|u|u|u] eqn:E;
    [ now elim Hnil
    | exfalso
    | simpl; eexists _, _; repeat split; solve [reflexivity | discriminate] .. ].
  unfold unorm in Hn. rewrite nzhead_D0 in Hn.
  destruct (nzhead u) eqn:En; try discriminate.
  - apply Hz. symmetry. exact Hn.
  - eapply nzhead_nonzero; eassumption.
Qed.

Lemma Z_of_digits_pos (p : positive) :
  Z_of_digits (NilEmpty.string_of_uint (Pos.to_uint p)) = Zpos p.
Proof.
  unfold Z_of_digits. rewrite NilEmpty.usu.
  unfold Z.of_uint. now rewrite DecimalPos.Unsigned.of_to.
Qed.

Lemma scan_int_pos (p : positive) (rest : string) :
  follow_ok rest ->
  scan_int (NilEmpty.string_of_uint (Pos.to_uint p) ++ rest)
  = Some (NilEmpty.string_of_uint (Pos.to_uint p), rest).
Proof.
  intros H. destruct (to_uint_head p) as (c & r & E & Hd & H0 & _).
  rewrite <- (span_digits_uint _ _ H). rewrite E. simpl String.append.
  unfold scan_int. apply Ascii.eqb_neq in H0. now rewrite H0, Hd.
Qed.

Lemma finish_number_int (neg : bool) (ip rest : string) :
  follow_ok rest ->
  finish_number neg ip rest
  = (JInt (if neg then - Z_of_digits ip else Z_of_digits ip), rest).
Proof.
  intros H. unfold finish_number. now rewrite scan_frac_stop, scan_exp_stop.
Qed.

Lemma split_sign_pos (p : positive) (rest : string) :
  split_sign (NilEmpty.string_of_uint (Pos.to_uint p) ++ rest)
  = (false, NilEmpty.string_of_uint (Pos.to_uint p) ++ rest).
Proof.
  destruct (to_uint_head p) as (c & r & E & _ & _ & Hm).
  apply Ascii.eqb_neq in Hm. rewrite E. simpl. now rewrite Hm.
Qed.

Lemma scan_number_Z (z : Z) (rest : string) :
  follow_ok rest ->
  scan_number (string_of_Z z ++ rest) = Some (JInt z, rest).
Proof.
  intros H. unfold scan_number. destruct z as [|p|p]; unfold string_of_Z.
  - change (split_sign ("0" ++ rest)) with (false, String "0" rest).
    cbv beta iota.
    change (scan_int (String "0" rest)) with (Some ("0"%string, rest)).
    cbv beta iota. now rewrite finish_number_int.
  - rewrite split_sign_pos. cbv beta iota.
    rewrite scan_int_pos by assumption. cbv beta iota.
    now rewrite finish_number_int, Z_of_digits_pos.
  - change (split_sign (String "-" (NilEmpty.string_of_uint (Pos.to_uint p)) ++ rest))
      with (true, NilEmpty.string_of_uint (Pos.to_uint p) ++ rest).
    cbv beta iota. rewrite scan_int_pos by assumption. cbv beta iota.
    now rewrite finish_number_int, Z_of_digits_pos.
Qed.


Lemma json_nested_ind (P : json -> Prop) :
  P JNull -> (forall b, P (JBool b)) -> (forall z, P (JInt z)) ->
  (forall lx, P (JFloat lx)) -> (forall t, P (JStr t)) ->
  (forall l, Forall P l -> P (JArr l)) ->
  (forall kvs, Forall (fun kv => P (snd kv)) kvs -> P (JObj kvs)) ->
  forall v, P v.
Proof.
  intros Hn Hb Hi Hf Hs Ha Ho. fix IH 1.
  intros [ | b | z | lx | t | l | kvs];
    [exact Hn | apply Hb | apply Hi | apply Hf | apply Hs | | ].
  - apply Ha. induction l as [|x l IHl]; constructor; [apply IH | exact IHl].
  - apply Ho. induction kvs as [|[k x] kvs IHl]; constructor; [apply IH | exact IHl].
Qed.

Lemma skip_ws_indent (k : nat) (t : string) : skip_ws (indent_str k ++ t) = skip_ws t.
Proof. induction k; simpl; auto. Qed.

Lemma skip_ws_newline_indent (k : nat) (t : string) :
  skip_ws (newline_indent k ++ t) = skip_ws t.
Proof. unfold newline_indent. simpl. apply skip_ws_indent. Qed.

Lemma starts_value_app (a t : string) : starts_value a -> starts_value (a ++ t).
Proof. intros (c & r & -> & H). exists c, (r ++ t). now split. Qed.

Lemma skip_ws_starts (t : string) : starts_value t -> skip_ws t = t.
Proof. intros (c & r & -> & H & _). simpl. now rewrite H. Qed.

Lemma string_of_Z_head (z : Z) :
  exists c r, string_of_Z z = String c r /\ (is_digit c = true \/ c = "-"%char).
Proof.
  destruct z as [|p|p]; simpl.
  - eexists _, _; split; [reflexivity | now left].
  - destruct (to_uint_head p) as (c & r & E & Hd & _). eauto.
  - eexists _, _; split; [reflexivity | now right].
Qed.

Lemma numeric_head_facts (c : ascii) :
  is_digit c = true \/ c = "-"%char ->
  (c =? dquote)%char = false /\ (c =? "[")%char = false /\ (c =? "{")%char = false
  /\ ("n" =? c)%char = false /\ ("t" =? c)%char = false /\ ("f" =? c)%char = false
  /\ is_ws c = false /\ (c =? "]")%char = false /\ (c =? "}")%char = false.
Proof.
  destruct c as [[|] [|] [|] [|] [|] [|] [|] [|]];
    (intros [H|H]; [vm_compute in H | ]; try discriminate H; repeat split; reflexivity).
Qed.

Lemma parse_value_numeric (f : nat) (c : ascii) (r : string) (res : json * string) :
  is_digit c = true \/ c = "-"%char ->
  scan_number (String c r) = Some res ->
  parse_value (S f) (String c r) = Some res.
Proof.
  intros Hc Hs. destruct (numeric_head_facts c Hc) as (H1 & H2 & H3 & H4 & H5 & H6 & _).
  cbn [parse_value]. rewrite H1, H2, H3. unfold scan_atom.
  cbn [strip_prefix]. rewrite H4, H5, H6. now rewrite Hs.
Qed.

Lemma dump_starts_value (lvl : nat) (v : json) :
  float_free v = true -> starts_value (dump lvl v).
Proof.
  destruct v as [ | [|] | z | lx | t | [|x l] | [|kv kvs]]; intros Hw;
    try discriminate Hw; try (eexists _, _; repeat split; reflexivity).
  destruct (string_of_Z_head z) as (c & r & E & Hc).
  destruct (numeric_head_facts c Hc) as (_ & _ & _ & _ & _ & _ & H7 & H8 & H9).
  exists c, r. simpl. auto.
Qed.

Lemma join_cons_head (sep a : string) (l : list string) :
  exists t, join sep (a :: l) = a ++ t.
Proof.
  destruct l; simpl; [exists EmptyString; now rewrite sapp_nil_r | eauto].
Qed.

Lemma follow_ok_newline_indent (k : nat) (t : string) : follow_ok (newline_indent k ++ t).
Proof. simpl. repeat split; discriminate. Qed.

Lemma follow_ok_comma (t : string) : follow_ok (String "," t).
Proof. simpl. repeat split; discriminate. Qed.

Lemma parse_elems_dump (f lvl lvl' : nat) (rest : string) (l : list json) :
  l <> [] ->
  Forall (fun v => float_free v = true /\ (size v <= f)%nat /\ round_trips v) l ->
  forall n, (length l <= n)%nat ->
  parse_elems (parse_value f) n
    (join (String "," (newline_indent lvl)) (map (dump lvl) l)
       ++ newline_indent lvl' ++ String "]" rest) = Some (l, rest).
Proof.
  induction l as [|x l IH]; [congruence|]. intros _ HF n Hn.
  inversion HF as [|? ? (Hw & Hsz & Hrt) HF']; subst.
  destruct n as [|n]; [simpl in Hn; lia|]. simpl in Hn.
  destruct l as [|y l].
  - cbn [map join parse_elems].
    rewrite (Hrt Hw f lvl _ Hsz (follow_ok_newline_indent _ _)).
    rewrite skip_ws_newline_indent. reflexivity.
  - change (join (String "," (newline_indent lvl)) (map (dump lvl) (x :: y :: l)))
      with (dump lvl x ++ String "," (newline_indent lvl)
              ++ join (String "," (newline_indent lvl)) (map (dump lvl) (y :: l))).
    rewrite !sapp_assoc. cbn [parse_elems].
    change (String "," (newline_indent lvl) ++
              join (String "," (newline_indent lvl)) (map (dump lvl) (y :: l)) ++
              newline_indent lvl' ++ String "]" rest)
      with (String "," (newline_indent lvl ++
              join (String "," (newline_indent lvl)) (map (dump lvl) (y :: l)) ++
              newline_indent lvl' ++ String "]" rest)).
    rewrite (Hrt Hw f lvl _ Hsz (follow_ok_comma _)).
    cbn [skip_ws is_ws Ascii.eqb Bool.eqb orb andb].
    rewrite skip_ws_newline_indent.
    rewrite skip_ws_starts.
    + rewrite IH; [reflexivity | discriminate | exact HF' | lia].
    + inversion HF' as [|? ? (Hwy & _) _]; subst.
      destruct (join_cons_head (String "," (newline_indent lvl)) (dump lvl y) (map (dump lvl) l))
        as (t & Ht).
      cbn [map]. rewrite Ht, sapp_assoc. apply starts_value_app.
      now apply dump_starts_value.
Qed.


Lemma dump_member_eq (lvl : nat) (k : string) (x : json) (t : string) :
  dump_member lvl (k, x) ++ t
  = String dquote (escape k ++ String dquote (String ":" (String " " (dump lvl x ++ t)))).
Proof.
  unfold dump_member, quote. cbn [String.append]. now rewrite !sapp_assoc.
Qed.

Lemma parse_members_dump (f lvl lvl' : nat) (rest : string) (kvs : list (string * json)) :
  kvs <> [] ->
  Forall (fun kv => float_free (snd kv) = true /\ (size (snd kv) <= f)%nat
                    /\ round_trips (snd kv)) kvs ->
  forall n, (length kvs <= n)%nat ->
  parse_members (parse_value f) n
    (join (String "," (newline_indent lvl)) (map (dump_member lvl) kvs)
       ++ newline_indent lvl' ++ String "}" rest) = Some (kvs, rest).
Proof.
  induction kvs as [|[k x] l IH]; [congruence|]. intros _ HF n Hn.
  inversion HF as [|? ? (Hw & Hsz & Hrt) HF']; subst. cbn [snd] in *.
  destruct n as [|n]; [simpl in Hn; lia|]. simpl in Hn.
  destruct l as [|[k' y] l].
  - cbn [map join]. rewrite dump_member_eq. cbn [parse_members].
    rewrite Ascii.eqb_refl, scanstring_escape.
    cbn [skip_ws is_ws Ascii.eqb Bool.eqb orb andb].
    rewrite skip_ws_starts by (apply starts_value_app; now apply dump_starts_value).
    rewrite (Hrt Hw f lvl _ Hsz (follow_ok_newline_indent _ _)).
    rewrite skip_ws_newline_indent. reflexivity.
  - change (join (String "," (newline_indent lvl)) (map (dump_member lvl) ((k, x) :: (k', y) :: l)))
      with (dump_member lvl (k, x) ++ String "," (newline_indent lvl)
              ++ join (String "," (newline_indent lvl)) (map (dump_member lvl) ((k', y) :: l))).
    rewrite !sapp_assoc, dump_member_eq. cbn [parse_members].
    rewrite Ascii.eqb_refl, scanstring_escape.
    cbn [skip_ws is_ws Ascii.eqb Bool.eqb orb andb].
    rewrite skip_ws_starts by (apply starts_value_app; now apply dump_starts_value).
    change (String "," (newline_indent lvl) ++
              join (String "," (newline_indent lvl)) (map (dump_member lvl) ((k', y) :: l)) ++
              newline_indent lvl' ++ String "}" rest)
      with (String "," (newline_indent lvl ++
              join (String "," (newline_indent lvl)) (map (dump_member lvl) ((k', y) :: l)) ++
              newline_indent lvl' ++ String "}" rest)).
    rewrite (Hrt Hw f lvl _ Hsz (follow_ok_comma _)).
    cbn [skip_ws is_ws Ascii.eqb Bool.eqb orb andb].
    rewrite skip_ws_newline_indent.
    rewrite skip_ws_starts.
    + rewrite IH; [reflexivity | discriminate | exact HF' | lia].
    + destruct (join_cons_head (String "," (newline_indent lvl)) (dump_member lvl (k', y))
                  (map (dump_member lvl) l)) as (t & Ht).
      cbn [map]. rewrite Ht, sapp_assoc, dump_member_eq.
      eexists _, _. repeat split; reflexivity.
Qed.

Lemma size_le_sum (x : json) (l : list json) :
  In x l -> (size x <= list_sum (map size l))%nat.
Proof.
  induction l as [|y l IH]; simpl; [tauto|]. intros [->|H]; [lia|]. specialize (IH H). lia.
Qed.

Lemma size_pos (v : json) : (1 <= size v)%nat.
Proof. destruct v; simpl; lia. Qed.

Lemma length_le_sum (l : list json) : (length l <= list_sum (map size l))%nat.
Proof.
  induction l as [|y l IH]; simpl; [lia|]. pose proof (size_pos y). lia.
Qed.

Lemma msize_le_sum (kv : string * json) (l : list (string * json)) :
  In kv l -> (size (snd kv) <= list_sum (map msize l))%nat.
Proof.
  induction l as [|y l IH]; simpl; [tauto|].
  intros [->|H]; [destruct kv; simpl; lia|]. specialize (IH H). lia.
Qed.

Lemma mlength_le_sum (l : list (string * json)) : (length l <= list_sum (map msize l))%nat.
Proof.
  induction l as [|[k y] l IH]; simpl; [lia|]. pose proof (size_pos y). lia.
Qed.

Lemma starts_value_join (sep a tail : string) (l : list string) :
  starts_value a -> starts_value (join sep (a :: l) ++ tail).
Proof.
  intros H. destruct (join_cons_head sep a l) as (t & ->).
  rewrite sapp_assoc. now apply starts_value_app.
Qed.

Theorem parse_dump (v : json) : round_trips v.
Proof.
  induction v as [ | b | z | lx | t | l IHl | kvs IHl] using json_nested_ind;
    intros Hw fuel lvl rest Hsz Hfo;
    (destruct fuel as [|f]; [simpl in Hsz; lia|]).
  - reflexivity.
  - destruct b; reflexivity.
  - destruct (string_of_Z_head z) as (c & r & E & Hc).
    pose proof (scan_number_Z z rest Hfo) as Hs.
    cbn [dump]. rewrite E in *. now apply parse_value_numeric.
  - discriminate Hw.
  - cbn [dump]. unfold quote. cbn [String.append parse_value].
    rewrite Ascii.eqb_refl, sapp_assoc. cbn [String.append str1].
    now rewrite scanstring_escape.
  - destruct l as [|x l]; [reflexivity|].
    change (dump lvl (JArr (x :: l)))
      with ("[" ++ newline_indent (S lvl)
              ++ join (String "," (newline_indent (S lvl))) (map (dump (S lvl)) (x :: l))
              ++ newline_indent lvl ++ "]").
    cbn [String.append parse_value Ascii.eqb Bool.eqb dquote].
    change (String "010" (indent_str (S lvl) ++ ?t)) with (newline_indent (S lvl) ++ t).
    rewrite !sapp_assoc, skip_ws_newline_indent.
    cbn [float_free] in Hw. cbn [size] in Hsz. apply le_S_n in Hsz.
    assert (HF : Forall (fun v => float_free v = true /\ (size v <= f)%nat /\ round_trips v)
                   (x :: l)).
    { apply Forall_forall. intros v Hv. repeat split.
      - now apply (proj1 (forallb_forall _ _) Hw).
      - pose proof (size_le_sum v _ Hv). lia.
      - now apply (proj1 (Forall_forall _ _) IHl). }
    assert (Hst : starts_value
              (join (String "," (newline_indent (S lvl))) (map (dump (S lvl)) (x :: l))
                 ++ newline_indent lvl ++ "]" ++ rest)).
    { cbn [map]. apply starts_value_join, dump_starts_value.
      now inversion HF as [|? ? (? & _) _]. }
    rewrite (skip_ws_starts _ Hst).
    pose proof (parse_elems_dump f (S lvl) lvl rest (x :: l) ltac:(discriminate) HF f) as HP.
    pose proof (length_le_sum (x :: l)) as Hlen.
    specialize (HP ltac:(lia)).
    destruct Hst as (c & r & E & _ & Hb & _).
    cbn [String.append] in E, HP |- *. rewrite E in *. rewrite Hb, HP. reflexivity.
  - destruct kvs as [|kv l]; [reflexivity|].
    change (dump lvl (JObj (kv :: l)))
      with ("{" ++ newline_indent (S lvl)
              ++ join (String "," (newline_indent (S lvl)))
                    (map (dump_member (S lvl)) (kv :: l))
              ++ newline_indent lvl ++ "}").
    cbn [String.append parse_value Ascii.eqb Bool.eqb dquote].
    change (String "010" (indent_str (S lvl) ++ ?t)) with (newline_indent (S lvl) ++ t).
    rewrite !sapp_assoc, skip_ws_newline_indent.
    cbn [float_free] in Hw. cbn [size] in Hsz. apply le_S_n in Hsz.
    change (fun kv : string * json => let (_, x) := kv in size x) with msize in Hsz.
    assert (HF : Forall (fun kv => float_free (snd kv) = true /\ (size (snd kv) <= f)%nat
                                   /\ round_trips (snd kv)) (kv :: l)).
    { apply Forall_forall. intros [k v] Hv. cbn [snd]. repeat split.
      - now apply (proj1 (forallb_forall _ _) Hw (k, v)).
      - pose proof (msize_le_sum (k, v) _ Hv). cbn [snd] in *. lia.
      - now apply (proj1 (Forall_forall _ _) IHl (k, v)). }
    assert (Hst : starts_value
              (join (String "," (newline_indent (S lvl)))
                 (map (dump_member (S lvl)) (kv :: l))
                 ++ newline_indent lvl ++ "}" ++ rest)).
    { cbn [map]. apply starts_value_join. destruct kv as [k v].
      eexists _, _. unfold dump_member, quote. cbn [String.append].
      repeat split; reflexivity. }
    rewrite (skip_ws_starts _ Hst).
    pose proof (parse_members_dump f (S lvl) lvl rest (kv :: l) ltac:(discriminate) HF f) as HP.
    pose proof (mlength_le_sum (kv :: l)) as Hlen.
    specialize (HP ltac:(lia)).
    destruct Hst as (c & r & E & _ & _ & Hb).
    cbn [String.append] in E, HP |- *. rewrite E in *. rewrite Hb, HP. reflexivity.
Qed.

Lemma slength_app (a b : string) :
  String.length (a ++ b) = (String.length a + String.length b)%nat.
Proof. induction a; simpl; congruence. Qed.

Lemma length_join_ge (sep : string) (l : list string) :
  (list_sum (map String.length l) <= String.length (join sep l))%nat.
Proof.
  induction l as [|a [|b l] IH]; simpl in *; try lia.
  rewrite !slength_app. simpl in IH. lia.
Qed.

Lemma list_sum_map_le {A : Type} (f g : A -> nat) (l : list A) :
  Forall (fun a => f a <= g a)%nat l -> (list_sum (map f l) <= list_sum (map g l))%nat.
Proof. induction 1; simpl; lia. Qed.

Lemma size_le_length (v : json) :
  float_free v = true -> forall lvl, (size v <= String.length (dump lvl v))%nat.
Proof.
  induction v as [ | b | z | lx | t | l IHl | kvs IHl] using json_nested_ind;
    intros Hw lvl.
  - simpl; lia.
  - destruct b; simpl; lia.
  - destruct (string_of_Z_head z) as (c & r & E & _). cbn [dump size]. rewrite E. simpl. lia.
  - discriminate Hw.
  - simpl. lia.
  - destruct l as [|x l]; [simpl; lia|].
    change (dump lvl (JArr (x :: l)))
      with ("[" ++ newline_indent (S lvl)
              ++ join (String "," (newline_indent (S lvl))) (map (dump (S lvl)) (x :: l))
              ++ newline_indent lvl ++ "]").
    rewrite !slength_app. cbn [size float_free] in *.
    pose proof (length_join_ge (String "," (newline_indent (S lvl)))
                  (map (dump (S lvl)) (x :: l))) as Hj.
    rewrite map_map in Hj.
    assert (Hle : (list_sum (map size (x :: l))
                   <= list_sum (map (fun v => String.length (dump (S lvl) v)) (x :: l)))%nat).
    { apply list_sum_map_le, Forall_forall. intros v Hv.
      apply (proj1 (Forall_forall _ _) IHl v Hv).
      now apply (proj1 (forallb_forall _ _) Hw). }
    change (String.length "[") with 1%nat. lia.
  - destruct kvs as [|kv l]; [simpl; lia|].
    change (dump lvl (JObj (kv :: l)))
      with ("{" ++ newline_indent (S lvl)
              ++ join (String "," (newline_indent (S lvl)))
                    (map (dump_member (S lvl)) (kv :: l))
              ++ newline_indent lvl ++ "}").
    rewrite !slength_app. cbn [size float_free] in *.
    change (fun kv : string * json => let (_, x) := kv in size x) with msize.
    pose proof (length_join_ge (String "," (newline_indent (S lvl)))
                  (map (dump_member (S lvl)) (kv :: l))) as Hj.
    rewrite map_map in Hj.
    assert (Hle : (list_sum (map msize (kv :: l))
                   <= list_sum (map (fun m => String.length (dump_member (S lvl) m))
                                  (kv :: l)))%nat).
    { apply list_sum_map_le, Forall_forall. intros [k v] Hv.
      unfold dump_member, msize. rewrite !slength_app.
      pose proof (proj1 (Forall_forall _ _) IHl (k, v) Hv
                    (proj1 (forallb_forall _ _) Hw (k, v) Hv) (S lvl)) as Hk.
      cbn [snd] in Hk. lia. }
    change (String.length "{") with 1%nat. lia.
Qed.

Theorem loads_dumps (v : json) : float_free v = true -> loads (dumps v) = Some v.
Proof.
  intros Hw. unfold loads, dumps.
  rewrite (skip_ws_starts _ (dump_starts_value 0 v Hw)).
  rewrite <- (sapp_nil_r (dump 0 v)) at 2.
  rewrite (parse_dump v Hw _ 0%nat EmptyString (size_le_length v Hw 0%nat) I).
  reflexivity.
Qed.


End JsonFacts.

(** * Facts about lists and slices *)

Lemma len_app {A : Type} (l1 l2 : list A) : len (l1 ++ l2)%list = len l1 + len l2.
Proof. unfold len. rewrite length_app. lia. Qed.

Lemma len_rev {A : Type} (l : list A) : len (rev l) = len l.
Proof. unfold len. now rewrite length_rev. Qed.

Lemma len_nonneg {A : Type} (l : list A) : 0 <= len l.
Proof. unfold len. lia. Qed.

Lemma slice_from_is_skipn {A : Type} (start : Z) (l : list A) :
  exists k, slice_from start l = skipn k l.
Proof. unfold slice_from. eauto. Qed.

Lemma slice_from_neg {A : Type} (n : Z) (l : list A) :
  0 < n -> n < len l -> slice_from (- n) l = skipn (length l - Z.to_nat n) l.
Proof.
  intros Hn Hl. unfold slice_from, clamp_index.
  destruct (Z.ltb_spec (- n) 0); [|lia].
  f_equal. unfold len in *. lia.
Qed.

Lemma slice_to_pos {A : Type} (n : Z) (l : list A) :
  0 <= n -> slice_to n l = firstn (Z.to_nat n) l.
Proof.
  intros Hn. unfold slice_to, clamp_index.
  destruct (Z.ltb_spec n 0); [lia|].
  destruct (Z.le_ge_cases n (len l)).
  - now rewrite Z.min_l.
  - rewrite Z.min_r by assumption. unfold len. rewrite Nat2Z.id.
    rewrite !firstn_all2; trivial; unfold len in *; lia.
Qed.

Lemma Forall_skipn_keep {A : Type} (P : A -> Prop) (k : nat) (l : list A) :
  Forall P l -> Forall P (skipn k l).
Proof.
  revert l. induction k as [|k IH]; intros l H; [exact H|].
  destruct l as [|a l]; [constructor|]. simpl. apply IH. now inversion H.
Qed.

Lemma rev_eq_cons {A : Type} (l : list A) (a : A) (t : list A) :
  rev l = a :: t -> l = (rev t ++ [a])%list.
Proof. intros H. rewrite <- (rev_involutive l), H. reflexivity. Qed.

(** * The add path *)

Section AddPath.
Context {lib : PyLib}.

Lemma same_as_last_snoc (h : list entry) (e : entry) (text : string) :
  same_as_last (h ++ [e]) text = (content e =? text)%string.
Proof. unfold same_as_last. now rewrite rev_unit. Qed.

Lemma same_as_last_true (h : list entry) (text : string) :
  same_as_last h text = true <->
  exists h0 e, h = (h0 ++ [e])%list /\ content e = text.
Proof.
  unfold same_as_last. split.
  - destruct (rev h) as [|e t] eqn:E; [discriminate|].
    intros H. apply String.eqb_eq in H. apply rev_eq_cons in E. eauto.
  - intros (h0 & e & -> & <-). rewrite rev_unit. apply String.eqb_refl.
Qed.

Lemma add_entry_cases (m : ClipboardManager) (w : world) (now : Z) (text : string) :
  (add_entry m w now text = (false, m, w)
   /\ (max_size_bytes m < utf8_len text \/ same_as_last (history m) text = true))
  \/ (add_entry m w now text
      = (true, set_history m (appended m now text),
         save_data (set_history m (appended m now text)) w)
      /\ utf8_len text <= max_size_bytes m
      /\ same_as_last (history m) text = false).
Proof.
  unfold add_entry, appended.
  destruct (Z.ltb_spec (max_size_bytes m) (utf8_len text)); [left; auto|].
  destruct (same_as_last (history m) text) eqn:E; [left; auto|].
  right. auto.
Qed.

Lemma appended_is_suffix (m : ClipboardManager) (now : Z) (text : string) :
  exists k, appended m now text
            = skipn k (history m ++ [{| content := text; timestamp := isoformat now;
                                        size := utf8_len text |}])%list.
Proof.
  unfold appended.
  destruct (config_max_entries (config m) <? _).
  - apply slice_from_is_skipn.
  - now exists 0%nat.
Qed.

Lemma no_adjacent_dup_skipn (k : nat) (h : list entry) :
  no_adjacent_dup h -> no_adjacent_dup (skipn k h).
Proof.
  revert h. induction k as [|k IH]; intros h H; [exact H|].
  destruct h as [|e h]; [exact I|]. simpl. apply IH. now destruct H.
Qed.

Lemma no_adjacent_dup_snoc (h : list entry) (e : entry) :
  no_adjacent_dup h -> same_as_last h (content e) = false ->
  no_adjacent_dup (h ++ [e]).
Proof.
  induction h as [|a h IH]; intros Hn Hl; [simpl; auto|].
  destruct h as [|b h].
  - simpl. unfold same_as_last in Hl. simpl in Hl.
    apply String.eqb_neq in Hl. auto.
  - destruct Hn as [Hab Hn]. split; [exact Hab|].
    apply IH; [exact Hn|].
    change (a :: b :: h) with ([a] ++ (b :: h))%list in Hl.
    unfold same_as_last in *. rewrite rev_app_distr in Hl.
    destruct (rev (b :: h)) as [|x t] eqn:E; [|exact Hl].
    apply (f_equal (@length entry)) in E. rewrite length_rev in E. discriminate.
Qed.

Lemma appended_nonempty (m : ClipboardManager) (now : Z) (text : string) :
  0 <= config_max_entries (config m) ->
  exists h0 e, appended m now text = (h0 ++ [e])%list /\ content e = text.
Proof.
  intros Hm. unfold appended.
  set (e := {| content := text; timestamp := isoformat now; size := utf8_len text |}).
  destruct (Z.ltb_spec (config_max_entries (config m)) (len (history m ++ [e])%list)) as [Hlt|Hge].
  - unfold slice_from, clamp_index. rewrite len_app in *.
    change (len [e]) with 1 in *.
    set (n := config_max_entries (config m)) in *.
    pose proof (len_nonneg (history m)) as Hl.
    assert (Hk : exists k, (k <= length (history m))%nat
                           /\ Z.to_nat (if - n <? 0 then Z.max 0 (- n + (len (history m) + 1))
                                        else Z.min (- n) (len (history m) + 1)) = k).
    { eexists; split; [|reflexivity]. unfold len in *.
      destruct (Z.ltb_spec (- n) 0); lia. }
    destruct Hk as (k & Hk & ->).
    rewrite skipn_app. replace (k - length (history m))%nat with 0%nat by lia.
    exists (skipn k (history m)), e. auto.
  - exists (history m), e. auto.
Qed.

Lemma appended_keep_last (m : ClipboardManager) (now : Z) (text : string) :
  0 < config_max_entries (config m) ->
  appended m now text
  = keep_last (config_max_entries (config m)) (history m ++ [new_entry (now, text)]).
Proof.
  intros Hn. unfold appended, keep_last, new_entry. cbn [fst snd].
  set (h := (history m ++ _)%list).
  destruct (Z.ltb_spec (config_max_entries (config m)) (len h)) as [Hlt|Hge].
  - now apply slice_from_neg.
  - replace (length h - Z.to_nat (config_max_entries (config m)))%nat with 0%nat
      by (unfold len in Hge; lia).
    reflexivity.
Qed.

Lemma keep_last_length {A : Type} (n : Z) (l : list A) :
  0 <= n -> len (keep_last n l) = Z.min n (len l).
Proof.
  intros Hn. unfold keep_last, len. rewrite length_skipn. lia.
Qed.

Lemma keep_last_app {A : Type} (n : Z) (a b : list A) :
  keep_last n (keep_last n a ++ b) = keep_last n (a ++ b).
Proof.
  unfold keep_last. rewrite !length_app, length_skipn.
  set (kn := Z.to_nat n).
  destruct (Nat.le_gt_cases (length a) kn) as [Hle|Hgt].
  - replace (length a - kn)%nat with 0%nat by lia. cbn [skipn]. f_equal. lia.
  - rewrite (skipn_app (length a + length b - kn)).
    rewrite (skipn_app (length a - (length a - kn) + length b - kn)).
    rewrite length_skipn, skipn_skipn.
    replace (length a - (length a - kn) + length b - kn + (length a - kn))%nat
      with (length a + length b - kn)%nat by lia.
    f_equal. f_equal. lia.
Qed.

Lemma add_entry_accepts (m : ClipboardManager) (w : world) (now : Z) (text : string) :
  utf8_len text <= max_size_bytes m ->
  same_as_last (history m) text = false ->
  add_entry m w now text
  = (true, set_history m (appended m now text),
     save_data (set_history m (appended m now text)) w).
Proof.
  intros Hs Hl. destruct (add_entry_cases m w now text) as [(_ & [H|H])|(H & _)].
  - lia.
  - congruence.
  - exact H.
Qed.

Lemma add_entries_history (items : list (Z * string)) :
  forall (m : ClipboardManager) (w : world),
  0 < config_max_entries (config m) ->
  len (history m) <= config_max_entries (config m) ->
  Forall (fun it => utf8_len (snd it) <= max_size_bytes m) items ->
  match items with
  | it :: _ => same_as_last (history m) (snd it) = false
  | [] => True
  end ->
  no_adjacent_repeat (map snd items) ->
  history (fst (add_entries m w items))
  = keep_last (config_max_entries (config m)) (history m ++ map new_entry items).
Proof.
  induction items as [|[now text] rest IH]; intros m w HN Hlen Hfit Hfirst Hrep.
  - cbn. rewrite app_nil_r. unfold keep_last.
    replace (length (history m) - _)%nat with 0%nat by (unfold len in Hlen; lia).
    reflexivity.
  - inversion Hfit as [|? ? Hf Hfit']; subst. cbn [snd] in Hf, Hfirst.
    unfold add_entries. cbn [fold_left fst snd].
    rewrite (add_entry_accepts m w now text Hf Hfirst).
    change (fold_left _ rest ?s) with (add_entries (fst s) (snd s) rest).
    cbn [fst snd].
    set (m1 := set_history m (appended m now text)).
    assert (Hh1 : history m1
                  = keep_last (config_max_entries (config m))
                      (history m ++ [new_entry (now, text)])).
    { unfold m1. cbn [history set_history]. now apply appended_keep_last. }
    rewrite (IH m1).
    + cbn [config m1 set_history map]. rewrite Hh1, keep_last_app, <- app_assoc.
      reflexivity.
    + exact HN.
    + cbn [config m1 set_history]. rewrite Hh1, keep_last_length by lia. lia.
    + exact Hfit'.
    + destruct rest as [|[now2 text2] rest']; [exact I|]. cbn [snd].
      destruct (appended_nonempty m now text ltac:(lia)) as (h0 & e & E & Ec).
      unfold m1. cbn [history set_history]. rewrite E, same_as_last_snoc, Ec.
      apply String.eqb_neq. cbn in Hrep. tauto.
    + cbn in Hrep. tauto.
Qed.

(** C1 (as amended): a text equal to the content of the last entry is
    refused without a write and without a change to the log.  A text that
    fits the size limit and differs from the content of the last entry is
    accepted: below capacity it is appended and the log grows by exactly
    one entry; at capacity (a positive [max_entries] already reached) the
    oldest entries make room and the log has [max_entries] entries, no
    more than before.  In both cases, and after any call under a
    non-negative [max_entries], a second call with the same text is
    refused and changes nothing, so the log has grown by at most one
    entry.  [add_entry] never creates two adjacent entries of equal
    content. *)
Theorem add_entry_twice (m : ClipboardManager) (w : world) (now now' : Z) (x : string) :
  ((exists h0 e, history m = (h0 ++ [e])%list /\ content e = x) ->
   add_entry m w now x = (false, m, w))
  /\ (0 <= config_max_entries (config m) ->
      forall r1 m1 w1, add_entry m w now x = (r1, m1, w1) ->
      add_entry m1 w1 now' x = (false, m1, w1)
      /\ len (history m1) <= len (history m) + 1)
  /\ (utf8_len x <= max_size_bytes m ->
      (forall h0 e, history m = (h0 ++ [e])%list -> content e <> x) ->
      len (history m) < config_max_entries (config m) ->
      let m1 := set_history m (history m ++ [new_entry (now, x)]) in
      add_entry m w now x = (true, m1, save_data m1 w)
      /\ len (history m1) = len (history m) + 1
      /\ add_entry m1 (save_data m1 w) now' x = (false, m1, save_data m1 w))
  /\ (utf8_len x <= max_size_bytes m ->
      (forall h0 e, history m = (h0 ++ [e])%list -> content e <> x) ->
      0 < config_max_entries (config m) <= len (history m) ->
      let m1 := set_history m (keep_last (config_max_entries (config m))
                                 (history m ++ [new_entry (now, x)])) in
      add_entry m w now x = (true, m1, save_data m1 w)
      /\ len (history m1) = config_max_entries (config m)
      /\ add_entry m1 (save_data m1 w) now' x = (false, m1, save_data m1 w))
  /\ (no_adjacent_dup (history m) ->
      no_adjacent_dup (history (snd (fst (add_entry m w now x))))).
Proof.
  assert (Hagain : 0 <= config_max_entries (config m) ->
            forall r1 m1 w1, add_entry m w now x = (r1, m1, w1) ->
            add_entry m1 w1 now' x = (false, m1, w1)
            /\ len (history m1) <= len (history m) + 1).
  { intros HN r1 m1 w1 E.
    destruct (add_entry_cases m w now x) as [(E1 & Hc)|(E1 & Hs & Hl)];
      rewrite E1 in E; injection E as <- <- <-.
    - split; [|lia].
      unfold add_entry.
      destruct Hc as [Hc|Hc]; [apply Z.ltb_lt in Hc | ]; rewrite Hc;
        [reflexivity | now destruct (_ <? _)].
    - destruct (appended_nonempty m now x HN) as (h0 & e & Ea & Ec).
      split.
      + unfold add_entry. cbn [max_size_bytes history set_history].
        destruct (Z.ltb_spec (max_size_bytes m) (utf8_len x)); [lia|].
        now rewrite Ea, same_as_last_snoc, Ec, String.eqb_refl.
      + cbn [history set_history].
        destruct (appended_is_suffix m now x) as (k & ->).
        unfold len. rewrite length_skipn, length_app. cbn [length]. lia. }
  assert (Hfresh : (forall h0 e, history m = (h0 ++ [e])%list -> content e <> x) ->
                   same_as_last (history m) x = false).
  { intros Hd. destruct (same_as_last (history m) x) eqn:Es; [|reflexivity].
    apply same_as_last_true in Es. destruct Es as (h0 & e & Eh & Ec).
    now destruct (Hd h0 e Eh). }
  split; [|split; [exact Hagain|split; [|split]]].
  - intros H. apply same_as_last_true in H.
    unfold add_entry. rewrite H. now destruct (_ <? _).
  - intros Hfit Hd Hlt m1.
    assert (Ea : appended m now x = (history m ++ [new_entry (now, x)])%list).
    { unfold appended. rewrite len_app. change (len [_]) with 1.
      destruct (Z.ltb_spec (config_max_entries (config m)) (len (history m) + 1));
        [lia | reflexivity]. }
    pose proof (add_entry_accepts m w now x Hfit (Hfresh Hd)) as E.
    rewrite Ea in E. fold m1 in E.
    pose proof (len_nonneg (history m)) as H0.
    split; [exact E|]. split.
    + unfold m1. cbn [history set_history]. rewrite len_app. reflexivity.
    + apply (Hagain ltac:(lia) _ _ _ E).
  - intros Hfit Hd [Hpos Hfull] m1.
    pose proof (add_entry_accepts m w now x Hfit (Hfresh Hd)) as E.
    rewrite (appended_keep_last m now x Hpos) in E. fold m1 in E.
    split; [exact E|]. split.
    + unfold m1. cbn [history set_history].
      rewrite keep_last_length by lia. rewrite len_app. change (len [_]) with 1. lia.
    + apply (Hagain ltac:(lia) _ _ _ E).
  - intros Hn.
    destruct (add_entry_cases m w now x) as [(E1 & Hc)|(E1 & Hs & Hl)]; rewrite E1.
    + exact Hn.
    + cbn [fst snd history set_history].
      destruct (appended_is_suffix m now x) as (k & ->).
      apply no_adjacent_dup_skipn, no_adjacent_dup_snoc; assumption.
Qed.

(** C2: a text whose UTF-8 length exceeds the configured maximum is refused
    without a write and without a change to the log, and a log whose
    entries all respect the maximum still does after any call. *)
Theorem add_entry_oversize (m : ClipboardManager) (w : world) (now : Z) (text : string) :
  (max_size_bytes m < utf8_len text -> add_entry m w now text = (false, m, w))
  /\ (Forall (fun e => size e <= max_size_bytes m) (history m) ->
      forall r m' w', add_entry m w now text = (r, m', w') ->
      max_size_bytes m' = max_size_bytes m
      /\ Forall (fun e => size e <= max_size_bytes m) (history m')).
Proof.
  split.
  - intros H. unfold add_entry. apply Z.ltb_lt in H. now rewrite H.
  - intros HF r m' w' E.
    destruct (add_entry_cases m w now text) as [(E1 & Hc)|(E1 & Hs & Hl)];
      rewrite E1 in E; injection E as <- <- <-.
    + auto.
    + split; [reflexivity|]. cbn [history set_history].
      destruct (appended_is_suffix m now text) as (k & ->).
      apply Forall_skipn_keep, Forall_app. split; [exact HF|].
      constructor; [exact Hs | constructor].
Qed.

(** C3: with a positive [max_entries], a log within the bound stays within
    it after any call; an accepted text is appended and the log cut to its
    last [max_entries] entries; and [N + k] texts without adjacent repeats
    offered to an empty store leave the last [N] of them, the oldest being
    the one offered at position [k + 1]. *)
Theorem add_entry_capacity (m : ClipboardManager) (w : world) :
  0 < config_max_entries (config m) ->
  (forall now text r m' w',
      len (history m) <= config_max_entries (config m) ->
      add_entry m w now text = (r, m', w') ->
      len (history m') <= config_max_entries (config m)
      /\ (r = true ->
          history m' = skipn (length (history m) + 1
                              - Z.to_nat (config_max_entries (config m)))
                         (history m ++ [new_entry (now, text)])
          /\ (config_max_entries (config m) < len (history m) + 1 ->
              len (history m') = config_max_entries (config m))))
  /\ (forall (items : list (Z * string)) (k : nat),
      history m = [] ->
      len items = config_max_entries (config m) + Z.of_nat k ->
      Forall (fun it => utf8_len (snd it) <= max_size_bytes m) items ->
      no_adjacent_repeat (map snd items) ->
      let h' := history (fst (add_entries m w items)) in
      h' = map new_entry (skipn k items)
      /\ len h' = config_max_entries (config m)
      /\ hd_error h' = nth_error (map new_entry items) k).
Proof.
  intros HN. split.
  - intros now text r m' w' Hlen E.
    destruct (add_entry_cases m w now text) as [(E1 & Hc)|(E1 & Hs & Hl)];
      rewrite E1 in E; injection E as <- <- <-.
    + split; [exact Hlen | discriminate].
    + cbn [history set_history]. rewrite appended_keep_last by assumption.
      split; [rewrite keep_last_length by lia; lia|].
      intros _. split.
      * unfold keep_last. rewrite length_app. reflexivity.
      * intros Hlt. rewrite keep_last_length, len_app by lia. change (len [_]) with 1. lia.
  - intros items k Hempty Hlen Hfit Hrep h'.
    assert (Hh : h' = map new_entry (skipn k items)).
    { unfold h'. rewrite add_entries_history; try assumption.
      - rewrite Hempty. cbn [app]. unfold keep_last. rewrite length_map, <- skipn_map.
        f_equal. unfold len in Hlen. lia.
      - rewrite Hempty. cbn. lia.
      - destruct items; [exact I|]. now rewrite Hempty. }
    split; [exact Hh|]. split.
    + rewrite Hh. unfold len in *. rewrite length_map, length_skipn. lia.
    + rewrite Hh, <- skipn_map.
      generalize (map new_entry items) as l. clear. intros l. revert l.
      induction k as [|k IH]; intros [|a l]; cbn; auto.
Qed.

End AddPath.

(** * Persistence *)

Lemma json_of_history_float_free (h : list entry) :
  Json.float_free (json_of_history h) = true.
Proof.
  unfold json_of_history. cbn [Json.float_free].
  induction h as [|e h IH]; [reflexivity|]. cbn [map forallb]. now rewrite IH.
Qed.

Lemma entry_of_json_of_entry (e : entry) : entry_of_json (json_of_entry e) = Some e.
Proof. destruct e. reflexivity. Qed.

Lemma history_of_json_of_history (h : list entry) :
  history_of_json (json_of_history h) = Some h.
Proof.
  unfold json_of_history, history_of_json.
  induction h as [|e h IH]; [reflexivity|].
  cbn [map entries_of_json]. now rewrite entry_of_json_of_entry, IH.
Qed.

Lemma decode_saved_history (h : list entry) :
  decode history_of_json (Json.dumps (json_of_history h)) = Loaded h.
Proof.
  unfold decode.
  rewrite (JsonFacts.loads_dumps _ (json_of_history_float_free h)).
  now rewrite history_of_json_of_history.
Qed.

(** C4: the history file [save_data] writes reads back as the same entries
    (content, timestamp and size) in the same order, and a manager opened
    afterwards on the same data directory holds exactly them. *)
Theorem save_then_open (m : ClipboardManager) (w : world) (max_size_mb : Z) :
  (exists text, history_file (save_data m w) = Some text
                /\ decode history_of_json text = Loaded (history m))
  /\ (config_loadable w ->
      exists m' w',
        init max_size_mb (save_data m w) = Loaded (m', w')
        /\ history m' = history m).
Proof.
  split.
  - eexists. split; [reflexivity | apply decode_saved_history].
  - intros Hc. unfold init, load_data, save_data.
    cbn [write_file history_file config_file].
    rewrite decode_saved_history.
    unfold config_loadable in Hc.
    destruct (config_file w) as [text|].
    + destruct Hc as (c & ->). eexists _, _. split; reflexivity.
    + eexists _, _. split; reflexivity.
Qed.

(** * Queries *)

Section Queries.
Context {lib : PyLib}.

Lemma filter_since_well_stamped (cutoff : Z) (h : list entry) :
  well_stamped h -> filter_since cutoff h = Ok (filter (recent cutoff) h).
Proof.
  induction 1 as [|e h He _ IH]; [reflexivity|].
  cbn [filter_since filter]. unfold recent, naive_time in *.
  destruct (fromisoformat (timestamp e)) as [d|]; [|congruence].
  cbn [bind]. unfold datetime_ge.
  destruct (utcoffset d); [congruence|].
  cbn [bind]. rewrite IH. reflexivity.
Qed.

Lemma not_after_trans (a b c : entry) : not_after a b -> not_after b c -> not_after a c.
Proof.
  unfold not_after.
  destruct (naive_time a), (naive_time b), (naive_time c); try tauto. lia.
Qed.

Lemma StronglySorted_filter {A : Type} (R : A -> A -> Prop) (f : A -> bool) (l : list A) :
  StronglySorted R l -> StronglySorted R (filter f l).
Proof.
  induction 1 as [|a l Hs IH Hf]; [constructor|].
  cbn [filter]. destruct (f a); [|exact IH].
  constructor; [exact IH|].
  apply Forall_forall. intros x Hx. apply filter_In in Hx.
  exact (proj1 (Forall_forall _ _) Hf x (proj1 Hx)).
Qed.

Lemma StronglySorted_rev_head {A : Type} (R : A -> A -> Prop) (l : list A) :
  StronglySorted R l ->
  forall x rest, rev l = x :: rest -> Forall (fun y => R y x) rest.
Proof.
  intros Hs x rest E. apply rev_eq_cons in E. subst l.
  apply Forall_forall. intros y Hy. apply in_rev in Hy.
  induction (rev rest) as [|a t IH]; [contradiction|].
  cbn [app] in Hs. inversion Hs as [|? ? Hs' Hf]; subst.
  destruct Hy as [->|Hy].
  - apply (proj1 (Forall_forall _ _) Hf). apply in_or_app. right. now left.
  - now apply IH.
Qed.

Lemma firstn_head_rest {A : Type} (n : nat) (l : list A) (x : A) (rest : list A) :
  firstn n l = x :: rest -> exists rest', l = x :: rest' /\ incl rest rest'.
Proof.
  destruct n as [|n]; [discriminate|]. destruct l as [|a l]; [discriminate|].
  cbn [firstn]. intros [= -> <-]. exists l. split; [reflexivity|].
  intros y Hy. revert Hy. generalize l. clear.
  induction n as [|n IH]; intros [|b l]; cbn; try tauto.
  intros [->|H]; [now left | right; now apply IH].
Qed.

(** C5 (as amended): on a log whose timestamps read as naive datetimes and
    for a limit that is not negative, [list_entries] keeps the entries at
    or after [now - days] when [days] is given and not 0 (all of them
    otherwise), reverses them, and cuts the listing to its first [limit]
    entries when [limit] is given and not 0; when the log is in capture
    order, no listed entry is later than the first one listed. *)
Theorem list_entries_newest_first (m : ClipboardManager) (now : Z)
    (limit days : option Z) (cutoff : Z) :
  well_stamped (history m) ->
  (forall d, days = Some d -> d <> 0 -> cutoff_before now d = Ok cutoff) ->
  (forall n, limit = Some n -> 0 <= n) ->
  list_entries m now limit days
  = Ok (cut_to limit (rev (kept_for days cutoff (history m))))
  /\ (StronglySorted not_after (history m) ->
      forall x rest,
        cut_to limit (rev (kept_for days cutoff (history m))) = x :: rest ->
        Forall (fun y => not_after y x) rest).
Proof.
  intros Hw Hd Hl. split.
  - unfold list_entries, kept_for, cut_to, if_truthy.
    assert (E1 : forall l : list entry,
               match limit with
               | Some n => if n =? 0 then l else slice_to n l
               | None => l
               end
               = match limit with
                 | Some n => if n =? 0 then l else firstn (Z.to_nat n) l
                 | None => l
                 end).
    { intros l. destruct limit as [n|]; [|reflexivity].
      destruct (n =? 0); [reflexivity|].
      apply slice_to_pos. now apply Hl. }
    destruct days as [d|]; [|cbn [bind]; now rewrite E1].
    destruct (Z.eqb_spec d 0) as [->|Hne]; [cbn [bind]; now rewrite E1|].
    rewrite (Hd d eq_refl Hne). cbn [bind].
    rewrite (filter_since_well_stamped cutoff _ Hw). cbn [bind]. now rewrite E1.
  - intros Hs x rest E.
    assert (Hk : StronglySorted not_after (kept_for days cutoff (history m))).
    { unfold kept_for. destruct days as [d|]; [|exact Hs].
      destruct (d =? 0); [exact Hs|]. now apply StronglySorted_filter. }
    assert (Hr : exists rest', rev (kept_for days cutoff (history m)) = x :: rest'
                               /\ incl rest rest').
    { unfold cut_to in E. destruct limit as [n|].
      - destruct (n =? 0).
        + exists rest. split; [exact E | apply incl_refl].
        + now apply firstn_head_rest in E.
      - exists rest. split; [exact E | apply incl_refl]. }
    destruct Hr as (rest' & Er & Hi).
    pose proof (StronglySorted_rev_head _ _ Hk x rest' Er) as HF.
    apply Forall_forall. intros y Hy.
    exact (proj1 (Forall_forall _ _) HF y (Hi y Hy)).
Qed.

(** C6 (as amended): on a log of [N >= 1] entries index 1 chooses the
    newest entry and index [N] the oldest, and the entry is shown when its
    timestamp parses; when the parse raises, [get_entry] raises the same
    error and shows nothing.  An index outside [1..N] is refused with the
    range [1-N]; on an empty log every index is refused with the notice
    that there is no history, which names no range.  A refusal shows no
    entry, changes nothing and raises nothing. *)
Theorem get_entry_index (m : ClipboardManager) (w : world) (index : Z)
    (response : option string) :
  (history m = [] -> get_entry m w index response = Ok (NoHistory, w))
  /\ (history m <> [] -> index < 1 \/ len (history m) < index ->
      get_entry m w index response = Ok (InvalidIndex (len (history m)), w))
  /\ (forall h0 e, history m = (h0 ++ [e])%list ->
      (readable e ->
       exists copied w', get_entry m w 1 response = Ok (Shown e copied, w'))
      /\ (forall x, fromisoformat (timestamp e) = Raise x ->
                    get_entry m w 1 response = Raise x))
  /\ (forall e h0, history m = e :: h0 ->
      (readable e ->
       exists copied w',
         get_entry m w (len (history m)) response = Ok (Shown e copied, w'))
      /\ (forall x, fromisoformat (timestamp e) = Raise x ->
                    get_entry m w (len (history m)) response = Raise x)).
Proof.
  assert (Hshow : forall i e,
            get_entry m w i response
            = (dt <- fromisoformat (timestamp e) ;; Ok (offer_copy w e response)) ->
            (readable e ->
             exists copied w', get_entry m w i response = Ok (Shown e copied, w'))
            /\ (forall x, fromisoformat (timestamp e) = Raise x ->
                          get_entry m w i response = Raise x)).
  { intros i e ->. split.
    - intros [d ->]. cbn [bind]. unfold offer_copy.
      destruct response as [r|]; [destruct (_ =? _)%string|]; eexists _, _; reflexivity.
    - intros x ->. reflexivity. }
  split; [|split; [|split]].
  - unfold get_entry. now intros ->.
  - unfold get_entry. intros Hne Hr. destruct (history m) as [|a h]; [congruence|].
    rewrite len_rev.
    destruct Hr as [Hr|Hr]; apply Z.ltb_lt in Hr; rewrite Hr;
      [reflexivity | now rewrite orb_true_r].
  - intros h0 e E. apply Hshow. unfold get_entry.
    rewrite E. destruct (h0 ++ [e])%list as [|a h] eqn:E2.
    + now destruct h0.
    + rewrite <- E2, rev_unit.
      change (1 <? 1) with false. change (Z.to_nat (1 - 1)) with 0%nat.
      destruct (Z.ltb_spec (len (e :: rev h0)) 1) as [Hlt|_].
      { unfold len in Hlt. cbn [length] in Hlt. lia. }
      reflexivity.
  - intros e h0 E. apply Hshow. unfold get_entry. rewrite E.
    assert (Hlen : len (rev (e :: h0)) = len (e :: h0))
      by (unfold len; now rewrite length_rev).
    rewrite Hlen.
    destruct (Z.ltb_spec (len (e :: h0)) 1) as [Hlt|_].
    { unfold len in Hlt. cbn [length] in Hlt. lia. }
    rewrite Z.ltb_irrefl. cbn [orb].
    assert (Hn : nth_error (rev (e :: h0)) (Z.to_nat (len (e :: h0) - 1)) = Some e).
    { cbn [rev]. unfold len. cbn [length].
      rewrite nth_error_app2 by (rewrite length_rev; lia).
      rewrite length_rev.
      replace (Z.to_nat (Z.of_nat (S (length h0)) - 1) - length h0)%nat with 0%nat by lia.
      reflexivity. }
    now rewrite Hn.
Qed.

End Queries.

Section Search.
Context {lib : PyLib}.

Lemma search_loop_unlimited (q : string) (limit : option Z) (todo acc : list entry) :
  limit = None \/ limit = Some 0 ->
  search_loop q limit todo acc
  = (acc ++ filter (fun e => str_in q (str_lower (content e))) todo)%list.
Proof.
  intros Hl. revert acc. induction todo as [|e todo IH]; intros acc; cbn [search_loop filter].
  - now rewrite app_nil_r.
  - destruct (str_in q (str_lower (content e))).
    + replace (if_truthy limit (fun n => n <=? len (acc ++ [e])%list) false) with false
        by (destruct Hl as [->| ->]; reflexivity).
      rewrite IH, <- app_assoc. reflexivity.
    + apply IH.
Qed.

Lemma search_loop_positive (q : string) (n : Z) (todo acc : list entry) :
  len acc < n ->
  search_loop q (Some n) todo acc
  = (acc ++ firstn (Z.to_nat (n - len acc))
              (filter (fun e => str_in q (str_lower (content e))) todo))%list.
Proof.
  revert acc. induction todo as [|e todo IH]; intros acc Hlt; cbn [search_loop filter].
  - now rewrite firstn_nil, app_nil_r.
  - destruct (str_in q (str_lower (content e))); [|now apply IH].
    unfold if_truthy. destruct (Z.eqb_spec n 0) as [->|_].
    { pose proof (len_nonneg acc). lia. }
    rewrite len_app. change (len [e]) with 1.
    replace (Z.to_nat (n - len acc)) with (S (Z.to_nat (n - (len acc + 1)))) by lia.
    cbn [firstn].
    destruct (Z.leb_spec n (len acc + 1)) as [Hle|Hgt].
    + replace (Z.to_nat (n - (len acc + 1))) with 0%nat by lia. reflexivity.
    + rewrite IH by (rewrite len_app; change (len [e]) with 1; lia).
      rewrite len_app, <- app_assoc. reflexivity.
Qed.

Lemma search_loop_negative (q : string) (n : Z) (todo acc : list entry) :
  n < 0 ->
  search_loop q (Some n) todo acc
  = (acc ++ firstn 1 (filter (fun e => str_in q (str_lower (content e))) todo))%list.
Proof.
  intros Hn. revert acc.
  induction todo as [|e todo IH]; intros acc; cbn [search_loop filter].
  - now rewrite app_nil_r.
  - destruct (str_in q (str_lower (content e))); [|now apply IH].
    unfold if_truthy. destruct (Z.eqb_spec n 0) as [->|_]; [lia|].
    pose proof (len_nonneg (acc ++ [e])).
    destruct (Z.leb_spec n (len (acc ++ [e])%list)); [reflexivity | lia].
Qed.

(** C7 (as amended): [search] matches the lowered query as a substring of
    the lowered content, newest entry first; with a positive limit it
    returns the [limit] most recent matches, with no limit or the limit 0
    all of them (with a negative limit the most recent one); on the five
    entries of the example, the query foo with limit 2 finds foo3 then
    foo2. *)
Theorem search_limit (m : ClipboardManager) (query : string) (limit : option Z) :
  search m query limit
  = most_recent_matches limit (filter (matches query) (rev (history m)))
  /\ search (lib := Reference.lib) search_example "foo" (Some 2)
     = [example_entry "foo3"; example_entry "foo2"].
Proof.
  split; [|reflexivity].
  unfold search, most_recent_matches, matches.
  destruct limit as [n|].
  - destruct (Z.eqb_spec n 0) as [->|Hne].
    + now rewrite search_loop_unlimited by auto.
    + destruct (Z.ltb_spec 0 n).
      * rewrite search_loop_positive by (cbn; lia). cbn [app len length].
        now rewrite Z.sub_0_r.
      * rewrite search_loop_negative by lia. reflexivity.
  - now rewrite search_loop_unlimited by auto.
Qed.

End Search.

Section Pruning.
Context {lib : PyLib}.

Lemma filter_partition_len {A : Type} (f : A -> bool) (l : list A) :
  len l = len (filter f l) + len (filter (fun x => negb (f x)) l).
Proof.
  unfold len. induction l as [|a l IH]; [reflexivity|].
  cbn [filter]. destruct (f a); cbn [negb length]; lia.
Qed.

(** C8 (as amended): for a positive [days] whose cutoff [now - days] is a
    datetime, and a log whose timestamps read as naive datetimes, [clear]
    keeps exactly
    the entries at or after the cutoff, in order, writes the result to the
    history file, and reports the number of entries it removed, each of
    them earlier than the cutoff. *)
Theorem clear_by_age (m : ClipboardManager) (w : world) (now days cutoff : Z)
    (response : string) :
  0 < days ->
  cutoff_before now days = Ok cutoff ->
  well_stamped (history m) ->
  let kept := filter (recent cutoff) (history m) in
  let removed := filter (fun e => negb (recent cutoff e)) (history m) in
  clear m w now (Some days) response
  = Ok (Removed (len removed), set_history m kept, save_data (set_history m kept) w)
  /\ history_file (save_data (set_history m kept) w)
     = Some (Json.dumps (json_of_history kept))
  /\ Forall (fun e => exists t, naive_time e = Some t /\ cutoff <= t) kept
  /\ Forall (fun e => exists t, naive_time e = Some t /\ t < cutoff) removed
  /\ len (history m) = len kept + len removed.
Proof.
  intros Hd Hc Hw kept removed. repeat split.
  - unfold clear, if_truthy. destruct (Z.eqb_spec days 0); [lia|].
    rewrite Hc. cbn [bind]. rewrite (filter_since_well_stamped _ _ Hw). cbn [bind fst snd].
    fold kept. rewrite (filter_partition_len (recent cutoff) (history m)).
    fold kept removed.
    replace (len kept + len removed - len kept) with (len removed) by lia. reflexivity.
  - apply Forall_forall. intros e He. apply filter_In in He. destruct He as [_ He].
    unfold recent in He. destruct (naive_time e) as [t|] eqn:Et; [|discriminate].
    exists t. split; [reflexivity | now apply Z.leb_le].
  - apply Forall_forall. intros e He. apply filter_In in He. destruct He as [Hin He].
    pose proof (proj1 (Forall_forall _ _) Hw e Hin) as Hn.
    unfold recent in He. destruct (naive_time e) as [t|] eqn:Et; [|congruence].
    exists t. split; [reflexivity|]. apply negb_true_iff, Z.leb_gt in He. exact He.
  - apply filter_partition_len.
Qed.

(** C10: the value 0 for [days] is treated as no value: [clear] then asks
    for confirmation and clears everything or nothing, and [list_entries]
    lists the entries of every age. *)
Theorem zero_days_is_no_days (m : ClipboardManager) (w : world) (now : Z)
    (limit : option Z) (response : string) :
  clear m w now (Some 0) response = clear m w now None response
  /\ clear m w now (Some 0) response
     = Ok (if (str_lower response =? "yes")%string
           then (Cleared, set_history m [], save_data (set_history m []) w)
           else (Cancelled, m, save_data m w))
  /\ list_entries m now limit (Some 0) = list_entries m now limit None
  /\ list_entries m now None (Some 0) = Ok (rev (history m)).
Proof.
  repeat split.
  unfold clear, if_truthy. cbn [Z.eqb bind].
  now destruct (_ =? _)%string.
Qed.

End Pruning.

(** * Python's division of two integers *)
















(** ** No double is nearer *)










Section Statistics.
Context {lib : PyLib}.

Lemma fold_left_sizes (h : list entry) (a : Z) :
  fold_left (fun acc e => acc + size e) h a = a + stored_total h.
Proof.
  unfold stored_total.
  revert a. induction h as [|e h IH]; intros a; cbn [fold_left map fold_right]; [lia|].
  rewrite IH. lia.
Qed.


Lemma len_positive (h : list entry) :
  h <> [] -> exists p, len h = Zpos p.
Proof.
  intros Hne. destruct h as [|e h]; [congruence|].
  unfold len. cbn [length]. exists (Pos.of_succ_nat (length h)). lia.
Qed.

(** What [stats] computes on a log that is not empty, in the order in
    which it computes it. *)
Lemma stats_steps (m : ClipboardManager) :
  history m <> [] ->
  exists p,
    len (history m) = Zpos p
    /\ stats m
       = (f <- int_true_divide (stored_total (history m)) p ;;
          by_day <- count_days (history m) [] ;;
          mb <- int_true_divide (stored_total (history m)) (1024 * 1024) ;;
          Ok (Some {| total_entries := len (history m);
                      total_size := stored_total (history m);
                      total_size_mb := mb;
                      avg_size := PyFloat f;
                      days_with_activity := len by_day;
                      most_active_days := firstn 5 (sorted_desc by_day) |})).
Proof.
  intros Hne. destruct (len_positive _ Hne) as (p & Hp). exists p.
  split; [exact Hp|]. unfold stats.
  rewrite fold_left_sizes, Z.add_0_l. unfold average. rewrite Hp.
  destruct (history m) as [|e h]; [congruence|].
  destruct (int_true_divide (stored_total (e :: h)) p) as [f|x]; reflexivity.
Qed.

Lemma stats_returns (m : ClipboardManager) (r : stats_report) :
  stats m = Ok (Some r) ->
  exists p f by_day mb,
    history m <> []
    /\ len (history m) = Zpos p
    /\ int_true_divide (stored_total (history m)) p = Ok f
    /\ count_days (history m) [] = Ok by_day
    /\ r = {| total_entries := len (history m);
              total_size := stored_total (history m);
              total_size_mb := mb;
              avg_size := PyFloat f;
              days_with_activity := len by_day;
              most_active_days := firstn 5 (sorted_desc by_day) |}.
Proof.
  intros E.
  assert (Hne : history m <> []).
  { intros Hn. unfold stats in E. rewrite Hn in E. discriminate. }
  destruct (stats_steps m Hne) as (p & Hp & Es). rewrite Es in E.
  destruct (int_true_divide (stored_total (history m)) p) as [f|] eqn:Ef; [|discriminate].
  cbn [bind] in E.
  destruct (count_days (history m) []) as [by_day|] eqn:Ec; [|discriminate].
  cbn [bind] in E.
  destruct (int_true_divide (stored_total (history m)) (1024 * 1024)) as [mb|];
    [|discriminate].
  cbn [bind] in E. injection E as <-.
  exists p, f, by_day, mb. repeat split; assumption.
Qed.


End Statistics.

(** * The properties at concrete stores *)

(** At capacity the second of two identical calls is refused, yet the log
    is no longer than before the first. *)
Lemma add_entry_twice_at_capacity :
  let '(r1, m1, w1) := add_entry (lib := Reference.lib) full_store empty_world example_now "b" in
  let '(r2, m2, _) := add_entry (lib := Reference.lib) m1 w1 example_now "b" in
  r1 = true /\ r2 = false
  /\ len (history m2) = len (history full_store)
  /\ len (history m2) <> len (history full_store) + 1.
Proof. vm_compute. repeat split; discriminate. Qed.

Lemma add_entry_twice_witness :
  add_entry (lib := Reference.lib) full_store empty_world example_now "a"
  = (false, full_store, empty_world)
  /\ (let m1 := set_history ordered_log
                  (history ordered_log
                     ++ [new_entry (lib := Reference.lib) (example_now, "b")]) in
      add_entry (lib := Reference.lib) ordered_log empty_world example_now "b"
      = (true, m1, save_data m1 empty_world)
      /\ len (history m1) = len (history ordered_log) + 1
      /\ add_entry (lib := Reference.lib) m1 (save_data m1 empty_world) example_now "b"
         = (false, m1, save_data m1 empty_world))
  /\ (let m1 := set_history full_store
                  (keep_last (config_max_entries (config full_store))
                     (history full_store
                        ++ [new_entry (lib := Reference.lib) (example_now, "b")])) in
      add_entry (lib := Reference.lib) full_store empty_world example_now "b"
      = (true, m1, save_data m1 empty_world)
      /\ len (history m1) = config_max_entries (config full_store)
      /\ add_entry (lib := Reference.lib) m1 (save_data m1 empty_world) example_now "b"
         = (false, m1, save_data m1 empty_world))
  /\ no_adjacent_dup
       (history (snd (fst (add_entry (lib := Reference.lib) ordered_log empty_world
                             example_now "b")))).
Proof.
  assert (Hlast : forall (l : list entry) (a : entry) (x : string),
            content a <> x ->
            forall h0 e, (l ++ [a])%list = (h0 ++ [e])%list -> content e <> x).
  { intros l a x Ha h0 e E. apply app_inj_tail in E. destruct E as [_ <-]. exact Ha. }
  split; [|split; [|split]].
  - apply (proj1 (add_entry_twice (lib := Reference.lib) full_store empty_world
                    example_now example_now "a")).
    exists [], (stamped "a" "2024-05-01T10:00:00"). split; reflexivity.
  - apply (proj1 (proj2 (proj2 (add_entry_twice (lib := Reference.lib) ordered_log
                                  empty_world example_now example_now "b")))).
    + vm_compute. discriminate.
    + apply (Hlast [stamped "old" "2024-05-01T10:00:00"]). discriminate.
    + reflexivity.
  - apply (proj1 (proj2 (proj2 (proj2 (add_entry_twice (lib := Reference.lib) full_store
                                         empty_world example_now example_now "b"))))).
    + vm_compute. discriminate.
    + apply (Hlast []). discriminate.
    + vm_compute. split; [reflexivity | discriminate].
  - apply (proj2 (proj2 (proj2 (proj2 (add_entry_twice (lib := Reference.lib) ordered_log
                                         empty_world example_now example_now "b"))))).
    simpl. repeat split. discriminate.
Defined.

Lemma add_entry_oversize_witness :
  let m := {| max_size_bytes := 3; history := [sized_entry 2]; config := default_config |} in
  add_entry (lib := Reference.lib) m empty_world example_now "abcd" = (false, m, empty_world)
  /\ (forall r m' w', add_entry (lib := Reference.lib) m empty_world example_now "abc" = (r, m', w') ->
      max_size_bytes m' = 3 /\ Forall (fun e => size e <= 3) (history m')).
Proof.
  intros m. split.
  - apply (proj1 (add_entry_oversize (lib := Reference.lib) m empty_world example_now "abcd")).
    reflexivity.
  - apply (proj2 (add_entry_oversize (lib := Reference.lib) m empty_world example_now "abc")).
    repeat constructor. simpl. lia.
Defined.

Lemma add_entry_capacity_witness :
  let m := empty_manager 2 in
  let items := [(example_now, "a"); (example_now, "b"); (example_now, "c")] in
  let h' := history (fst (add_entries (lib := Reference.lib) m empty_world items)) in
  h' = map (new_entry (lib := Reference.lib)) (skipn 1 items)
  /\ len h' = 2
  /\ hd_error h' = nth_error (map (new_entry (lib := Reference.lib)) items) 1.
Proof.
  intros m items.
  apply (proj2 (add_entry_capacity (lib := Reference.lib) m empty_world ltac:(reflexivity)) items 1%nat).
  - reflexivity.
  - reflexivity.
  - repeat constructor; simpl; discriminate.
  - simpl. repeat split; discriminate.
Defined.

Lemma save_then_open_witness :
  exists m' w',
    init 10 (save_data ordered_log configured_world) = Loaded (m', w')
    /\ history m' = history ordered_log.
Proof.
  apply (proj2 (save_then_open ordered_log configured_world 10)).
  exists default_config. vm_compute. reflexivity.
Defined.

(** On a log stored out of capture order the first entry listed is older
    than another one; a limit of 0 lists everything; and with 0 days
    entries older than the present moment are listed. *)
Lemma list_entries_not_by_time :
  list_entries (lib := Reference.lib) disordered_log example_now None None
  = Ok [stamped "old" "2024-05-01T10:00:00"; stamped "new" "2024-05-02T10:00:00"]
  /\ ~ not_after (lib := Reference.lib) (stamped "new" "2024-05-02T10:00:00")
                            (stamped "old" "2024-05-01T10:00:00")
  /\ list_entries (lib := Reference.lib) ordered_log example_now (Some 0) None
     = Ok [stamped "new" "2024-05-02T10:00:00"; stamped "old" "2024-05-01T10:00:00"]
  /\ list_entries (lib := Reference.lib) ordered_log example_now None (Some 0)
     = Ok [stamped "new" "2024-05-02T10:00:00"; stamped "old" "2024-05-01T10:00:00"]
  /\ recent (lib := Reference.lib) example_now (stamped "new" "2024-05-02T10:00:00") = false.
Proof.
  repeat split. vm_compute. intros H. now apply H.
Qed.

Lemma list_entries_newest_first_witness :
  list_entries (lib := Reference.lib) ordered_log example_now (Some 1) (Some 2)
  = Ok [stamped "new" "2024-05-02T10:00:00"]
  /\ (forall x rest,
      cut_to (Some 2) (rev (history ordered_log)) = x :: rest ->
      Forall (fun y => not_after (lib := Reference.lib) y x) rest).
Proof.
  pose (cutoff := example_now - 2 * DAY_US).
  split.
  - refine (proj1 (list_entries_newest_first (lib := Reference.lib) ordered_log example_now
                     (Some 1) (Some 2) cutoff _ _ _)).
    + repeat constructor; vm_compute; discriminate.
    + intros d [= <-] _. reflexivity.
    + intros n [= <-]. lia.
  - refine (proj2 (list_entries_newest_first (lib := Reference.lib) ordered_log example_now
                     (Some 2) None cutoff _ _ _) _).
    + repeat constructor; vm_compute; discriminate.
    + discriminate.
    + intros n [= <-]. lia.
    + repeat constructor; vm_compute; discriminate.
Defined.

(** On an empty log the refusal names no range. *)
Lemma get_entry_empty_log :
  get_entry (lib := Reference.lib) (empty_manager 1000) empty_world 1 None
  = Ok (NoHistory, empty_world)
  /\ forall upper w',
       get_entry (lib := Reference.lib) (empty_manager 1000) empty_world 1 None
       <> Ok (InvalidIndex upper, w').
Proof. split; [reflexivity | discriminate]. Qed.

Lemma get_entry_index_witness :
  get_entry (lib := Reference.lib) (empty_manager 1000) empty_world 1 None
  = Ok (NoHistory, empty_world)
  /\ get_entry (lib := Reference.lib) ordered_log empty_world 3 None
     = Ok (InvalidIndex 2, empty_world)
  /\ (exists copied w',
      get_entry (lib := Reference.lib) ordered_log empty_world 1 None
      = Ok (Shown (stamped "new" "2024-05-02T10:00:00") copied, w'))
  /\ (exists copied w',
      get_entry (lib := Reference.lib) ordered_log empty_world 2 None
      = Ok (Shown (stamped "old" "2024-05-01T10:00:00") copied, w'))
  /\ get_entry (lib := Reference.lib) unreadable_log empty_world 1 None
     = Raise ValueError.
Proof.
  split; [|split; [|split; [|split]]].
  - apply (proj1 (get_entry_index (lib := Reference.lib) (empty_manager 1000)
                    empty_world 1 None)).
    reflexivity.
  - apply (proj1 (proj2 (get_entry_index (lib := Reference.lib) ordered_log
                           empty_world 3 None))).
    + discriminate.
    + right. reflexivity.
  - apply (proj1 (proj1 (proj2 (proj2 (get_entry_index (lib := Reference.lib) ordered_log
                                         empty_world 1 None)))
                    [stamped "old" "2024-05-01T10:00:00"] _ eq_refl)).
    unfold readable. reads_ok.
  - apply (proj1 (proj2 (proj2 (proj2 (get_entry_index (lib := Reference.lib) ordered_log
                                         empty_world 2 None)))
                    _ [stamped "new" "2024-05-02T10:00:00"] eq_refl)).
    unfold readable. reads_ok.
  - apply (proj2 (proj1 (proj2 (proj2 (get_entry_index (lib := Reference.lib)
                                         unreadable_log empty_world 1 None)))
                    [stamped "old" "2024-05-01T10:00:00"] _ eq_refl)).
    vm_compute. reflexivity.
Defined.

(** With the limit 0 all three matches are returned. *)
Lemma search_limit_zero :
  search (lib := Reference.lib) search_example "foo" (Some 0)
  = [example_entry "foo3"; example_entry "foo2"; example_entry "foo1"].
Proof. reflexivity. Qed.

(** A number of days beyond what [timedelta] holds, or reaching before the
    year 1, makes [clear] fail; nothing is removed and nothing written. *)
Lemma clear_days_out_of_range :
  clear (lib := Reference.lib) ordered_log empty_world example_now (Some 1000000000) EmptyString
  = Raise OverflowError
  /\ clear (lib := Reference.lib) ordered_log empty_world example_now (Some 800000) EmptyString
     = Raise OverflowError.
Proof. split; reflexivity. Qed.

Lemma clear_by_age_witness :
  clear (lib := Reference.lib) ordered_log empty_world example_now (Some 2) EmptyString
  = Ok (Removed 1,
        set_history ordered_log [stamped "new" "2024-05-02T10:00:00"],
        save_data (set_history ordered_log [stamped "new" "2024-05-02T10:00:00"])
          empty_world).
Proof.
  refine (proj1 (clear_by_age (lib := Reference.lib) ordered_log empty_world example_now 2
                   (example_now - 2 * DAY_US) EmptyString _ _ _)).
  - reflexivity.
  - reflexivity.
  - repeat constructor; vm_compute; discriminate.
Defined.




(** ** The concrete library on known values *)

Example fromisoformat_leap_day :
  Reference.fromisoformat_canonical "2024-02-29T12:00:00"
  = Ok {| wall := 63844804800000000; utcoffset := None |}.
Proof. reflexivity. Qed.

Example isoformat_leap_day :
  Reference.isoformat_naive 63844804800000000 = "2024-02-29T12:00:00".
Proof. reflexivity. Qed.

Example isoformat_microseconds :
  Reference.isoformat_naive 63844804799000123 = "2024-02-29T11:59:59.000123".
Proof. reflexivity. Qed.

Example ordinal_of_epoch : Reference.ymd2ord 1970 1 1 = 719163.
Proof. reflexivity. Qed.

Example ordinal_of_last_day : Reference.ymd2ord 9999 12 31 = MAXORDINAL.
Proof. reflexivity. Qed.

Example escape_line_feed :
  Json.escape (String "010" "a") = String "092" "na".
Proof. reflexivity. Qed.

Example dumps_empty_history : Json.dumps (json_of_history []) = "[]".
Proof. reflexivity. Qed.

(** A text may come back after another one: all three calls are accepted. *)
Example repeat_after_other_text :
  let '(r1, m1, w1) :=
    add_entry (lib := Reference.lib) (empty_manager 1000) empty_world example_now "a" in
  let '(r2, m2, w2) := add_entry (lib := Reference.lib) m1 w1 example_now "b" in
  let '(r3, m3, _) := add_entry (lib := Reference.lib) m2 w2 example_now "a" in
  r1 = true /\ r2 = true /\ r3 = true /\ len (history m3) = 3.
Proof. vm_compute. repeat split. Qed.

(** * More of the add path *)

Section AddPathMore.
Context {lib : PyLib}.

Lemma decode_saved_config (c : Config) :
  decode config_of_json (Json.dumps (json_of_config c)) = Loaded c.
Proof.
  unfold decode.
  assert (Hf : Json.float_free (json_of_config c) = true)
    by (destruct c as [[a|] [b|]]; reflexivity).
  rewrite (JsonFacts.loads_dumps _ Hf).
  destruct c as [[a|] [b|]]; reflexivity.
Qed.

Lemma synced_reopens (m : ClipboardManager) (w : world) (max_size_mb : Z) :
  synced m w -> config_loadable w ->
  exists m' w', init max_size_mb w = Loaded (m', w') /\ history m' = history m.
Proof.
  unfold synced, config_loadable, init, load_data. intros -> Hc.
  rewrite decode_saved_history.
  destruct (config_file w) as [text|].
  - destruct Hc as (c & ->). eexists _, _. split; reflexivity.
  - eexists _, _. split; reflexivity.
Qed.

Lemma add_entry_result (m : ClipboardManager) (w : world) (now : Z) (text : string)
    (r : bool) (m' : ClipboardManager) (w' : world) :
  add_entry m w now text = (r, m', w') ->
  (r = false /\ m' = m /\ w' = w)
  \/ (r = true /\ m' = set_history m (appended m now text) /\ w' = save_data m' w
      /\ utf8_len text <= max_size_bytes m /\ same_as_last (history m) text = false).
Proof.
  intros E.
  destruct (add_entry_cases m w now text) as [(E1 & _)|(E1 & Hs & Hl)];
    rewrite E1 in E; injection E as <- <- <-; [left | right]; auto.
Qed.

(** X1: [add_entry] changes nothing but the log and the history file: the
    configuration, the size limit, the configuration file and the clipboard
    stay as they are; an accepted call writes the whole resulting log to
    the history file, once, and a refused call writes nothing. *)
Theorem add_entry_frame (m : ClipboardManager) (w : world) (now : Z) (text : string)
    (r : bool) (m' : ClipboardManager) (w' : world) :
  add_entry m w now text = (r, m', w') ->
  config m' = config m
  /\ max_size_bytes m' = max_size_bytes m
  /\ config_file w' = config_file w
  /\ clipboard w' = clipboard w
  /\ writes w'
     = ((if r then [(HistoryFile, Json.dumps (json_of_history (history m')))] else [])
          ++ writes w)%list.
Proof.
  intros E. destruct (add_entry_result _ _ _ _ _ _ _ E)
    as [(-> & -> & ->)|(-> & -> & -> & _)]; repeat split.
Qed.

(** X2: the history file follows the log: if it held the log before a call
    of [add_entry] it holds the log after it; after an accepted call it
    holds the log in any case, and a manager opened then on the same
    directory, its configuration file absent or readable, starts with
    exactly the log the call left. *)
Theorem add_entry_durable (m : ClipboardManager) (w : world) (now : Z) (text : string)
    (r : bool) (m' : ClipboardManager) (w' : world) (max_size_mb : Z) :
  add_entry m w now text = (r, m', w') ->
  (synced m w -> synced m' w')
  /\ (r = true ->
      synced m' w'
      /\ (config_loadable w ->
          exists m2 w2, init max_size_mb w' = Loaded (m2, w2)
                        /\ history m2 = history m')).
Proof.
  intros E. destruct (add_entry_result _ _ _ _ _ _ _ E)
    as [(-> & -> & ->)|(-> & Hm & -> & _)].
  - split; [auto | discriminate].
  - assert (Hs : synced m' (save_data m' w)) by reflexivity.
    split; [auto|]. intros _. split; [exact Hs|].
    intros Hc. apply synced_reopens; [exact Hs | exact Hc].
Qed.

Lemma add_entry_keeps_Forall (P : entry -> Prop) (m : ClipboardManager) (w : world)
    (now : Z) (text : string) :
  P (new_entry (now, text)) ->
  Forall P (history m) ->
  Forall P (history (snd (fst (add_entry m w now text)))).
Proof.
  intros Hn H. destruct (add_entry_cases m w now text) as [(E & _)|(E & _)]; rewrite E.
  - exact H.
  - cbn [fst snd history set_history].
    destruct (appended_is_suffix m now text) as (k & ->).
    apply Forall_skipn_keep, Forall_app. split; [exact H|].
    constructor; [exact Hn | constructor].
Qed.

(** X3: the stored size of every entry is the UTF-8 length of its content:
    a log for which this holds still has it after any call of
    [add_entry]. *)
Theorem add_entry_sizes_consistent (m : ClipboardManager) (w : world) (now : Z)
    (text : string) :
  sizes_consistent (history m) ->
  sizes_consistent (history (snd (fst (add_entry m w now text)))).
Proof.
  intros H. now apply add_entry_keeps_Forall.
Qed.

(** X4: a [max_entries] that is not positive bounds nothing.  With 0 the
    slice [history[-0:]] is the whole list, so an accepted text is appended
    and nothing is ever dropped; with [-k] the slice drops the [k] oldest
    entries of the extended log, the new entry too when the log is that
    short, although the call returns true. *)
Theorem add_entry_without_bound (m : ClipboardManager) (w : world) (now : Z)
    (text : string) :
  config_max_entries (config m) <= 0 ->
  utf8_len text <= max_size_bytes m ->
  same_as_last (history m) text = false ->
  exists m' w',
    add_entry m w now text = (true, m', w')
    /\ history m' = skipn (Z.to_nat (- config_max_entries (config m)))
                      (history m ++ [new_entry (now, text)])
    /\ (config_max_entries (config m) = 0 ->
        history m' = (history m ++ [new_entry (now, text)])%list).
Proof.
  intros Hn Hs Hl. rewrite (add_entry_accepts m w now text Hs Hl).
  eexists _, _. split; [reflexivity|]. cbn [history set_history].
  assert (Ha : appended m now text
               = skipn (Z.to_nat (- config_max_entries (config m)))
                   (history m ++ [new_entry (now, text)])).
  { unfold appended, new_entry. cbn [fst snd].
    set (h := (history m ++ _)%list).
    assert (Hlen : 1 <= len h).
    { unfold h. rewrite len_app. change (len [_]) with 1.
      pose proof (len_nonneg (history m)). lia. }
    destruct (Z.ltb_spec (config_max_entries (config m)) (len h)); [|lia].
    unfold slice_from, clamp_index.
    destruct (Z.ltb_spec (- config_max_entries (config m)) 0); [lia|].
    destruct (Z.le_ge_cases (- config_max_entries (config m)) (len h)) as [Hle|Hge].
    - now rewrite Z.min_l.
    - rewrite Z.min_r by lia. unfold len in *.
      rewrite !skipn_all2; trivial; lia. }
  split; [exact Ha|]. intros H0. rewrite Ha, H0. reflexivity.
Qed.

(** X5: only the last entry counts for the refusal of a repeat: of the
    calls with [a], then [b], then [a] again, where [a] and [b] differ, fit
    the size limit and [a] is not the content of the last entry, all three
    are accepted, whatever non-negative [max_entries] is. *)
Theorem repeat_after_other_accepted (m : ClipboardManager) (w : world)
    (t1 t2 t3 : Z) (a b : string) :
  0 <= config_max_entries (config m) ->
  utf8_len a <= max_size_bytes m -> utf8_len b <= max_size_bytes m ->
  a <> b ->
  same_as_last (history m) a = false ->
  exists m1 w1 m2 w2 m3 w3,
    add_entry m w t1 a = (true, m1, w1)
    /\ add_entry m1 w1 t2 b = (true, m2, w2)
    /\ add_entry m2 w2 t3 a = (true, m3, w3).
Proof.
  intros HN Ha Hb Hab Hl.
  assert (Hnext : forall m0 t x y,
             0 <= config_max_entries (config m0) -> x <> y ->
             same_as_last (history (set_history m0 (appended m0 t x))) y = false).
  { intros m0 t x y H0 Hxy. cbn [history set_history].
    destruct (appended_nonempty m0 t x H0) as (h0 & e & -> & Ec).
    rewrite same_as_last_snoc, Ec. now apply String.eqb_neq. }
  set (m1 := set_history m (appended m t1 a)).
  set (m2 := set_history m1 (appended m1 t2 b)).
  set (m3 := set_history m2 (appended m2 t3 a)).
  exists m1, (save_data m1 w), m2, (save_data m2 (save_data m1 w)),
         m3, (save_data m3 (save_data m2 (save_data m1 w))).
  split; [|split].
  - now apply add_entry_accepts.
  - apply add_entry_accepts; [exact Hb|]. now apply Hnext.
  - apply add_entry_accepts; [exact Ha|]. apply Hnext; [exact HN | congruence].
Qed.

End AddPathMore.

(** * The monitor loop *)

Section MonitorLoop.
Context {lib : PyLib}.

Lemma monitor_turn_skips (s : ClipboardManager * world * option string) (now : Z) :
  monitor_turn s (now, None) = s.
Proof. reflexivity. Qed.

Lemma last_after_head {A : Type} (a d : A) (l : list A) :
  last (a :: l) d = last l a.
Proof.
  revert a d. induction l as [|b l IH]; intros a d; [reflexivity|].
  change (last (a :: b :: l) d) with (last (b :: l) d).
  now rewrite !IH.
Qed.

Lemma monitor_turn_reads (m : ClipboardManager) (w : world) (last_content : option string)
    (now : Z) (pasted : string) :
  monitor_turn (m, w, last_content) (now, Some pasted)
  = monitor_step m w now last_content pasted.
Proof. reflexivity. Qed.

Lemma monitor_fold_offers (readings : list (Z * option string)) :
  forall (m : ClipboardManager) (w : world) (last_content : option string),
  fst (fold_left monitor_turn readings (m, w, last_content))
  = add_entries m w (offered last_content readings)
  /\ snd (fold_left monitor_turn readings (m, w, last_content))
     = last (map (fun it => Some (snd it)) (offered last_content readings)) last_content.
Proof.
  induction readings as [|[now [pasted|]] rest IH]; intros m w last_content.
  - split; reflexivity.
  - cbn [fold_left offered]. rewrite monitor_turn_reads. unfold monitor_step.
    destruct (negb (pasted =? EmptyString)%string
              && negb match last_content with
                      | Some l => (pasted =? l)%string
                      | None => false
                      end).
    + destruct (add_entry m w now pasted) as [[r m'] w'] eqn:E.
      destruct (IH m' w' (Some pasted)) as (H1 & H2). split.
      * rewrite H1. unfold add_entries at 2. cbn [fold_left fst snd]. now rewrite E.
      * rewrite H2. cbn [map snd]. symmetry. apply last_after_head.
    + apply IH.
  - cbn [fold_left offered]. rewrite monitor_turn_skips. apply IH.
Qed.

Lemma offered_not_empty (readings : list (Z * option string)) :
  forall last_content,
  Forall (fun it => snd it <> EmptyString) (offered last_content readings).
Proof.
  induction readings as [|[now [pasted|]] rest IH]; intros last_content; cbn [offered].
  - constructor.
  - destruct (String.eqb_spec pasted EmptyString) as [->|Hne]; cbn [negb andb]; [apply IH|].
    destruct (negb _); [|apply IH]. constructor; [exact Hne | apply IH].
  - apply IH.
Qed.

Lemma offered_no_repeat (readings : list (Z * option string)) :
  forall last_content,
  no_adjacent_repeat (map snd (offered last_content readings))
  /\ match offered last_content readings, last_content with
     | it :: _, Some l => snd it <> l
     | _, _ => True
     end.
Proof.
  induction readings as [|[now [pasted|]] rest IH]; intros last_content; cbn [offered].
  - split; [exact I | now destruct last_content].
  - destruct (negb (pasted =? EmptyString)%string); cbn [andb]; [|apply IH].
    destruct last_content as [l|].
    + destruct (String.eqb_spec pasted l) as [->|Hne]; cbn [negb]; [apply IH|].
      destruct (IH (Some pasted)) as (H1 & H2). split; [|exact Hne].
      cbn [map no_adjacent_repeat snd]. split; [|exact H1].
      destruct (offered (Some pasted) rest) as [|it ?]; [exact I|].
      cbn [map snd]. congruence.
    + cbn [negb]. destruct (IH (Some pasted)) as (H1 & H2). split; [|exact I].
      cbn [map no_adjacent_repeat snd]. split; [|exact H1].
      destruct (offered (Some pasted) rest) as [|it ?]; [exact I|].
      cbn [map snd]. congruence.
  - apply IH.
Qed.

(** X6: what the loop of [monitor] does to the store over its first turns
    is what [add_entry] does when called once for each text handed
    over: a turn whose reading fails, is empty, or equals the text handed
    over last calls nothing and changes nothing, also when that text was
    refused.  The texts handed over are never empty and never twice the
    same in a row, and [last_content] ends as the last of them. *)
Theorem monitor_run_offers (m : ClipboardManager) (w : world)
    (readings : list (Z * option string)) :
  fst (monitor_run m w readings) = add_entries m w (offered None readings)
  /\ snd (monitor_run m w readings)
     = last (map (fun it => Some (snd it)) (offered None readings)) None
  /\ Forall (fun it => snd it <> EmptyString) (offered None readings)
  /\ no_adjacent_repeat (map snd (offered None readings)).
Proof.
  unfold monitor_run.
  destruct (monitor_fold_offers readings m w None) as (H1 & H2).
  repeat split; [exact H1 | exact H2 | apply offered_not_empty
                | apply (offered_no_repeat readings None)].
Qed.

Lemma add_entries_preserves (P : ClipboardManager -> world -> Prop)
    (Q : Z * string -> Prop) :
  (forall m w it, Q it -> P m w ->
     P (snd (fst (add_entry m w (fst it) (snd it)))) (snd (add_entry m w (fst it) (snd it)))) ->
  forall items m w, Forall Q items -> P m w ->
    P (fst (add_entries m w items)) (snd (add_entries m w items)).
Proof.
  intros Hstep. induction items as [|it items IH]; intros m w HQ HP; [exact HP|].
  inversion HQ as [|? ? Hq HQ']; subst.
  unfold add_entries. cbn [fold_left fst snd].
  specialize (Hstep m w it Hq HP).
  destruct (add_entry m w (fst it) (snd it)) as [[r m'] w'].
  cbn [fst snd] in Hstep. now apply IH.
Qed.

Lemma add_entry_no_adjacent_dup (m : ClipboardManager) (w : world) (now : Z)
    (text : string) :
  no_adjacent_dup (history m) ->
  no_adjacent_dup (history (snd (fst (add_entry m w now text)))).
Proof.
  intros Hn. destruct (add_entry_cases m w now text) as [(E & _)|(E & _ & Hl)]; rewrite E.
  - exact Hn.
  - cbn [fst snd history set_history].
    destruct (appended_is_suffix m now text) as (k & ->).
    now apply no_adjacent_dup_skipn, no_adjacent_dup_snoc.
Qed.

Lemma add_entry_within_bound (m : ClipboardManager) (w : world) (now : Z)
    (text : string) :
  0 < config_max_entries (config m) ->
  len (history m) <= config_max_entries (config m) ->
  len (history (snd (fst (add_entry m w now text)))) <= config_max_entries (config m).
Proof.
  intros HN Hl. destruct (add_entry_cases m w now text) as [(E & _)|(E & _)]; rewrite E.
  - exact Hl.
  - cbn [fst snd history set_history].
    rewrite appended_keep_last, keep_last_length by lia. lia.
Qed.

Lemma add_entry_same_settings (m : ClipboardManager) (w : world) (now : Z)
    (text : string) :
  config (snd (fst (add_entry m w now text))) = config m
  /\ max_size_bytes (snd (fst (add_entry m w now text))) = max_size_bytes m.
Proof.
  destruct (add_entry_cases m w now text) as [(E & _)|(E & _)]; rewrite E; split; reflexivity.
Qed.

Lemma add_entry_synced (m : ClipboardManager) (w : world) (now : Z) (text : string) :
  synced m w ->
  synced (snd (fst (add_entry m w now text))) (snd (add_entry m w now text)).
Proof.
  intros Hs. destruct (add_entry_cases m w now text) as [(E & _)|(E & _)]; rewrite E.
  - exact Hs.
  - reflexivity.
Qed.

(** X7: what the loop of [monitor] keeps true of the store, however long it
    runs and whatever the clipboard holds: the settings stay the same; no
    two adjacent entries of the log have the same content; no entry is
    empty, larger than the size limit, or stored with a size other than
    the length of its content; the log stays within a positive
    [max_entries]; and the history file holds the log. *)
Theorem monitor_keeps (m : ClipboardManager) (w : world)
    (readings : list (Z * option string)) :
  let m' := fst (fst (monitor_run m w readings)) in
  let w' := snd (fst (monitor_run m w readings)) in
  (config m' = config m /\ max_size_bytes m' = max_size_bytes m)
  /\ (no_adjacent_dup (history m) -> no_adjacent_dup (history m'))
  /\ (Forall (fun e => content e <> EmptyString) (history m) ->
      Forall (fun e => content e <> EmptyString) (history m'))
  /\ (Forall (fun e => size e <= max_size_bytes m) (history m) ->
      Forall (fun e => size e <= max_size_bytes m) (history m'))
  /\ (sizes_consistent (history m) -> sizes_consistent (history m'))
  /\ (0 < config_max_entries (config m) ->
      len (history m) <= config_max_entries (config m) ->
      len (history m') <= config_max_entries (config m))
  /\ (synced m w -> synced m' w').
Proof.
  intros m' w'. subst m' w'. unfold monitor_run.
  rewrite (proj1 (monitor_fold_offers readings m w None)).
  pose proof (offered_not_empty readings None) as Hne.
  set (items := offered None readings) in *. clearbody items.
  assert (Hset : config (fst (add_entries m w items)) = config m
                 /\ max_size_bytes (fst (add_entries m w items)) = max_size_bytes m).
  { apply (add_entries_preserves
             (fun m0 _ => config m0 = config m /\ max_size_bytes m0 = max_size_bytes m)
             (fun _ => True)); [| now apply Forall_forall | now split].
    intros m0 w0 it _ (Hc & Hm).
    destruct (add_entry_same_settings m0 w0 (fst it) (snd it)) as (-> & ->). now split. }
  split; [exact Hset|]. split; [|split; [|split; [|split; [|split]]]].
  - intros H.
    apply (add_entries_preserves (fun m0 _ => no_adjacent_dup (history m0)) (fun _ => True));
      [| now apply Forall_forall | exact H].
    intros m0 w0 it _. apply add_entry_no_adjacent_dup.
  - intros H.
    apply (add_entries_preserves
             (fun m0 _ => Forall (fun e => content e <> EmptyString) (history m0))
             (fun it => snd it <> EmptyString)); [| exact Hne | exact H].
    intros m0 w0 it Hq. now apply add_entry_keeps_Forall.
  - intros H.
    apply (add_entries_preserves
             (fun m0 _ => max_size_bytes m0 = max_size_bytes m
                          /\ Forall (fun e => size e <= max_size_bytes m) (history m0))
             (fun _ => True)); [| now apply Forall_forall | now split].
    intros m0 w0 it _ (Hm & HF).
    destruct (add_entry_same_settings m0 w0 (fst it) (snd it)) as (_ & Hm').
    split; [congruence|].
    destruct (add_entry_cases m0 w0 (fst it) (snd it)) as [(E & _)|(E & Hs & _)]; rewrite E.
    + exact HF.
    + cbn [fst snd history set_history].
      destruct (appended_is_suffix m0 (fst it) (snd it)) as (k & ->).
      apply Forall_skipn_keep, Forall_app. split; [exact HF|].
      constructor; [cbn [size]; lia | constructor].
  - intros H.
    apply (add_entries_preserves (fun m0 _ => sizes_consistent (history m0)) (fun _ => True));
      [| now apply Forall_forall | exact H].
    intros m0 w0 it _. now apply add_entry_keeps_Forall.
  - intros HN H.
    apply (add_entries_preserves
             (fun m0 _ => config m0 = config m
                          /\ len (history m0) <= config_max_entries (config m))
             (fun _ => True)); [| now apply Forall_forall | now split].
    intros m0 w0 it _ (Hc & Hl).
    destruct (add_entry_same_settings m0 w0 (fst it) (snd it)) as (Hc' & _).
    split; [congruence|]. rewrite <- Hc in *. now apply add_entry_within_bound.
  - intros H.
    apply (add_entries_preserves (fun m0 w0 => synced m0 w0) (fun _ => True));
      [| now apply Forall_forall | exact H].
    intros m0 w0 it _. apply add_entry_synced.
Qed.

End MonitorLoop.

(** * Opening a data directory *)

(** X8: opening a directory a second time changes nothing: when
    [ClipboardManager(...)] succeeds, a second one on the directory it
    left returns the same manager and writes nothing.  The first one
    leaves the history file alone, writes the configuration file with the
    defaults only when there was none, and starts with an empty log when
    there is no history file. *)
Theorem init_again (max_size_mb : Z) (w : world) (m : ClipboardManager) (w1 : world) :
  init max_size_mb w = Loaded (m, w1) ->
  init max_size_mb w1 = Loaded (m, w1)
  /\ history_file w1 = history_file w
  /\ clipboard w1 = clipboard w
  /\ (history_file w = None -> history m = [])
  /\ (config_file w = None ->
      config m = default_config
      /\ w1 = write_file ConfigFile (Json.dumps (json_of_config default_config)) w)
  /\ (config_file w <> None -> w1 = w).
Proof.
  unfold init, load_data. intros E.
  destruct (match history_file w with
            | Some text => decode history_of_json text
            | None => Loaded []
            end) as [h|err] eqn:Eh; [|discriminate].
  destruct (config_file w) as [text|] eqn:Ec.
  - destruct (decode config_of_json text) as [c|err] eqn:Ed; [|discriminate].
    injection E as <- <-. rewrite Eh, Ec, Ed.
    repeat split; try congruence.
    intros Hn. rewrite Hn in Eh. now injection Eh as <-.
  - injection E as <- <-. unfold save_config.
    cbn [write_file history_file config_file clipboard config].
    rewrite Eh, decode_saved_config.
    repeat split; try congruence.
    intros Hn. rewrite Hn in Eh. now injection Eh as <-.
Qed.

(** X9: the configuration [save_config] writes is the configuration the
    next manager opened on the directory gets, each of its two values
    present or absent as it was, provided the history file is absent or
    readable; opening then writes nothing. *)
Theorem save_config_then_open (m : ClipboardManager) (w : world) (max_size_mb : Z) :
  history_loadable w ->
  exists m',
    init max_size_mb (save_config m w) = Loaded (m', save_config m w)
    /\ config m' = config m.
Proof.
  unfold history_loadable, init, load_data, save_config.
  cbn [write_file history_file config_file]. intros Hh.
  rewrite decode_saved_config.
  destruct (history_file w) as [text|].
  - destruct Hh as (h & ->). eexists. split; reflexivity.
  - eexists. split; reflexivity.
Qed.

(** * More on the queries *)

Section QueriesMore.
Context {lib : PyLib}.

Lemma filter_since_incl (cutoff : Z) (h : list entry) :
  forall kept, filter_since cutoff h = Ok kept ->
  incl kept h /\ len kept <= len h
  /\ Forall (fun e => recent cutoff e = true) kept.
Proof.
  induction h as [|e h IH]; intros kept E.
  - injection E as <-. repeat split; [apply incl_refl | lia | constructor].
  - cbn [filter_since] in E.
    destruct (fromisoformat (timestamp e)) as [d|] eqn:Ef; [|discriminate].
    cbn [bind] in E. unfold datetime_ge in E.
    destruct (utcoffset d) eqn:Eu; [discriminate|]. cbn [bind] in E.
    destruct (filter_since cutoff h) as [rest|]; [|discriminate].
    cbn [bind] in E. injection E as <-.
    destruct (IH rest eq_refl) as (Hi & Hl & Hr).
    unfold len in *. cbn [length].
    destruct (cutoff <=? wall d) eqn:Ew.
    + repeat split.
      * intros x [->|Hx]; [now left | right; now apply Hi].
      * cbn [length]. lia.
      * constructor; [|exact Hr]. unfold recent, naive_time. now rewrite Ef, Eu.
    + repeat split; [intros x Hx; right; now apply Hi | lia | exact Hr].
Qed.

Lemma firstn_incl {A : Type} (k : nat) (l : list A) : incl (firstn k l) l.
Proof.
  intros x Hx. rewrite <- (firstn_skipn k l). apply in_or_app. now left.
Qed.

Lemma slice_to_incl {A : Type} (n : Z) (l : list A) : incl (slice_to n l) l.
Proof. unfold slice_to. apply firstn_incl. Qed.

(** X10: [list_entries] lists only entries of the log, and with a positive
    limit no more than [limit] of them; with [days] given, every listed
    entry is at or after the cutoff. *)
Theorem list_entries_bounds (m : ClipboardManager) (now : Z) (limit days : option Z)
    (listed : list entry) :
  list_entries m now limit days = Ok listed ->
  incl listed (history m)
  /\ len listed <= len (history m)
  /\ (forall n, limit = Some n -> 0 < n -> len listed <= n)
  /\ (forall d cutoff, days = Some d -> d <> 0 -> cutoff_before now d = Ok cutoff ->
      Forall (fun e => recent cutoff e = true) listed).
Proof.
  unfold list_entries. intros E.
  destruct (if_truthy days
              (fun d => cutoff <- cutoff_before now d ;; filter_since cutoff (history m))
              (Ok (history m))) as [kept|] eqn:Ek; [|discriminate].
  cbn [bind] in E. injection E as <-.
  assert (Hk : incl kept (history m) /\ len kept <= len (history m)
               /\ (forall d cutoff, days = Some d -> d <> 0 ->
                   cutoff_before now d = Ok cutoff ->
                   Forall (fun e => recent cutoff e = true) kept)).
  { unfold if_truthy in Ek. destruct days as [d|].
    - destruct (Z.eqb_spec d 0) as [->|Hne].
      + injection Ek as <-. repeat split; [apply incl_refl | lia |].
        intros d c [= <-] H. congruence.
      + destruct (cutoff_before now d) as [c|] eqn:Ec; [|discriminate].
        cbn [bind] in Ek. destruct (filter_since_incl c _ _ Ek) as (Hi & Hl & Hr).
        repeat split; [exact Hi | exact Hl |].
        intros d' c' [= <-] _ Ec'. rewrite Ec in Ec'. now injection Ec' as <-.
    - injection Ek as <-. repeat split; [apply incl_refl | lia | discriminate]. }
  destruct Hk as (Hi & Hl & Hr).
  assert (Hcut : incl (if_truthy limit (fun n => slice_to n (rev kept)) (rev kept)) (rev kept)).
  { unfold if_truthy. destruct limit as [n|]; [|apply incl_refl].
    destruct (n =? 0); [apply incl_refl | apply slice_to_incl]. }
  assert (Hlen : len (if_truthy limit (fun n => slice_to n (rev kept)) (rev kept))
                 <= len kept).
  { unfold if_truthy. rewrite <- (len_rev kept).
    destruct limit as [n|]; [|lia].
    destruct (n =? 0); [lia|].
    unfold slice_to, len. rewrite length_firstn. lia. }
  repeat split.
  - intros x Hx. apply Hi, in_rev, Hcut, Hx.
  - lia.
  - intros n -> Hn. unfold if_truthy.
    destruct (Z.eqb_spec n 0); [lia|].
    rewrite slice_to_pos by lia. unfold len. rewrite length_firstn. lia.
  - intros d c Hd Hne Hc. apply Forall_forall. intros x Hx.
    apply (proj1 (Forall_forall _ _) (Hr d c Hd Hne Hc)), in_rev, Hcut, Hx.
Qed.

(** X11: a negative limit does not limit from the front: [entries[:-k]]
    leaves out the last [k] entries of the listing, which are the [k]
    oldest, and lists nothing when the log has no more than [k]. *)
Theorem list_entries_negative_limit (m : ClipboardManager) (now k : Z) :
  0 < k ->
  list_entries m now (Some (- k)) None
  = Ok (firstn (length (history m) - Z.to_nat k) (rev (history m)))
  /\ (len (history m) <= k -> list_entries m now (Some (- k)) None = Ok []).
Proof.
  intros Hk.
  assert (E : list_entries m now (Some (- k)) None
              = Ok (firstn (length (history m) - Z.to_nat k) (rev (history m)))).
  { unfold list_entries, if_truthy. cbn [bind].
    destruct (Z.eqb_spec (- k) 0); [lia|].
    unfold slice_to, clamp_index. rewrite len_rev.
    destruct (Z.ltb_spec (- k) 0); [|lia].
    do 2 f_equal. unfold len. lia. }
  split; [exact E|]. intros Hl. rewrite E.
  replace (length (history m) - Z.to_nat k)%nat with 0%nat by (unfold len in Hl; lia).
  reflexivity.
Qed.

Lemma str_in_empty (s : string) : str_in EmptyString s = true.
Proof. destruct s; reflexivity. Qed.

Lemma prefix_refl (s : string) : String.prefix s s = true.
Proof.
  induction s as [|c s IH]; [reflexivity|]. cbn [String.prefix].
  destruct (ascii_dec c c); [exact IH | congruence].
Qed.

Lemma str_in_refl (s : string) : str_in s s = true.
Proof. destruct s; cbn [str_in]; now rewrite prefix_refl. Qed.

Lemma search_is_prefix (m : ClipboardManager) (query : string) (limit : option Z) :
  exists k,
    search m query limit = firstn k (filter (matches query) (rev (history m)))
    /\ (forall n, limit = Some n -> 0 < n -> k = Z.to_nat n)
    /\ (limit = None \/ limit = Some 0 ->
        search m query limit = filter (matches query) (rev (history m)))
    /\ (0 < k)%nat.
Proof.
  unfold search, matches.
  set (all := filter _ _).
  destruct limit as [n|].
  - destruct (Z.eqb_spec n 0) as [->|Hne].
    + exists (S (length all)). rewrite search_loop_unlimited by auto. cbn [app].
      fold all. repeat split; try lia; [now rewrite firstn_all2 by lia|].
      intros n [= <-]. lia.
    + destruct (Z.ltb_spec 0 n).
      * exists (Z.to_nat n). rewrite search_loop_positive by (cbn; lia).
        cbn [app len length]. rewrite Z.sub_0_r. fold all.
        repeat split; try lia.
        -- now intros n0 [= <-].
        -- intros [H0|H0]; [discriminate | injection H0 as ->; lia].
      * exists 1%nat. rewrite search_loop_negative by lia. cbn [app]. fold all.
        repeat split; try lia.
        -- intros n0 [= <-]. lia.
        -- intros [H0|H0]; [discriminate | injection H0 as ->; lia].
  - exists (S (length all)). rewrite search_loop_unlimited by auto. cbn [app]. fold all.
    repeat split; try lia; [now rewrite firstn_all2 by lia | discriminate].
Qed.

(** X12: [search] finds only entries of the log, each of which contains the
    lowered query in its lowered content, and with a positive limit no
    more than [limit] of them; when lowering the empty text gives the
    empty text, the empty query finds every entry, newest first. *)
Theorem search_results (m : ClipboardManager) (query : string) (limit : option Z) :
  Forall (fun e => In e (history m) /\ matches query e = true) (search m query limit)
  /\ (forall n, limit = Some n -> 0 < n -> len (search m query limit) <= n)
  /\ (str_lower EmptyString = EmptyString ->
      search m EmptyString None = rev (history m)).
Proof.
  destruct (search_is_prefix m query limit) as (k & E & Hk & _).
  split; [|split].
  - apply Forall_forall. intros e He. rewrite E in He.
    apply firstn_incl, filter_In in He. destruct He as (Hin & Hm).
    split; [now apply in_rev | exact Hm].
  - intros n Hl Hn. rewrite E, (Hk n Hl Hn). unfold len.
    pose proof (firstn_le_length (Z.to_nat n)
                  (filter (matches query) (rev (history m)))). lia.
  - intros Hlow.
    destruct (search_is_prefix m EmptyString None) as (_ & _ & _ & Hall & _).
    rewrite (Hall (or_introl eq_refl)).
    unfold matches. rewrite Hlow. clear.
    induction (rev (history m)) as [|e l IH]; [reflexivity|].
    cbn [filter]. rewrite str_in_empty. f_equal. exact IH.
Qed.

Lemma get_entry_shows (m : ClipboardManager) (w : world) (index : Z)
    (response : option string) :
  1 <= index <= len (history m) ->
  exists e,
    nth_error (rev (history m)) (Z.to_nat (index - 1)) = Some e
    /\ get_entry m w index response
       = (dt <- fromisoformat (timestamp e) ;; Ok (offer_copy w e response)).
Proof.
  intros (Hlo & Hhi). unfold get_entry.
  destruct (history m) as [|a h] eqn:E.
  { unfold len in Hhi. cbn [length] in Hhi. lia. }
  rewrite <- E in *. rewrite len_rev.
  destruct (Z.ltb_spec index 1); [lia|].
  destruct (Z.ltb_spec (len (history m)) index); [lia|]. cbn [orb].
  destruct (nth_error (rev (history m)) (Z.to_nat (index - 1))) as [e|] eqn:En.
  - exists e. split; reflexivity.
  - apply nth_error_None in En. rewrite length_rev in En. unfold len in Hhi. lia.
Qed.

(** X13: [get_entry] counts from the newest entry: every index from 1 to
    the length [N] of the log chooses the entry stored at position
    [N - index] (from 0), which is the entry [list_entries] selects under
    that number when it is given neither limit nor days.  The entry is
    shown when its timestamp parses; when the parse raises, [get_entry]
    raises the same error and shows nothing. *)
Theorem get_entry_position (m : ClipboardManager) (w : world) (now index : Z)
    (response : option string) :
  1 <= index <= len (history m) ->
  exists e,
    nth_error (history m) (length (history m) - Z.to_nat index) = Some e
    /\ (exists listed, list_entries m now None None = Ok listed
                       /\ nth_error listed (Z.to_nat (index - 1)) = Some e)
    /\ (readable e ->
        exists copied w', get_entry m w index response = Ok (Shown e copied, w'))
    /\ (forall x, fromisoformat (timestamp e) = Raise x ->
                  get_entry m w index response = Raise x).
Proof.
  intros Hi.
  destruct (get_entry_shows m w index response Hi) as (e & Hn & ->).
  assert (Hpos : nth_error (history m) (length (history m) - Z.to_nat index) = Some e).
  { rewrite nth_error_rev in Hn.
    destruct (Nat.ltb_spec (Z.to_nat (index - 1)) (length (history m))) as [_|Hge];
      [|discriminate].
    rewrite <- Hn. f_equal. unfold len in Hi. lia. }
  exists e. split; [exact Hpos|]. split.
  { exists (rev (history m)). split; [reflexivity | exact Hn]. }
  unfold offer_copy.
  destruct response as [r|]; [destruct (str_lower r =? "y")%string|];
    (split; [intros [d ->]; cbn [bind]; eexists _, _; reflexivity
            | intros x ->; reflexivity]).
Qed.

(** X14: whenever [get_entry] returns it has written no file and changed
    nothing, except that it puts the content of the entry it shows on the
    clipboard exactly when the answer at the prompt, lowered, is [y]; any
    other answer, an interrupted prompt, and every refusal leave the
    clipboard as it is.  An entry is shown only if its timestamp parses;
    and for an index from 1 to the length of the log, an entry whose
    timestamp parses and an answer that lowers to [y], the entry is shown
    and its content is on the clipboard afterwards. *)
Theorem get_entry_copy_back (m : ClipboardManager) (w : world) (index : Z)
    (response : option string) :
  (forall out w',
     get_entry m w index response = Ok (out, w') ->
     history_file w' = history_file w
     /\ config_file w' = config_file w
     /\ writes w' = writes w
     /\ match out with
        | Shown e copied =>
            readable e
            /\ if copied
               then clipboard w' = content e
                    /\ exists r, response = Some r /\ str_lower r = "y"
               else w' = w
                    /\ ~ (exists r, response = Some r /\ str_lower r = "y")
        | _ => w' = w
        end)
  /\ (forall e r,
        1 <= index <= len (history m) ->
        nth_error (history m) (length (history m) - Z.to_nat index) = Some e ->
        readable e -> response = Some r -> str_lower r = "y" ->
        get_entry m w index response
        = Ok (Shown e true,
              {| history_file := history_file w; config_file := config_file w;
                 clipboard := content e; writes := writes w |})).
Proof.
  split.
  - intros out w'. unfold get_entry.
    destruct (history m) as [|a h]; [intros [= <- <-]; auto|].
    destruct ((index <? 1) || (len (rev (a :: h)) <? index)); [intros [= <- <-]; auto|].
    destruct (nth_error (rev (a :: h)) (Z.to_nat (index - 1))) as [e|];
      [|intros [= <- <-]; auto].
    destruct (fromisoformat (timestamp e)) as [d|x] eqn:Ed; [|discriminate].
    assert (Hr : readable e) by (now exists d).
    cbn [bind]. unfold offer_copy.
    destruct response as [r|].
    + destruct (String.eqb_spec (str_lower r) "y") as [Hy|Hn]; intros [= <- <-].
      * cbn [history_file config_file writes clipboard]. repeat split; eauto.
      * repeat split; auto. intros (r' & [= <-] & Hy). contradiction.
    + intros [= <- <-]. repeat split; auto. intros (r' & Hr' & _). discriminate.
  - intros e r Hi Hpos [d Hd] -> Hy.
    destruct (get_entry_shows m w index (Some r) Hi) as (e' & Hn & ->).
    assert (e' = e) as ->.
    { rewrite nth_error_rev in Hn.
      destruct (Nat.ltb_spec (Z.to_nat (index - 1)) (length (history m))) as [_|Hge];
        [|discriminate].
      replace (length (history m) - S (Z.to_nat (index - 1)))%nat
        with (length (history m) - Z.to_nat index)%nat in Hn by lia.
      congruence. }
    rewrite Hd. cbn [bind]. unfold offer_copy.
    destruct (String.eqb_spec (str_lower r) "y"); [reflexivity | contradiction].
Qed.

Lemma skipn_snoc {A : Type} (k : nat) (l : list A) (x : A) :
  skipn k (l ++ [x]) = [] \/ exists l', skipn k (l ++ [x]) = (l' ++ [x])%list.
Proof.
  destruct (Nat.le_gt_cases k (length l)) as [Hle|Hgt].
  - right. exists (skipn k l). rewrite skipn_app.
    now replace (k - length l)%nat with 0%nat by lia.
  - left. apply skipn_all2. rewrite length_app. cbn [length]. lia.
Qed.

(** X15: what was just captured is entry number 1: after an accepted
    [add_entry] under a non-negative [max_entries], [get_entry] shows the
    new entry for index 1 (provided the timestamp just written parses),
    [list_entries] without limit or days selects it first, and a search
    for its own text selects it first. *)
Theorem added_is_first (m : ClipboardManager) (w : world) (now now' : Z) (text : string)
    (m' : ClipboardManager) (w' : world) (limit : option Z) :
  0 <= config_max_entries (config m) ->
  add_entry m w now text = (true, m', w') ->
  (readable (new_entry (now, text)) ->
   get_entry m' w' 1 None = Ok (Shown (new_entry (now, text)) false, w'))
  /\ (exists rest, list_entries m' now' None None = Ok (new_entry (now, text) :: rest))
  /\ hd_error (search m' text limit) = Some (new_entry (now, text)).
Proof.
  intros HN E.
  destruct (add_entry_cases m w now text) as [(E1 & _)|(E1 & _)];
    rewrite E1 in E; [discriminate|]. injection E as <- <-.
  assert (Hrev : exists rest, rev (history (set_history m (appended m now text)))
                              = new_entry (now, text) :: rest).
  { cbn [history set_history].
    destruct (appended_nonempty m now text HN) as (h0 & e & Ea & _).
    destruct (appended_is_suffix m now text) as (k & Hk).
    change {| content := text; timestamp := isoformat now; size := utf8_len text |}
      with (new_entry (now, text)) in Hk.
    destruct (skipn_snoc k (history m) (new_entry (now, text))) as [Hnil|(h' & Hs)].
    - rewrite Hk, Hnil in Ea. now destruct h0.
    - rewrite Hk, Hs, rev_unit. eauto. }
  destruct Hrev as (rest & Hrev).
  set (m1 := set_history m (appended m now text)) in *.
  split; [|split].
  - intros [d Hd]. unfold get_entry.
    destruct (history m1) as [|a h] eqn:Eh; [discriminate Hrev|].
    rewrite Hrev.
    change (1 <? 1) with false. change (Z.to_nat (1 - 1)) with 0%nat.
    destruct (Z.ltb_spec (len (new_entry (now, text) :: rest)) 1) as [Hlt|_].
    { unfold len in Hlt. cbn [length] in Hlt. lia. }
    cbn [orb nth_error]. now rewrite Hd.
  - exists rest. unfold list_entries, if_truthy. cbn [bind]. now rewrite Hrev.
  - destruct (search_is_prefix m1 text limit) as (k & -> & _ & _ & Hk).
    rewrite Hrev. cbn [filter]. unfold matches at 1. cbn [content new_entry snd].
    rewrite str_in_refl. destruct k as [|k]; [lia | reflexivity].
Qed.

End QueriesMore.

(** * More on pruning *)

Section PruningMore.
Context {lib : PyLib}.

Lemma filter_since_all_recent (cutoff : Z) (h : list entry) :
  Forall (fun e => recent cutoff e = true) h -> filter_since cutoff h = Ok h.
Proof.
  induction 1 as [|e h He _ IH]; [reflexivity|].
  cbn [filter_since]. unfold recent, naive_time in He.
  destruct (fromisoformat (timestamp e)) as [d|]; [|discriminate].
  cbn [bind]. unfold datetime_ge.
  destruct (utcoffset d); [discriminate|]. cbn [bind].
  now rewrite IH, He.
Qed.

Lemma clear_result (m : ClipboardManager) (w : world) (now : Z) (days : option Z)
    (response : string) (report : clear_report) (m' : ClipboardManager) (w' : world) :
  clear m w now days response = Ok (report, m', w') ->
  w' = save_data m' w
  /\ ((exists d cutoff kept,
         days = Some d /\ d <> 0 /\ cutoff_before now d = Ok cutoff
         /\ filter_since cutoff (history m) = Ok kept
         /\ report = Removed (len (history m) - len kept) /\ m' = set_history m kept)
      \/ ((days = None \/ days = Some 0)
          /\ ((str_lower response = "yes" /\ report = Cleared /\ m' = set_history m [])
              \/ (str_lower response <> "yes" /\ report = Cancelled /\ m' = m)))).
Proof.
  unfold clear, if_truthy. intros E.
  destruct days as [d|].
  - destruct (Z.eqb_spec d 0) as [->|Hne].
    + cbn [bind fst snd] in E.
      destruct (String.eqb_spec (str_lower response) "yes") as [Hy|Hn];
        cbn [fst snd] in E; injection E as <- <- <-;
        (split; [reflexivity|]; right; split; [now right|]); [left | right]; auto.
    + destruct (cutoff_before now d) as [c|] eqn:Ec; [|discriminate].
      cbn [bind] in E.
      destruct (filter_since c (history m)) as [kept|] eqn:Ek; [|discriminate].
      cbn [bind fst snd] in E. injection E as <- <- <-.
      split; [reflexivity|]. left. exists d, c, kept. repeat split; assumption.
  - cbn [bind fst snd] in E.
    destruct (String.eqb_spec (str_lower response) "yes") as [Hy|Hn];
      cbn [fst snd] in E; injection E as <- <- <-;
      (split; [reflexivity|]; right; split; [now left|]); [left | right]; auto.
Qed.

(** X16: whenever [clear] returns, it has written the log it leaves to the
    history file, also when the confirmation was refused and the log is
    the one it started with.  It keeps the settings, never adds an entry,
    reports as removed the difference of the lengths, and clears
    everything only on the answer that lowers to [yes]. *)
Theorem clear_always_saves (m : ClipboardManager) (w : world) (now : Z)
    (days : option Z) (response : string)
    (report : clear_report) (m' : ClipboardManager) (w' : world) :
  clear m w now days response = Ok (report, m', w') ->
  synced m' w'
  /\ writes w' = (HistoryFile, Json.dumps (json_of_history (history m'))) :: writes w
  /\ config m' = config m /\ max_size_bytes m' = max_size_bytes m
  /\ incl (history m') (history m)
  /\ match report with
     | Removed n => n = len (history m) - len (history m') /\ 0 <= n
     | Cleared => history m' = [] /\ str_lower response = "yes"
     | Cancelled => m' = m /\ str_lower response <> "yes"
     end.
Proof.
  intros E. destruct (clear_result _ _ _ _ _ _ _ _ E) as (-> & H).
  split; [reflexivity|]. split; [reflexivity|].
  destruct H as [(d & c & kept & _ & _ & _ & Ek & -> & ->)
                |(_ & [(Hy & -> & ->)|(Hn & -> & ->)])].
  - destruct (filter_since_incl c _ _ Ek) as (Hi & Hl & _).
    cbn [config max_size_bytes history set_history]. repeat split; [exact Hi | lia].
  - cbn [config max_size_bytes history set_history].
    repeat split; [intros x [] | exact Hy].
  - repeat split; [apply incl_refl | exact Hn].
Qed.

Lemma filter_since_sorted (cutoff : Z) (h : list entry) :
  StronglySorted not_after h ->
  forall kept, filter_since cutoff h = Ok kept ->
  exists k, kept = skipn k h /\ len h - len kept = Z.of_nat k.
Proof.
  induction 1 as [|e h Hs IH Hall]; intros kept E.
  - injection E as <-. exists 0%nat. split; reflexivity.
  - pose proof E as E0. cbn [filter_since] in E.
    destruct (fromisoformat (timestamp e)) as [d|] eqn:Ef; [|discriminate].
    cbn [bind] in E. unfold datetime_ge in E.
    destruct (utcoffset d) eqn:Eu; [discriminate|]. cbn [bind] in E.
    destruct (filter_since cutoff h) as [rest|] eqn:Er; [|discriminate].
    cbn [bind] in E. injection E as <-.
    destruct (cutoff <=? wall d) eqn:Ew.
    + assert (Hrec : Forall (fun x => recent cutoff x = true) h).
      { apply Forall_forall. intros x Hx.
        pose proof (proj1 (Forall_forall _ _) Hall x Hx) as Hle.
        unfold not_after, recent, naive_time in *. rewrite Ef, Eu in Hle.
        destruct (fromisoformat (timestamp x)) as [dx|]; [|contradiction].
        destruct (utcoffset dx); [contradiction|].
        apply Z.leb_le in Ew. apply Z.leb_le. lia. }
      rewrite (filter_since_all_recent _ _ Hrec) in Er. injection Er as <-.
      exists 0%nat. split; [reflexivity | lia].
    + destruct (IH rest eq_refl) as (k & -> & Hk).
      exists (S k). split; [reflexivity|].
      unfold len in *. cbn [length]. lia.
Qed.

(** X17: on a log in capture order pruning by age cuts off a front part of
    the log: the entries it keeps are the log without its first [k]
    entries, [k] being the count it reports; so pruning such a log never
    brings two entries of the same content next to each other. *)
Theorem clear_cuts_front (m : ClipboardManager) (w : world) (now days : Z)
    (response : string) (report : clear_report) (m' : ClipboardManager) (w' : world) :
  days <> 0 ->
  StronglySorted not_after (history m) ->
  clear m w now (Some days) response = Ok (report, m', w') ->
  exists k,
    report = Removed (Z.of_nat k)
    /\ history m' = skipn k (history m)
    /\ (no_adjacent_dup (history m) -> no_adjacent_dup (history m')).
Proof.
  intros Hd Hs E. destruct (clear_result _ _ _ _ _ _ _ _ E) as (_ & H).
  destruct H as [(d & c & kept & _ & _ & _ & Ek & -> & ->)|([H|H] & _)];
    [| discriminate | congruence].
  destruct (filter_since_sorted c _ Hs _ Ek) as (k & -> & Hk).
  exists k. cbn [history set_history]. rewrite Hk.
  repeat split. apply no_adjacent_dup_skipn.
Qed.

(** X18: pruning by age a second time at the same moment removes nothing:
    after [clear] with [days] has returned, the same call on what it left
    reports 0 removed and leaves the same log. *)
Theorem clear_by_age_again (m : ClipboardManager) (w : world) (now days : Z)
    (response response' : string)
    (report : clear_report) (m' : ClipboardManager) (w' : world) :
  days <> 0 ->
  clear m w now (Some days) response = Ok (report, m', w') ->
  clear m' w' now (Some days) response' = Ok (Removed 0, m', save_data m' w').
Proof.
  intros Hd E. destruct (clear_result _ _ _ _ _ _ _ _ E) as (_ & H).
  destruct H as [(d & c & kept & [= <-] & _ & Ec & Ek & _ & ->)|([H|H] & _)];
    [| discriminate | congruence].
  destruct (filter_since_incl c _ _ Ek) as (_ & _ & Hr).
  unfold clear, if_truthy. destruct (Z.eqb_spec days 0); [contradiction|].
  rewrite Ec. cbn [bind history set_history].
  rewrite (filter_since_all_recent c kept Hr). cbn [bind fst snd].
  now rewrite Z.sub_diag.
Qed.

Lemma filter_since_fails (cutoff : Z) (h1 h2 : list entry) (e : entry) (x : exn) :
  well_stamped h1 ->
  (fromisoformat (timestamp e) = Raise x
   \/ exists d off, fromisoformat (timestamp e) = Ok d /\ utcoffset d = Some off
                    /\ x = TypeError) ->
  filter_since cutoff (h1 ++ e :: h2) = Raise x.
Proof.
  intros Hw He. induction Hw as [|a h1 Ha _ IH]; cbn [app filter_since].
  - destruct He as [->|(d & off & -> & Hoff & ->)]; [reflexivity|].
    cbn [bind]. unfold datetime_ge. now rewrite Hoff.
  - unfold naive_time in Ha.
    destruct (fromisoformat (timestamp a)) as [d|]; [|congruence].
    cbn [bind]. unfold datetime_ge. destruct (utcoffset d); [congruence|].
    cbn [bind]. now rewrite IH.
Qed.

Lemma count_days_fails (h1 h2 : list entry) (e : entry) (x : exn) :
  well_stamped h1 ->
  fromisoformat (timestamp e) = Raise x ->
  forall by_day, count_days (h1 ++ e :: h2) by_day = Raise x.
Proof.
  intros Hw He. induction Hw as [|a h1 Ha _ IH]; intros by_day; cbn [app count_days].
  - now rewrite He.
  - unfold naive_time in Ha.
    destruct (fromisoformat (timestamp a)) as [d|]; [|congruence].
    cbn [bind]. apply IH.
Qed.

(** X19: one unreadable timestamp stops every operation that reads
    timestamps: when the first entry whose timestamp is not a naive ISO
    datetime fails to parse, [list_entries] with [days], [clear] with
    [days] and [stats] all fail with the error of the parse ([stats]
    unless the division for its average, which comes first, has raised
    [OverflowError]), and when it carries a UTC offset the first two fail
    with [TypeError].  [clear] then has written nothing, and [stats] and
    [list_entries] have printed nothing. *)
Theorem unreadable_timestamp (m : ClipboardManager) (w : world) (now days cutoff : Z)
    (limit : option Z) (response : string) (h1 h2 : list entry) (e : entry) :
  history m = (h1 ++ e :: h2)%list ->
  well_stamped h1 ->
  days <> 0 ->
  cutoff_before now days = Ok cutoff ->
  (forall x, fromisoformat (timestamp e) = Raise x ->
     list_entries m now limit (Some days) = Raise x
     /\ clear m w now (Some days) response = Raise x
     /\ stats m
        = (avg <- average (stored_total (history m)) (len (history m)) ;; Raise x))
  /\ (forall d off, fromisoformat (timestamp e) = Ok d -> utcoffset d = Some off ->
        list_entries m now limit (Some days) = Raise TypeError
        /\ clear m w now (Some days) response = Raise TypeError).
Proof.
  intros Eh Hw Hd Hc.
  assert (Hfail : forall x,
            (fromisoformat (timestamp e) = Raise x
             \/ exists d off, fromisoformat (timestamp e) = Ok d /\ utcoffset d = Some off
                              /\ x = TypeError) ->
            list_entries m now limit (Some days) = Raise x
            /\ clear m w now (Some days) response = Raise x).
  { intros x Hx. unfold list_entries, clear, if_truthy.
    destruct (Z.eqb_spec days 0); [contradiction|].
    rewrite Hc, Eh. cbn [bind]. rewrite (filter_since_fails cutoff h1 h2 e x Hw Hx).
    split; reflexivity. }
  split.
  - intros x Hx. destruct (Hfail x (or_introl Hx)) as (H1 & H2).
    split; [exact H1|]. split; [exact H2|].
    assert (Ec : count_days (history m) [] = Raise x)
      by (rewrite Eh; apply count_days_fails; assumption).
    assert (Hne : history m <> []) by (rewrite Eh; now destruct h1).
    unfold stats. rewrite fold_left_sizes, Z.add_0_l, Ec.
    destruct (history m) as [|a l]; [congruence|].
    destruct (average _ _); reflexivity.
  - intros d off Hp Hoff. apply Hfail. right. eauto.
Qed.

End PruningMore.

(** * The day counts of the statistics *)

Section StatisticsMore.
Context {lib : PyLib}.

Lemma bump_facts (day : Z) (by_day : list (Z * Z)) :
  day_total (bump day by_day) = day_total by_day + 1
  /\ (NoDup (map fst by_day) -> NoDup (map fst (bump day by_day)))
  /\ (Forall (fun p => 1 <= snd p) by_day -> Forall (fun p => 1 <= snd p) (bump day by_day))
  /\ (forall d, In d (map fst (bump day by_day)) <-> d = day \/ In d (map fst by_day))
  /\ (length by_day <= length (bump day by_day) <= S (length by_day))%nat.
Proof.
  unfold day_total.
  induction by_day as [|[d c] rest (IH1 & IH2 & IH3 & IH4 & IH5)]; cbn [bump].
  - split; [reflexivity|]. split; [|split; [|split]].
    + intros _. constructor; [intros [] | constructor].
    + intros _. constructor; [cbn; lia | constructor].
    + intros d. cbn. intuition congruence.
    + cbn. lia.
  - destruct (Z.eqb_spec d day) as [->|Hne]; cbn [map fst snd fold_right length].
    + split; [lia|]. split; [|split; [|split]].
      * auto.
      * intros H. inversion H as [|? ? Hc Hr]; subst.
        constructor; [cbn in *; lia | exact Hr].
      * intros d. cbn. intuition congruence.
      * lia.
    + split; [lia|]. split; [|split; [|split]].
      * intros H. inversion H as [|? ? Hn Hd]; subst. constructor; [|auto].
        intros Hin. apply IH4 in Hin. destruct Hin as [->|Hin]; [congruence | auto].
      * intros H. inversion H as [|? ? Hc Hr]; subst. constructor; auto.
      * intros d0. cbn [In]. rewrite IH4. intuition congruence.
      * lia.
Qed.

Lemma count_days_facts (h : list entry) :
  forall by_day counted,
  count_days h by_day = Ok counted ->
  day_total counted = day_total by_day + len h
  /\ (NoDup (map fst by_day) -> NoDup (map fst counted))
  /\ (Forall (fun p => 1 <= snd p) by_day -> Forall (fun p => 1 <= snd p) counted)
  /\ (length by_day <= length counted <= length by_day + length h)%nat
  /\ (h <> [] -> counted <> []).
Proof.
  induction h as [|e h IH]; intros by_day counted E.
  - injection E as <-. unfold len. cbn [length]. repeat split; auto; try lia; congruence.
  - cbn [count_days] in E.
    destruct (fromisoformat (timestamp e)) as [d|]; [|discriminate].
    cbn [bind] in E.
    destruct (IH _ _ E) as (H1 & H2 & H3 & H4 & _).
    destruct (bump_facts (date_of d) by_day) as (B1 & B2 & B3 & _ & B5).
    unfold len in *. cbn [length]. repeat split; auto; try lia.
    intros _ ->. cbn [length] in H4.
    destruct (bump (date_of d) by_day) eqn:Eb; [|cbn [length] in H4; lia].
    destruct by_day as [|[] ?]; cbn [bump] in Eb; [discriminate|].
    destruct (_ =? _); discriminate.
Qed.

Lemma insert_desc_perm (x : Z * Z) (l : list (Z * Z)) :
  Permutation (insert_desc x l) (x :: l).
Proof.
  induction l as [|y l IH]; cbn [insert_desc]; [reflexivity|].
  destruct (snd y <=? snd x); [reflexivity|].
  rewrite IH. apply perm_swap.
Qed.

Lemma sorted_desc_perm (l : list (Z * Z)) : Permutation (sorted_desc l) l.
Proof.
  unfold sorted_desc. induction l as [|x l IH]; cbn [fold_right]; [reflexivity|].
  rewrite insert_desc_perm. now constructor.
Qed.

Lemma insert_desc_sorted (x : Z * Z) (l : list (Z * Z)) :
  busiest_first l -> busiest_first (insert_desc x l).
Proof.
  unfold busiest_first. induction 1 as [|y l Hs IH Hall]; cbn [insert_desc].
  - repeat constructor.
  - destruct (Z.leb_spec (snd y) (snd x)) as [Hle|Hgt].
    + constructor; [now constructor|].
      constructor; [exact Hle|].
      apply Forall_forall. intros z Hz.
      pose proof (proj1 (Forall_forall _ _) Hall z Hz) as Hzy. cbn beta in Hzy. lia.
    + constructor; [exact IH|].
      apply Forall_forall. intros z Hz.
      apply (Permutation_in _ (insert_desc_perm x l)) in Hz.
      destruct Hz as [<-|Hz]; [lia|].
      exact (proj1 (Forall_forall _ _) Hall z Hz).
Qed.

Lemma sorted_desc_sorted (l : list (Z * Z)) : busiest_first (sorted_desc l).
Proof.
  unfold sorted_desc. induction l as [|x l IH]; cbn [fold_right].
  - constructor.
  - now apply insert_desc_sorted.
Qed.

Lemma busiest_first_firstn (k : nat) (l : list (Z * Z)) :
  busiest_first l -> busiest_first (firstn k l).
Proof.
  unfold busiest_first. intros H. revert k.
  induction H as [|y l Hs IH Hall]; intros [|k]; cbn [firstn]; try constructor.
  - apply IH.
  - apply Forall_forall. intros z Hz. apply firstn_incl in Hz.
    exact (proj1 (Forall_forall _ _) Hall z Hz).
Qed.

Lemma day_total_perm (l l' : list (Z * Z)) :
  Permutation l l' -> day_total l = day_total l'.
Proof.
  unfold day_total. induction 1; cbn [map fold_right]; lia.
Qed.

Lemma day_total_nonneg (l : list (Z * Z)) :
  Forall (fun p => 1 <= snd p) l -> 0 <= day_total l.
Proof.
  unfold day_total. induction 1 as [|y l Hy _ IH]; cbn [map fold_right]; lia.
Qed.

Lemma day_total_firstn (k : nat) (l : list (Z * Z)) :
  Forall (fun p => 1 <= snd p) l ->
  day_total (firstn k l) <= day_total l
  /\ ((length l <= k)%nat -> day_total (firstn k l) = day_total l).
Proof.
  intros H. split.
  - revert k. induction H as [|y l Hy Hl IH]; intros [|k]; cbn [firstn].
    + reflexivity.
    + reflexivity.
    + pose proof (day_total_nonneg (y :: l) (Forall_cons (P := fun p => 1 <= snd p) y Hy Hl)).
      change (day_total []) with 0. lia.
    + specialize (IH k). unfold day_total in *. cbn [map fold_right]. lia.
  - intros Hk. now rewrite firstn_all2.
Qed.

Lemma stats_report_form (m : ClipboardManager) (r : stats_report) :
  stats m = Ok (Some r) ->
  exists by_day avg mb,
    count_days (history m) [] = Ok by_day
    /\ history m <> []
    /\ r = {| total_entries := len (history m);
              total_size := stored_total (history m);
              total_size_mb := mb;
              avg_size := avg;
              days_with_activity := len by_day;
              most_active_days := firstn 5 (sorted_desc by_day) |}.
Proof.
  intros E.
  destruct (stats_returns m r E) as (p & f & by_day & mb & Hne & _ & _ & Ec & ->).
  exists by_day, (PyFloat f), mb. repeat split; assumption.
Qed.

(** X20: of what [stats] reports on the days: the days with activity are
    at least one and at most as many as the entries; the most active days
    are the five busiest of them (all of them when there are fewer), each
    day once, every one with at least one entry, a day with more entries
    never after a day with fewer; their counts add up to no more than the
    number of entries, and to exactly that number when no more than five
    days have activity. *)
Theorem stats_days (m : ClipboardManager) (r : stats_report) :
  stats m = Ok (Some r) ->
  1 <= days_with_activity r <= total_entries r
  /\ len (most_active_days r) = Z.min 5 (days_with_activity r)
  /\ busiest_first (most_active_days r)
  /\ NoDup (map fst (most_active_days r))
  /\ Forall (fun p => 1 <= snd p) (most_active_days r)
  /\ day_total (most_active_days r) <= total_entries r
  /\ (days_with_activity r <= 5 -> day_total (most_active_days r) = total_entries r).
Proof.
  intros E. destruct (stats_report_form m r E) as (by_day & avg & mb & Ec & Hh & ->).
  cbn [days_with_activity total_entries most_active_days].
  destruct (count_days_facts _ _ _ Ec) as (Ht & Hn & Hp & Hl & Hne).
  specialize (Hn (NoDup_nil _)). specialize (Hp (Forall_nil _)).
  assert (Hne' : by_day <> []) by (apply Hne; exact Hh).
  change (day_total []) with 0 in Ht. rewrite Z.add_0_l in Ht.
  pose proof (sorted_desc_perm by_day) as Hperm.
  assert (Hp' : Forall (fun p => 1 <= snd p) (sorted_desc by_day)).
  { apply Forall_forall. intros p Hin.
    apply (Permutation_in _ Hperm) in Hin.
    exact (proj1 (Forall_forall _ _) Hp p Hin). }
  assert (Hlen : length (sorted_desc by_day) = length by_day)
    by (now apply Permutation_length).
  destruct (day_total_firstn 5 _ Hp') as (Hle & Heq).
  rewrite (day_total_perm _ _ Hperm), Ht in Hle, Heq.
  repeat split.
  - unfold len. destruct by_day; [congruence | cbn [length]; lia].
  - unfold len in *. cbn [length] in Hl. lia.
  - unfold len. rewrite length_firstn, Hlen. lia.
  - apply busiest_first_firstn, sorted_desc_sorted.
  - assert (Hnd : NoDup (map fst (sorted_desc by_day))).
    { apply (Permutation_NoDup (l := map fst by_day)); [|exact Hn].
      apply Permutation_map. now symmetry. }
    rewrite <- (firstn_skipn 5 (sorted_desc by_day)), map_app in Hnd.
    now apply NoDup_app_remove_r in Hnd.
  - apply Forall_forall. intros p Hin. apply firstn_incl in Hin.
    exact (proj1 (Forall_forall _ _) Hp' p Hin).
  - exact Hle.
  - intros H5. apply Heq. unfold len in H5. lia.
Qed.

End StatisticsMore.

(** * Saving what was opened *)

Lemma init_config_file (max_size_mb : Z) (w : world) (m : ClipboardManager) (w1 : world) :
  init max_size_mb w = Loaded (m, w1) ->
  max_size_bytes m = max_size_mb * 1024 * 1024
  /\ exists text, config_file w1 = Some text
                  /\ decode config_of_json text = Loaded (config m).
Proof.
  unfold init, load_data. intros E.
  destruct (match history_file w with
            | Some text => decode history_of_json text
            | None => Loaded []
            end) as [h|err]; [|discriminate].
  destruct (config_file w) as [text|] eqn:Ec.
  - destruct (decode config_of_json text) as [c|err] eqn:Ed; [|discriminate].
    injection E as <- <-. split; [reflexivity|].
    exists text. split; [exact Ec | exact Ed].
  - injection E as <- <-. split; [reflexivity|].
    exists (Json.dumps (json_of_config default_config)).
    split; [reflexivity | apply decode_saved_config].
Qed.

(** X21: saving the log that was just opened changes nothing that is read
    back: after [ClipboardManager(...)] succeeds, [save_data] followed by a
    new [ClipboardManager(...)] with the same size bound gives the same
    manager (log, configuration and bound), and writes nothing more. *)
Theorem open_save_open (max_size_mb : Z) (w : world) (m : ClipboardManager) (w1 : world) :
  init max_size_mb w = Loaded (m, w1) ->
  init max_size_mb (save_data m w1) = Loaded (m, save_data m w1).
Proof.
  intros E. destruct (init_config_file _ _ _ _ E) as (Hmax & text & Ec & Ed).
  unfold init, load_data, save_data.
  cbn [write_file history_file config_file].
  rewrite decode_saved_history, Ec, Ed, <- Hmax.
  destruct m; reflexivity.
Qed.

Lemma open_save_open_witness :
  init 10 (save_data (empty_manager 1000)
             (write_file ConfigFile (Json.dumps (json_of_config default_config)) empty_world))
  = Loaded (empty_manager 1000,
            save_data (empty_manager 1000)
              (write_file ConfigFile (Json.dumps (json_of_config default_config))
                 empty_world)).
Proof.
  refine (open_save_open 10 empty_world (empty_manager 1000) _ _).
  vm_compute. reflexivity.
Defined.

(** * Printing: where a listing stops *)

Section DisplayFacts.
Context {lib : PyLib}.






End DisplayFacts.


(** * The further properties at concrete stores *)

Lemma add_entry_frame_witness :
  config ordered_log_then = config ordered_log.
Proof.
  refine (proj1 (add_entry_frame (lib := Reference.lib) ordered_log empty_world
                   example_now "b" true ordered_log_then
                   (save_data ordered_log_then empty_world) _)).
  vm_compute. reflexivity.
Defined.

Lemma add_entry_durable_witness :
  exists m2 w2,
    init 10 (save_data ordered_log_then configured_world) = Loaded (m2, w2)
    /\ history m2 = history ordered_log_then.
Proof.
  refine (proj2 (proj2 (add_entry_durable (lib := Reference.lib) ordered_log configured_world
                   example_now "b" true ordered_log_then
                   (save_data ordered_log_then configured_world) 10 _) eq_refl) _).
  - vm_compute. reflexivity.
  - exists default_config. vm_compute. reflexivity.
Defined.

Lemma add_entry_sizes_consistent_witness :
  sizes_consistent
    (history (snd (fst (add_entry (lib := Reference.lib) ordered_log empty_world
                          example_now "b")))).
Proof.
  apply (add_entry_sizes_consistent (lib := Reference.lib)).
  repeat (apply Forall_cons || apply Forall_nil); reflexivity.
Defined.

Lemma add_entry_without_bound_witness :
  exists m' w',
    add_entry (lib := Reference.lib) (empty_manager (-1)) empty_world example_now "a"
    = (true, m', w')
    /\ history m' = []
    /\ (config_max_entries (config (empty_manager (-1))) = 0 ->
        history m' = [new_entry (lib := Reference.lib) (example_now, "a")]).
Proof.
  apply (add_entry_without_bound (lib := Reference.lib) (empty_manager (-1)) empty_world
           example_now "a").
  - vm_compute. discriminate.
  - vm_compute. discriminate.
  - reflexivity.
Defined.

Lemma repeat_after_other_accepted_witness :
  exists m1 w1 m2 w2 m3 w3,
    add_entry (lib := Reference.lib) (empty_manager 1000) empty_world example_now "a"
    = (true, m1, w1)
    /\ add_entry (lib := Reference.lib) m1 w1 example_now "b" = (true, m2, w2)
    /\ add_entry (lib := Reference.lib) m2 w2 example_now "a" = (true, m3, w3).
Proof.
  apply (repeat_after_other_accepted (lib := Reference.lib)).
  - vm_compute. discriminate.
  - vm_compute. discriminate.
  - vm_compute. discriminate.
  - discriminate.
  - reflexivity.
Defined.

Lemma monitor_keeps_witness :
  no_adjacent_dup
    (history (fst (fst (monitor_run (lib := Reference.lib) (empty_manager 1) empty_world
                          example_readings))))
  /\ len (history (fst (fst (monitor_run (lib := Reference.lib) (empty_manager 1)
                               empty_world example_readings)))) <= 1.
Proof.
  pose proof (monitor_keeps (lib := Reference.lib) (empty_manager 1) empty_world
                example_readings) as (_ & Hdup & _ & _ & _ & Hlen & _).
  split.
  - apply Hdup. exact I.
  - apply Hlen; first [reflexivity | vm_compute; discriminate].
Defined.

Lemma init_again_witness :
  init 10 (write_file ConfigFile (Json.dumps (json_of_config default_config)) empty_world)
  = Loaded (empty_manager 1000,
            write_file ConfigFile (Json.dumps (json_of_config default_config)) empty_world).
Proof.
  refine (proj1 (init_again 10 empty_world (empty_manager 1000) _ _)).
  vm_compute. reflexivity.
Defined.

Lemma save_config_then_open_witness :
  exists m',
    init 10 (save_config full_store empty_world)
    = Loaded (m', save_config full_store empty_world)
    /\ config m' = config full_store.
Proof.
  apply (save_config_then_open full_store empty_world 10). exact I.
Defined.

Lemma list_entries_bounds_witness :
  incl [stamped "new" "2024-05-02T10:00:00"] (history ordered_log)
  /\ len [stamped "new" "2024-05-02T10:00:00"] <= len (history ordered_log).
Proof.
  pose proof (list_entries_bounds (lib := Reference.lib) ordered_log example_now
                (Some 1) (Some 2) [stamped "new" "2024-05-02T10:00:00"]) as H.
  assert (E : list_entries (lib := Reference.lib) ordered_log example_now (Some 1) (Some 2)
              = Ok [stamped "new" "2024-05-02T10:00:00"]) by (vm_compute; reflexivity).
  destruct (H E) as (H1 & H2 & _). split; assumption.
Defined.

Lemma list_entries_negative_limit_witness :
  list_entries (lib := Reference.lib) ordered_log example_now (Some (- 1)) None
  = Ok (firstn (length (history ordered_log) - Z.to_nat 1) (rev (history ordered_log))).
Proof.
  refine (proj1 (list_entries_negative_limit (lib := Reference.lib) ordered_log
                   example_now 1 _)).
  reflexivity.
Defined.

Lemma search_results_witness :
  search (lib := Reference.lib) ordered_log EmptyString None = rev (history ordered_log).
Proof.
  refine (proj2 (proj2 (search_results (lib := Reference.lib) ordered_log
                          EmptyString None)) _).
  reflexivity.
Defined.

Lemma get_entry_position_witness :
  exists e,
    nth_error (history ordered_log) (length (history ordered_log) - Z.to_nat 2) = Some e
    /\ (exists listed,
          list_entries (lib := Reference.lib) ordered_log example_now None None = Ok listed
          /\ nth_error listed (Z.to_nat (2 - 1)) = Some e)
    /\ (readable (lib := Reference.lib) e ->
        exists copied w',
          get_entry (lib := Reference.lib) ordered_log empty_world 2 None
          = Ok (Shown e copied, w'))
    /\ (forall x, fromisoformat (PyLib := Reference.lib) (timestamp e) = Raise x ->
                  get_entry (lib := Reference.lib) ordered_log empty_world 2 None
                  = Raise x).
Proof.
  apply (get_entry_position (lib := Reference.lib) ordered_log empty_world example_now 2 None).
  vm_compute. split; discriminate.
Defined.

Lemma get_entry_copy_back_witness :
  get_entry (lib := Reference.lib) ordered_log empty_world 2 (Some "Y")
  = Ok (Shown (stamped "old" "2024-05-01T10:00:00") true,
        {| history_file := None; config_file := None;
           clipboard := "old"; writes := [] |}).
Proof.
  refine (proj2 (get_entry_copy_back (lib := Reference.lib) ordered_log empty_world 2
                   (Some "Y"))
            (stamped "old" "2024-05-01T10:00:00") "Y" _ _ _ _ _).
  - vm_compute. split; discriminate.
  - reflexivity.
  - unfold readable. reads_ok.
  - reflexivity.
  - reflexivity.
Defined.

Lemma added_is_first_witness :
  hd_error (search (lib := Reference.lib) ordered_log_then "b" (Some 1))
  = Some (new_entry (lib := Reference.lib) (example_now, "b")).
Proof.
  refine (proj2 (proj2 (added_is_first (lib := Reference.lib) ordered_log empty_world
                          example_now example_now "b" ordered_log_then
                          (save_data ordered_log_then empty_world) (Some 1) _ _))).
  - vm_compute. discriminate.
  - vm_compute. reflexivity.
Defined.

Lemma clear_always_saves_witness :
  synced ordered_log (save_data ordered_log empty_world)
  /\ writes (save_data ordered_log empty_world)
     = [(HistoryFile, Json.dumps (json_of_history (history ordered_log)))].
Proof.
  pose proof (clear_always_saves (lib := Reference.lib) ordered_log empty_world example_now
                None "no" Cancelled ordered_log (save_data ordered_log empty_world)) as H.
  assert (E : clear (lib := Reference.lib) ordered_log empty_world example_now None "no"
              = Ok (Cancelled, ordered_log, save_data ordered_log empty_world))
    by (vm_compute; reflexivity).
  destruct (H E) as (H1 & H2 & _). split; assumption.
Defined.

Lemma clear_cuts_front_witness :
  exists k,
    Removed 1 = Removed (Z.of_nat k)
    /\ history ordered_log_cut = skipn k (history ordered_log)
    /\ (no_adjacent_dup (history ordered_log) -> no_adjacent_dup (history ordered_log_cut)).
Proof.
  refine (clear_cuts_front (lib := Reference.lib) ordered_log empty_world example_now 2
            EmptyString (Removed 1) ordered_log_cut
            (save_data ordered_log_cut empty_world) _ _ _).
  - discriminate.
  - repeat constructor; vm_compute; discriminate.
  - vm_compute. reflexivity.
Defined.

Lemma clear_by_age_again_witness :
  clear (lib := Reference.lib) ordered_log_cut (save_data ordered_log_cut empty_world)
    example_now (Some 2) EmptyString
  = Ok (Removed 0, ordered_log_cut,
        save_data ordered_log_cut (save_data ordered_log_cut empty_world)).
Proof.
  refine (clear_by_age_again (lib := Reference.lib) ordered_log empty_world example_now 2
            EmptyString EmptyString (Removed 1) ordered_log_cut
            (save_data ordered_log_cut empty_world) _ _).
  - discriminate.
  - vm_compute. reflexivity.
Defined.

Lemma unreadable_timestamp_witness :
  list_entries (lib := Reference.lib) unreadable_log example_now None (Some 2)
  = Raise ValueError
  /\ clear (lib := Reference.lib) unreadable_log empty_world example_now (Some 2) EmptyString
     = Raise ValueError
  /\ stats (lib := Reference.lib) unreadable_log = Raise ValueError.
Proof.
  pose proof (proj1 (unreadable_timestamp (lib := Reference.lib) unreadable_log empty_world
                       example_now 2 (example_now - 2 * DAY_US) None EmptyString
                       [stamped "old" "2024-05-01T10:00:00"] [] (stamped "x" "yesterday")
                       eq_refl
                       ltac:(repeat constructor; vm_compute; discriminate)
                       ltac:(discriminate) eq_refl)
                ValueError ltac:(vm_compute; reflexivity)) as (H1 & H2 & H3).
  split; [exact H1|]. split; [exact H2|].
  rewrite H3. vm_compute. reflexivity.
Defined.

Lemma stats_days_witness :
  match stats (lib := Reference.lib) stats_example with
  | Ok (Some r) =>
      1 <= days_with_activity r <= total_entries r
      /\ len (most_active_days r) = Z.min 5 (days_with_activity r)
      /\ day_total (most_active_days r) = total_entries r
  | _ => False
  end.
Proof.
  destruct (stats (lib := Reference.lib) stats_example) as [[r|]|] eqn:E;
    [ | vm_compute in E; discriminate E | vm_compute in E; discriminate E ].
  destruct (stats_days (lib := Reference.lib) stats_example r E)
    as (H1 & H2 & _ & _ & _ & _ & H7).
  split; [exact H1|]. split; [exact H2|]. apply H7.
  vm_compute in E. injection E as <-. vm_compute. discriminate.
Defined.
